(** * add_subscriber.py: the OsmoHLR CTRL client and the PyHSS URL helper

    A shallow embedding of [src/add_subscriber.py].  The script talks to
    OsmoHLR's CTRL interface through [OsmoCtrlClient], a subclass of the
    [Ctrl] codec of [osmopy.osmo_ipa], and to PyHSS through a REST API whose
    base URL is normalised by [format_pyhss_url].

    Layout: Python values ([str], [bytes]), the socket and its environment,
    the [Ctrl] interface, the client methods, [add_to_osmohlr], an instance
    of the codec, and then the theorems. *)

From Stdlib Require Import List String Ascii NArith ZArith Arith Bool Lia.
From Stdlib.Strings Require Import Byte.
From Stdlib Require Import DecimalString.
Import ListNotations.

Local Open Scope string_scope.
Local Open Scope list_scope.
Local Open Scope nat_scope.

(** ** Python values *)

(** A Python [str].  A text is held as the bytes of its UTF-8 encoding, so
    that [f"..."] concatenation is [append], and [startswith], [endswith],
    [in] and [strip('+')] (all with ASCII arguments in this script) act on
    it byte by byte. *)
Definition str := string.

(** A Python [bytes] object. *)
Definition bytes := list byte.

(** [b"..."] literals and [str.encode('utf-8')]. *)
Definition encode (s : str) : bytes := list_byte_of_string s.

Module PyStr.

(** [s.startswith(p)] *)
Definition startswith (s p : str) : bool := String.prefix p s.

(** [s.endswith(p)]: some tail of [s] is [p]. *)
Fixpoint endswith (s p : str) : bool :=
  (s =? p)%string ||
  match s with
  | EmptyString => false
  | String _ s' => endswith s' p
  end.

(** [p in s] for strings: [p] starts some tail of [s]. *)
Fixpoint contains (s p : str) : bool :=
  String.prefix p s ||
  match s with
  | EmptyString => false
  | String _ s' => contains s' p
  end.

(** [s.lstrip('+')] *)
Fixpoint lstrip_plus (s : str) : str :=
  match s with
  | String "+"%char s' => lstrip_plus s'
  | _ => s
  end.

(** [s.rstrip('+')] *)
Fixpoint rstrip_plus (s : str) : str :=
  match s with
  | EmptyString => EmptyString
  | String c s' =>
      match c, rstrip_plus s' with
      | "+"%char, EmptyString => EmptyString
      | _, t => String c t
      end
  end.

(** [s.strip('+')] *)
Definition strip_plus (s : str) : str := rstrip_plus (lstrip_plus s).

End PyStr.

(** ** [format_pyhss_url] (lines 74-81) *)

Definition format_pyhss_url (api_base_url : str) : str :=
  let api_base_url :=
    if negb (PyStr.startswith api_base_url "http://")
    then ("http://" ++ api_base_url)%string
    else api_base_url in
  (api_base_url ++ ":8080")%string.

(** ** Exceptions *)

(** [socket.error] is [OSError]; the script only distinguishes "a socket
    error" from the rest, the error numbers name the usual causes.
    [BlockingIOError], raised by a non-blocking [recv] that finds nothing
    queued, is the [OSError] with [EAGAIN]. *)
Inductive oserror := EAGAIN | EBADF | ENOTCONN | ECONNRESET | EPIPE | ECONNREFUSED.

(** What the inherited codec methods may raise: they do no socket I/O, so
    whatever they raise is not a [socket.error].  A [MismatchError] carries
    what was expected and what the reply holds, each as transaction id,
    verb, variable and value. *)
Inductive codec_error :=
| StructError
| ParseError
| MismatchError (expected actual : str * str * str * option str)
| OtherError (name : str).

Inductive exn :=
| SocketError (e : oserror)
| AttributeError            (* a method called on [None] *)
| UnicodeDecodeError        (* [bytes.decode("utf-8")] on ill-formed input *)
| CodecError (e : codec_error).

Definition cresult (A : Type) : Type := (codec_error + A)%type.

(** ** The socket and the peer behind it *)

(** What the peer does next on the receiving side: bytes arrive together
    ([Data []] is the end-of-stream read, [b'']), nothing is queued at the
    moment ([Idle]), or the connection breaks. *)
Inductive event := Data (b : bytes) | Idle | Fail (e : oserror).

(** What every read meets once the scripted events are used up. *)
Inductive rx_end := Silent | PeerClosed | Broken (e : oserror).

(** How a [send] call fares: the stack takes up to [n] bytes, or fails. *)
Inductive tx_event := Accept (n : nat) | Refuse (e : oserror).

Inductive sock_status := Fresh | Open | Closed.

Record socket := mkSocket {
  inbox : list event;      (* what successive reads will meet *)
  at_end : rx_end;         (* ... and what they meet afterwards *)
  outbox : list tx_event;  (* how successive sends fare; then all is taken *)
  wire : bytes;            (* the bytes put on the wire so far *)
  status : sock_status
}.

(** The outcome of a system call on the socket. *)
Inductive io (A : Type) := Got (a : A) | Err (e : oserror) | Hang.
Arguments Got {A} a.
Arguments Err {A} e.
Arguments Hang {A}.

(** [recv]'s flags argument. *)
Inductive flags := NoFlags | MSG_DONTWAIT.

(** [recv(bufsize, fl)] over the events to come.  A blocking read waits
    through [Idle] moments and hangs on a silent peer; with [MSG_DONTWAIT]
    an empty queue raises at once.  At most [bufsize] bytes are returned,
    the rest of the arrival stays queued. *)
Fixpoint recv_events (bufsize : nat) (fl : flags) (evs : list event)
    (fin : rx_end) : io bytes * list event :=
  match evs with
  | [] =>
      match fin, fl with
      | PeerClosed, _ => (Got [], [])
      | Broken e, _ => (Err e, [])
      | Silent, MSG_DONTWAIT => (Err EAGAIN, [])
      | Silent, NoFlags => (Hang, [])
      end
  | Data b :: rest =>
      (Got (firstn bufsize b),
       if List.length b <=? bufsize then rest else Data (skipn bufsize b) :: rest)
  | Fail e :: rest => (Err e, rest)
  | Idle :: rest =>
      match fl with
      | MSG_DONTWAIT => (Err EAGAIN, rest)
      | NoFlags => recv_events bufsize fl rest fin
      end
  end.

Definition set_inbox (s : socket) (evs : list event) : socket :=
  mkSocket evs (at_end s) (outbox s) (wire s) (status s).

(** [sock.recv(bufsize, fl)] *)
Definition sock_recv (bufsize : nat) (fl : flags) (s : socket)
    : io bytes * socket :=
  match status s with
  | Closed => (Err EBADF, s)
  | Fresh => (Err ENOTCONN, s)
  | Open =>
      let (r, evs) := recv_events bufsize fl (inbox s) (at_end s) in
      (r, set_inbox s evs)
  end.

(** [sock.send(data)]: one call, which may take only a prefix of [data] and
    returns how many bytes it took.  On a stream socket that was never
    connected [send] raises [BrokenPipeError], the [OSError] with [EPIPE]
    (it is [recv] that raises [ENOTCONN] there). *)
Definition sock_send (data : bytes) (s : socket) : io nat * socket :=
  match status s with
  | Closed => (Err EBADF, s)
  | Fresh => (Err EPIPE, s)
  | Open =>
      match outbox s with
      | [] =>
          (Got (List.length data),
           mkSocket (inbox s) (at_end s) [] (wire s ++ data) Open)
      | Accept n :: rest =>
          (Got (Nat.min n (List.length data)),
           mkSocket (inbox s) (at_end s) rest (wire s ++ firstn n data) Open)
      | Refuse e :: rest =>
          (Err e, mkSocket (inbox s) (at_end s) rest (wire s) Open)
      end
  end.

(** [sock.close()]: closing a closed socket is allowed and changes nothing. *)
Definition sock_close (s : socket) : socket :=
  mkSocket (inbox s) (at_end s) (outbox s) (wire s) Closed.

(** The bytes of the session still to be read. *)
Fixpoint unread (evs : list event) : bytes :=
  match evs with
  | [] => []
  | Data b :: rest => b ++ unread rest
  | _ :: rest => unread rest
  end.

(** The object made by [socket.socket(AF_INET, SOCK_STREAM)]. *)
Definition fresh_socket : socket := mkSocket [] Silent [] [] Fresh.

(** ** Program state *)

(** What [send_command] returns: [(rem_header(ret),) + verify(...)]. *)
Definition response : Type := option bytes * bool * option str.

(** The lines the script prints. *)
Inductive line :=
| Connected_to (host : str) (port : N)
| Sending_command (var : str)
| Got_message (m : option bytes)
| Connection_closed
| Failed_to_add (r : response)
| Subscriber_added
| Failed_to_set_msisdn (r : response)
| Msisdn_set
| Error_while_adding (e : exn).

Record world := mkWorld {
  sock : option socket;    (* the client's [self.sock] *)
  stdout : list line;      (* printed so far, oldest first *)
  rng : list N;            (* the [random.randint] draws to come *)
  peer : oserror + socket  (* what [sock.connect((host, port))] meets *)
}.

Definition set_sock (w : world) (s : option socket) : world :=
  mkWorld s (stdout w) (rng w) (peer w).

Definition add_line (w : world) (l : line) : world :=
  mkWorld (sock w) (stdout w ++ [l]) (rng w) (peer w).

Definition add_lines (w : world) (ls : list line) : world :=
  mkWorld (sock w) (stdout w ++ ls) (rng w) (peer w).

(** How a call ends: it returns, raises, stays blocked in [recv] for ever,
    or is still looping when the fuel given to the [while True] loops is
    spent. *)
Inductive outcome (A : Type) :=
| Returns (a : A) | Raises (e : exn) | Blocks | OutOfFuel.
Arguments Returns {A} a.
Arguments Raises {A} e.
Arguments Blocks {A}.
Arguments OutOfFuel {A}.

Definition M (A : Type) : Type := world -> outcome A * world.

Definition ret {A} (a : A) : M A := fun w => (Returns a, w).

Definition bind {A B} (c : M A) (k : A -> M B) : M B :=
  fun w =>
    match c w with
    | (Returns a, w') => k a w'
    | (Raises e, w') => (Raises e, w')
    | (Blocks, w') => (Blocks, w')
    | (OutOfFuel, w') => (OutOfFuel, w')
    end.

Notation "x <- c ;; k" := (bind c (fun x => k))
  (at level 61, c at next level, right associativity).
Notation "c ;;; k" := (bind c (fun _ => k))
  (at level 61, right associativity).

Definition raise {A} (e : exn) : M A := fun w => (Raises e, w).

Definition out_of_fuel {A} : M A := fun w => (OutOfFuel, w).

Definition print (l : line) : M unit := fun w => (Returns tt, add_line w l).

(** A call into the codec: its exceptions propagate. *)
Definition lift {A} (r : cresult A) : M A :=
  match r with
  | inl e => raise (CodecError e)
  | inr a => ret a
  end.

(** [try: c  except Exception as e: h e] *)
Definition try_except {A} (c : M A) (h : exn -> M A) : M A :=
  fun w =>
    match c w with
    | (Raises e, w') => h e w'
    | r => r
    end.

(** A computation that only adds lines to [stdout]. *)
Definition grows {A} (c : M A) : Prop :=
  forall w out w', c w = (out, w') -> exists ls, stdout w' = stdout w ++ ls.

(** The outcome of a system call, as the caller sees it. *)
Definition seen {A} (r : io A) : outcome A :=
  match r with
  | Got a => Returns a
  | Err e => Raises (SocketError e)
  | Hang => Blocks
  end.

(** A system call on [self.sock]; on [None] the attribute lookup fails. *)
Definition on_sock {A} (call : socket -> io A * socket) : M A :=
  fun w =>
    match sock w with
    | None => (Raises AttributeError, w)
    | Some s =>
        let (r, s') := call s in
        (seen r, set_sock w (Some s'))
    end.

(** [random.randint(1, sys.maxsize)] *)
Definition randint : M N :=
  fun w =>
    match rng w with
    | [] => (Returns 1%N, w)
    | r :: rest => (Returns r, mkWorld (sock w) (stdout w) rest (peer w))
    end.

(** ** The inherited [Ctrl] codec

    [OsmoCtrlClient] subclasses [Ctrl] from [osmopy.osmo_ipa], a package
    that is not part of this repository.  The client only relies on the six
    methods below, so they are taken as an interface; the result shapes are
    those the script uses: [cmd] gives the frame for a drawn id [r] (line
    26), [skip_traps] may give [None] (line 32), [parse] gives a triple (line
    33), [verify] gives a tuple that is appended to a 1-tuple (line 35),
    [split_combined] gives a pair of byte strings (lines 53-55). *)
Class Ctrl := {
  cmd : N -> str -> option str -> cresult bytes;
  skip_traps : bytes -> cresult (option bytes);
  parse : bytes -> cresult (option str * option str * option str);
  rem_header : bytes -> cresult (option bytes);
  verify : bytes -> N -> str -> option str -> cresult (bool * option str);
  split_combined : bytes -> cresult (bytes * bytes)
}.

(** ** [OsmoCtrlClient] (lines 11-58) *)

Section Client.

Context {codec : Ctrl}.

(** [__init__]: [self.sock = None] *)
Definition __init__ : M unit := fun w => (Returns tt, set_sock w None).

(** [connect] (lines 16-21).  [self.sock] is assigned before the
    connection attempt, so it holds the new socket also when that
    fails. *)
Definition connect (host : str) (port : N) : M unit :=
  fun w =>
    match peer w with
    | inl e => (Raises (SocketError e), set_sock w (Some fresh_socket))
    | inr s => print (Connected_to host port) (set_sock w (Some s))
    end.

(** The [while True] loop of [_leftovers] (lines 52-56). *)
Fixpoint drain_loop (fuel : nat) (tail : bytes) : M unit :=
  match fuel with
  | O => out_of_fuel
  | S fuel' =>
      ht <- lift (split_combined tail) ;;
      m <- lift (rem_header (fst ht)) ;;
      print (Got_message m) ;;;
      if List.length (snd ht) =? 0 then ret tt else drain_loop fuel' (snd ht)
  end.

(** [_leftovers] (lines 42-58).  Its [sock] argument is [self.sock] at the
    only call (line 25), the same object, so the read acts on the client's
    socket.  Only the [recv] is inside the [try]. *)
Definition _leftovers (fuel : nat) (fl : flags) : M bool :=
  r <- try_except
         (data <- on_sock (sock_recv 1024 fl) ;; ret (Some data))
         (fun e =>
            match e with
            | SocketError _ => ret None
            | _ => raise e
            end) ;;
  match r with
  | None => ret false
  | Some data =>
      if negb (List.length data =? 0)
      then drain_loop fuel data ;;; ret true
      else ret false
  end.

(** The [while True] loop of [send_command] (lines 28-34). *)
Fixpoint recv_loop (fuel : nat) : M bytes :=
  match fuel with
  | O => out_of_fuel
  | S fuel' =>
      data <- on_sock (sock_recv 4096 NoFlags) ;;
      r <- lift (skip_traps data) ;;
      match r with
      | Some reply => lift (parse reply) ;;; ret reply
      | None => recv_loop fuel'
      end
  end.

(** The receive loop and the [return] of [send_command] (lines 28-35),
    for the drawn id [r]. *)
Definition await_reply (fuel : nat) (r : N) (var : str) (value : option str)
    : M response :=
  reply <- recv_loop fuel ;;
  raw <- lift (rem_header reply) ;;
  bv <- lift (verify reply r var value) ;;
  ret (raw, fst bv, snd bv).

(** [send_command] (lines 23-35).  The value of [sock.send] is dropped. *)
Definition send_command (fuel : nat) (var : str) (value : option str)
    : M response :=
  print (Sending_command var) ;;;
  _leftovers fuel MSG_DONTWAIT ;;;
  r <- randint ;;
  c <- lift (cmd r var value) ;;
  on_sock (sock_send c) ;;;
  await_reply fuel r var value.

(** [send_command] has printed, drained and built the frame [c] for the
    drawn id [r], and is about to send it in world [w']. *)
Definition prepared (fuel : nat) (var : str) (value : option str)
    (w : world) (r : N) (c : bytes) (w' : world) : Prop :=
  exists b w1,
    _leftovers fuel MSG_DONTWAIT (add_line w (Sending_command var))
      = (Returns b, w1) /\
    randint w1 = (Returns r, w') /\
    cmd r var value = inr c.

(** The messages the drain loop prints for [data]: [split_combined] peels
    heads off until the tail is empty. *)
Inductive peels : bytes -> list (option bytes) -> Prop :=
| peels_last data head m :
    split_combined data = inr (head, []) ->
    rem_header head = inr m ->
    peels data [m]
| peels_more data head tail m ms :
    split_combined data = inr (head, tail) ->
    tail <> [] ->
    rem_header head = inr m ->
    peels tail ms ->
    peels data (m :: ms).

(** [close] (lines 37-40).  A socket object is always truthy, and
    [self.sock] keeps referring to it after it is closed. *)
Definition close : M unit :=
  fun w =>
    match sock w with
    | Some s => print Connection_closed (set_sock w (Some (sock_close s)))
    | None => (Returns tt, w)
    end.

(** [close()] called [n] times in a row. *)
Fixpoint close_times (n : nat) : M unit :=
  match n with
  | O => ret tt
  | S n' => close ;;; close_times n'
  end.

End Client.

(** ** [bytes.decode("utf-8")] *)

Definition between (lo hi : nat) (b : byte) : bool :=
  (lo <=? Byte.to_nat b) && (Byte.to_nat b <=? hi).

(** A continuation byte, [80..BF]. *)
Definition continuation (b : byte) : bool := between 128 191 b.

(** The second byte of a three-byte sequence: no overlong form after [E0],
    no surrogate after [ED]. *)
Definition second_of_3 (b0 b1 : byte) : bool :=
  match b0 with
  | xe0 => between 160 191 b1
  | xed => between 128 159 b1
  | _ => continuation b1
  end.

(** The second byte of a four-byte sequence: no overlong form after [F0],
    nothing above U+10FFFF after [F4]. *)
Definition second_of_4 (b0 b1 : byte) : bool :=
  match b0 with
  | xf0 => between 144 191 b1
  | xf4 => between 128 143 b1
  | _ => continuation b1
  end.

(** Well-formed UTF-8, as the strict decoder accepts it. *)
Fixpoint utf8_valid (l : bytes) : bool :=
  match l with
  | [] => true
  | b0 :: l1 =>
      if Byte.to_nat b0 <? 128 then utf8_valid l1
      else if between 194 223 b0 then
        match l1 with
        | b1 :: l2 => continuation b1 && utf8_valid l2
        | _ => false
        end
      else if between 224 239 b0 then
        match l1 with
        | b1 :: b2 :: l3 =>
            second_of_3 b0 b1 && continuation b2 && utf8_valid l3
        | _ => false
        end
      else if between 240 244 b0 then
        match l1 with
        | b1 :: b2 :: b3 :: l4 =>
            second_of_4 b0 b1 && continuation b2 && continuation b3
            && utf8_valid l4
        | _ => false
        end
      else false
  end.

(** [b.decode("utf-8")]; [None] stands for [UnicodeDecodeError]. *)
Definition decode_utf8 (b : bytes) : option str :=
  if utf8_valid b then Some (string_of_list_byte b) else None.

(** ** [add_to_osmohlr] (lines 180-217) *)

Section Script.

Context {codec : Ctrl}.

(** ["ERROR" in response[0].decode("utf-8")] *)
Definition has_error (r : response) : M bool :=
  match fst (fst r) with
  | None => raise AttributeError
  | Some raw =>
      match decode_utf8 raw with
      | None => raise UnicodeDecodeError
      | Some text => ret (PyStr.contains text "ERROR")
      end
  end.

(** The name of the second variable, [f"subscriber.by-imsi-{imsi}.msisdn"]. *)
Definition msisdn_var (imsi : str) : str :=
  ("subscriber.by-imsi-" ++ imsi ++ ".msisdn")%string.

(** The statements after the second [send_command] (lines 207-214). *)
Definition after_msisdn (response2 : response) : M unit :=
  failed <- has_error response2 ;;
  (if failed then print (Failed_to_set_msisdn response2)
   else print Msisdn_set) ;;;
  close.

(** The statements after the first [send_command] (lines 196-214). *)
Definition after_create (fuel : nat) (imsi msisdn : str)
    (response1 : response) : M unit :=
  failed <- has_error response1 ;;
  (if failed then print (Failed_to_add response1)
   else print Subscriber_added) ;;;
  let command := msisdn_var imsi in
  let value := PyStr.strip_plus msisdn in
  response2 <- send_command fuel command (Some value) ;;
  after_msisdn response2.

(** The body of the [try] (lines 185-214). *)
Definition add_to_osmohlr_body (fuel : nat) (ctrl_host imsi msisdn : str)
    (ctrl_port : N) : M unit :=
  __init__ ;;;
  connect ctrl_host ctrl_port ;;;
  let command := "subscriber.create" in
  let value := imsi in
  response1 <- send_command fuel command (Some value) ;;
  after_create fuel imsi msisdn response1.

(** [add_to_osmohlr]; [main] calls it with the default [ctrl_port=4259]. *)
Definition add_to_osmohlr (fuel : nat) (ctrl_host imsi msisdn : str)
    (ctrl_port : N) : M unit :=
  try_except
    (add_to_osmohlr_body fuel ctrl_host imsi msisdn ctrl_port)
    (fun e => print (Error_while_adding e)).

End Script.

(** ** A codec

    The [Ctrl] base class comes from [osmopy.osmo_ipa] and is not among the
    sources of the script.  The instance below follows the wire format of
    spec sections 4.2 and 6: a frame is a 2-byte big-endian length followed
    by that many payload bytes, a payload is the text
    [<transaction_id> <VERB> <variable>[ <value>]].  The method shapes are
    those of the [Ctrl] interface above.  Slices are Python slices:
    [data[:n]] of a shorter [data] is all of [data]. *)
Module SpecCtrl.

Inductive verb := GET | SET | TRAP | GET_REPLY | SET_REPLY | TRAP_REPLY | ERROR.

Record message := mkMessage {
  transaction_id : str;
  msg_verb : verb;
  variable : str;
  value : option str
}.

Definition verb_eqb (a b : verb) : bool :=
  match a, b with
  | GET, GET | SET, SET | TRAP, TRAP | GET_REPLY, GET_REPLY
  | SET_REPLY, SET_REPLY | TRAP_REPLY, TRAP_REPLY | ERROR, ERROR => true
  | _, _ => false
  end.

Definition verb_name (v : verb) : str :=
  match v with
  | GET => "GET" | SET => "SET" | TRAP => "TRAP"
  | GET_REPLY => "GET_REPLY" | SET_REPLY => "SET_REPLY"
  | TRAP_REPLY => "TRAP_REPLY" | ERROR => "ERROR"
  end.

Definition verb_of_name (s : str) : option verb :=
  if (s =? "GET")%string then Some GET
  else if (s =? "SET")%string then Some SET
  else if (s =? "TRAP")%string then Some TRAP
  else if (s =? "GET_REPLY")%string then Some GET_REPLY
  else if (s =? "SET_REPLY")%string then Some SET_REPLY
  else if (s =? "TRAP_REPLY")%string then Some TRAP_REPLY
  else if (s =? "ERROR")%string then Some ERROR
  else None.

(** The transaction id as it is written in a payload. *)
Definition id_text (r : N) : str := NilZero.string_of_uint (N.to_uint r).

Definition byte_of_nat (n : nat) : byte :=
  match Byte.of_nat (n mod 256) with
  | Some b => b
  | None => x00
  end.

Definition encode_length_prefix (n : nat) : bytes :=
  [byte_of_nat (n / 256); byte_of_nat n].

(** A payload in its frame; the prefix holds lengths below 2^16. *)
Definition frame (payload : bytes) : cresult bytes :=
  if (N.of_nat (List.length payload) <? 65536)%N
  then inr (encode_length_prefix (List.length payload) ++ payload)
  else inl StructError.

(** The length announced by the prefix of [data]. *)
Definition frame_length (data : bytes) : cresult nat :=
  match data with
  | b0 :: b1 :: _ => inr (256 * Byte.to_nat b0 + Byte.to_nat b1)
  | _ => inl StructError
  end.

(** Modelled from the spec: [encode_command] of the missing codec, the
    text [<transaction_id> <verb> <variable>[ <value>]] in its frame. *)
Definition encode_command (v : verb) (r : N) (var : str)
    (val : option str) : cresult bytes :=
  let text :=
    (id_text r ++ " " ++ verb_name v ++ " " ++ var ++
     match val with Some x => " " ++ x | None => "" end)%string in
  frame (encode text).

(** [s.split(' ', 1)] *)
Fixpoint split_space (s : str) : str * option str :=
  match s with
  | EmptyString => (EmptyString, None)
  | String c s' =>
      if (c =? " ")%char then (EmptyString, Some s')
      else let (t, r) := split_space s' in (String c t, r)
  end.

(** Modelled from the spec: [decode_message] of the missing codec, "tokenizes
    the payload into transaction_id, verb, variable, and optional value;
    fails with ParseError on malformed payload (wrong token count,
    unrecognized verb)". *)
Definition decode_message (payload : bytes) : cresult message :=
  match split_space (string_of_list_byte payload) with
  | (_, None) => inl ParseError
  | (i, Some rest1) =>
      match split_space rest1 with
      | (_, None) => inl ParseError
      | (v, Some rest2) =>
          match verb_of_name v with
          | None => inl ParseError
          | Some vb =>
              let (k, val) := split_space rest2 in
              inr (mkMessage i vb k val)
          end
      end
  end.

(** Modelled from the spec: [is_notification] of the missing codec, "true
    when verb is the unsolicited/TRAP kind". *)
Definition is_notification (m : message) : bool := verb_eqb (msg_verb m) TRAP.

Definition payload_of (head : bytes) : bytes := skipn 2 head.

(** Whether a frame is a notification; a payload that does not parse is
    not one. *)
Definition is_trap (head : bytes) : bool :=
  match decode_message (payload_of head) with
  | inr m => is_notification m
  | inl _ => false
  end.

(** Modelled from the spec: [split_combined] of the missing [Ctrl] class,
    the first frame of [data], header included (the script strips it with
    [rem_header], line 54), and the bytes that follow it.  It has no
    "need more data" answer: a frame cut short is returned as it is. *)
Definition split_combined' (data : bytes) : cresult (bytes * bytes) :=
  match frame_length data with
  | inl e => inl e
  | inr n => inr (firstn (n + 2) data, skipn (n + 2) data)
  end.

(** Modelled from the spec: [skip_traps] of the missing [Ctrl] class, the
    first frame of [data] that is neither a notification nor broken (a
    payload that does not parse is dropped, spec section 7), or [None].
    Every step consumes at least the prefix, so [length data] steps are
    enough. *)
Fixpoint skip_traps_from (fuel : nat) (data : bytes)
    : cresult (option bytes) :=
  match fuel with
  | O => inr None
  | S fuel' =>
      if List.length data =? 0 then inr None
      else
        match split_combined' data with
        | inl e => inl e
        | inr (head, tail) =>
            match decode_message (payload_of head) with
            | inl _ => skip_traps_from fuel' tail
            | inr m =>
                if is_notification m then skip_traps_from fuel' tail
                else inr (Some head)
            end
        end
  end.

Definition skip_traps' (data : bytes) : cresult (option bytes) :=
  skip_traps_from (List.length data) data.

(** Modelled from the spec: [cmd] of the missing [Ctrl] class, the framed
    SET command when a value is given and the framed GET command otherwise,
    for the id [r] it drew. *)
Definition cmd' (r : N) (var : str) (val : option str) : cresult bytes :=
  match val with
  | Some _ => encode_command SET r var val
  | None => encode_command GET r var None
  end.

(** Modelled from the spec: [rem_header] of the missing [Ctrl] class, the
    payload of a frame. *)
Definition rem_header' (head : bytes) : cresult (option bytes) :=
  inr (Some (payload_of head)).

(** Modelled from the spec: [parse] of the missing [Ctrl] class, the triple
    [(id, variable, value)] of a frame. *)
Definition parse' (head : bytes)
    : cresult (option str * option str * option str) :=
  match decode_message (payload_of head) with
  | inl e => inl e
  | inr m => inr (Some (transaction_id m), Some (variable m), value m)
  end.

Definition opt_eqb (a b : option str) : bool :=
  match a, b with
  | Some x, Some y => (x =? y)%string
  | None, None => true
  | _, _ => false
  end.

(** The verb that answers a command with success: [SET_REPLY] for a SET
    (a value is given), [GET_REPLY] for a GET. *)
Definition success_verb (val : option str) : verb :=
  match val with
  | Some _ => SET_REPLY
  | None => GET_REPLY
  end.

(** Whether a reply is the one expected for the command sent with id [r]:
    same transaction id, the success verb of the family sent, same variable
    and, for a SET, same value. *)
Definition matches (m : message) (r : N) (var : str) (val : option str)
    : bool :=
  (transaction_id m =? id_text r)%string
  && verb_eqb (msg_verb m) (success_verb val)
  && (variable m =? var)%string
  && match val with
     | Some _ => opt_eqb (value m) val
     | None => true
     end.

(** What a [MismatchError] carries. *)
Definition expected (r : N) (var : str) (val : option str)
    : str * str * str * option str :=
  (id_text r, verb_name (success_verb val), var, val).

Definition actual (m : message) : str * str * str * option str :=
  (transaction_id m, verb_name (msg_verb m), variable m, value m).

(** Modelled from the spec: [verify] of the missing [Ctrl] class, spec
    section 4.3 step 4 and section 7: "confirm the reply's transaction id
    matches what was sent, and that its verb indicates success for the verb
    family sent (GET/SET), and - when applicable - that variable/value
    echoed in the reply match what was requested.  Mismatch on any of these
    fails with MismatchError, carrying the expected and actual values".
    When it returns, its result is the pair [send_command] appends to a
    1-tuple (line 35): the verdict, which is then [True], and the reply's
    value. *)
Definition verify' (reply : bytes) (r : N) (var : str) (val : option str)
    : cresult (bool * option str) :=
  match decode_message (payload_of reply) with
  | inl e => inl e
  | inr m =>
      if matches m r var val then inr (true, value m)
      else inl (MismatchError (expected r var val) (actual m))
  end.

#[export] Instance codec : Ctrl := {|
  cmd := cmd';
  skip_traps := skip_traps';
  parse := parse';
  rem_header := rem_header';
  verify := verify';
  split_combined := split_combined'
|}.

(** The frame of a payload text, for writing examples; an oversize payload
    has no frame. *)
Definition frame_of (text : str) : bytes :=
  match frame (encode text) with
  | inr f => f
  | inl _ => []
  end.

End SpecCtrl.

(** A client connected to a peer that behaves as scripted: the events to be
    read and what follows them, how the sends fare, and the ids to be
    drawn. *)
Definition session (evs : list event) (fin : rx_end) (tx : list tx_event)
    (ids : list N) : world :=
  mkWorld (Some (mkSocket evs fin tx [] Open)) [] ids (inl ECONNREFUSED).

(** What is left to read in a world, if it has a socket. *)
Definition unread_of (w : world) : option bytes :=
  option_map (fun s => unread (inbox s)) (sock w).

(** What went on the wire in a world, if it has a socket. *)
Definition wire_of (w : world) : option bytes := option_map wire (sock w).

(** ** More on the client *)

(** An event the receive loop of [send_command] passes over: a moment with
    nothing queued, or an arrival that fits one read and in which
    [skip_traps] finds no frame. *)
Definition passed_over {codec : Ctrl} (ev : event) : Prop :=
  match ev with
  | Idle => True
  | Data d => List.length d <= 4096 /\ skip_traps d = inr None
  | Fail _ => False
  end.

(** The id [send_command] draws in a world. *)
Definition next_id (w : world) : N :=
  match rng w with
  | [] => 1%N
  | r :: _ => r
  end.

(** The world once that id is drawn. *)
Definition drawn (w : world) : world :=
  mkWorld (sock w) (stdout w) (tl (rng w)) (peer w).

(** A run of [n] plus signs. *)
Fixpoint pluses (n : nat) : str :=
  match n with
  | O => EmptyString
  | S n' => String "+"%char (pluses n')
  end.

(** ** The other back ends: PyHSS, Open5GS, and [main] *)

(** A Python value as [response.json()] gives it and as the request data
    hold it: [None], a [bool], a number, a [str], a [list] or a [dict] (a
    [dict] as its items; a key is looked up from the front).  The numbers
    are left to the runtime, which decodes them to [int] or [float]. *)
#[warnings="-register-all"] Inductive pyval (num : Type) : Type :=
| VNone
| VBool (b : bool)
| VNum (n : num)
| VStr (s : str)
| VList (l : list (pyval num))
| VDict (d : list (str * pyval num)).
Arguments VNone {num}.
Arguments VBool {num} b.
Arguments VNum {num} n.
Arguments VStr {num} s.
Arguments VList {num} l.
Arguments VDict {num} d.

(** What the script takes from the Python runtime and from [requests]
    without saying how it is done: the numbers, [==] on values, and whether
    the [JSONDecodeError] of [response.json()] is a [RequestException] (it is
    one from requests 2.27 on; it is a [ValueError] in every version). *)
Class Python := {
  number : Type;
  number_of_int : Z -> number;
  number_truthy : number -> bool;
  py_eq : pyval number -> pyval number -> bool;
  json_error_is_request_exception : bool
}.

(** What is raised outside the CTRL client. *)
Inductive failure :=
| Py (e : exn)                      (* the exceptions of the client, [AttributeError] *)
| RequestException                  (* raised by [requests.put]: no connection, timeout *)
| HTTPError (status : N)            (* raised by [raise_for_status] *)
| JSONDecodeError                   (* raised by [response.json()] *)
| ValueError                        (* raised at line 100 *)
| CalledProcessError (returncode : Z)
| FileNotFoundError.                (* [subprocess.run] cannot start the program *)

(** How a [requests.put] is answered: not at all, or with a status code and
    a body that decodes as JSON or does not. *)
Inductive http_reply {py : Python} :=
| NoReply
| Reply (status : N) (body : option (pyval number)).

(** How a [subprocess.run] ends. *)
Inductive run_end := Exit (returncode : Z) | Unstartable.

(** What the script does to the other back ends. *)
Inductive effect {py : Python} :=
| Put (url : str) (data : list (str * pyval number))
| Run (argv : list str).

(** The lines printed outside the client, and the client's lines. *)
Inductive report {py : Python} :=
| Client (l : line)
| Open5gs_added
| Open5gs_failed (e : failure)
| Auc_added (auc_id : pyval number)
| Auc_failed (e : failure)
| Subscriber_validated
| Validation_failed
| Expected (data : list (str * pyval number))
| Received (response_data : pyval number)
| Subscriber_failed (e : failure)
| Ims_validated
| Ims_failed (e : failure)
| Aborting.

Record system {py : Python} := mkSystem {
  hlr : world;              (* the CTRL side: the peer, the ids to draw *)
  web : list http_reply;    (* how successive PUTs are answered; then not at all *)
  docker : list run_end;    (* how successive runs end; then they cannot start *)
  effects : list effect;    (* the PUTs and runs made so far, oldest first *)
  console : list report     (* printed so far, oldest first *)
}.
Arguments mkSystem {py} hlr web docker effects console.

Inductive result (A : Type) :=
| Done (a : A) | Fails (e : failure) | Stalls | Unfinished.
Arguments Done {A} a.
Arguments Fails {A} e.
Arguments Stalls {A}.
Arguments Unfinished {A}.

Section Provisioning.

Context {py : Python} {codec : Ctrl}.

Definition Prog (A : Type) : Type := system -> result A * system.

Definition sret {A} (a : A) : Prog A := fun st => (Done a, st).

Definition sbind {A B} (c : Prog A) (k : A -> Prog B) : Prog B :=
  fun st =>
    match c st with
    | (Done a, st') => k a st'
    | (Fails e, st') => (Fails e, st')
    | (Stalls, st') => (Stalls, st')
    | (Unfinished, st') => (Unfinished, st')
    end.

Notation "x <~ c ;; k" := (sbind c (fun x => k))
  (at level 61, c at next level, right associativity).
Notation "c ;;~ k" := (sbind c (fun _ => k))
  (at level 61, right associativity).

Definition sraise {A} (e : failure) : Prog A := fun st => (Fails e, st).

(** [try: c  except <classes>: h e], for the exceptions [caught] selects. *)
Definition stry {A} (c : Prog A) (caught : failure -> bool) (h : failure -> Prog A)
    : Prog A :=
  fun st =>
    match c st with
    | (Fails e, st') => if caught e then h e st' else (Fails e, st')
    | r => r
    end.

Definition say (l : report) : Prog unit :=
  fun st =>
    (Done tt,
     mkSystem (hlr st) (web st) (docker st) (effects st) (console st ++ [l])).

Definition log (e : effect) (st : system) : system :=
  mkSystem (hlr st) (web st) (docker st) (effects st ++ [e]) (console st).

(** [except requests.exceptions.RequestException] *)
Definition is_request_exception (e : failure) : bool :=
  match e with
  | RequestException | HTTPError _ => true
  | JSONDecodeError => json_error_is_request_exception
  | _ => false
  end.

(** [except ValueError] *)
Definition is_value_error (e : failure) : bool :=
  match e with
  | ValueError | JSONDecodeError | Py UnicodeDecodeError => true
  | _ => false
  end.

(** [except subprocess.CalledProcessError] *)
Definition is_called_process_error (e : failure) : bool :=
  match e with
  | CalledProcessError _ => true
  | _ => false
  end.

(** [requests.put(url, headers=..., json=data)] *)
Definition put (url : str) (data : list (str * pyval number))
    : Prog (N * option (pyval number)) :=
  fun st =>
    match web st with
    | [] => (Fails RequestException, log (Put url data) st)
    | NoReply :: rest =>
        (Fails RequestException,
         log (Put url data)
           (mkSystem (hlr st) rest (docker st) (effects st) (console st)))
    | Reply status body :: rest =>
        (Done (status, body),
         log (Put url data)
           (mkSystem (hlr st) rest (docker st) (effects st) (console st)))
    end.

(** [response.raise_for_status()]: the 4xx and 5xx codes raise. *)
Definition raise_for_status (response : N * option (pyval number)) : Prog unit :=
  let status := fst response in
  if ((400 <=? status) && (status <? 600))%N
  then sraise (HTTPError status)
  else sret tt.

(** [response.json()] *)
Definition json (response : N * option (pyval number))
    : Prog (pyval number) :=
  match snd response with
  | Some v => sret v
  | None => sraise JSONDecodeError
  end.

Fixpoint lookup (key : str) (d : list (str * pyval number))
    : option (pyval number) :=
  match d with
  | [] => None
  | (k, v) :: rest => if (k =? key)%string then Some v else lookup key rest
  end.

(** [x.get(key)]: only a [dict] has it. *)
Definition get (x : pyval number) (key : str) : Prog (pyval number) :=
  match x with
  | VDict d =>
      match lookup key d with
      | Some v => sret v
      | None => sret VNone
      end
  | _ => sraise (Py AttributeError)
  end.

(** [x is None] *)
Definition is_none (x : pyval number) : bool :=
  match x with
  | VNone => true
  | _ => false
  end.

(** [bool(x)], as an [if] or an [and] takes it. *)
Definition truthy (x : pyval number) : bool :=
  match x with
  | VNone => false
  | VBool b => b
  | VNum n => number_truthy n
  | VStr s => negb (s =? "")%string
  | VList l => negb (List.length l =? 0)
  | VDict d => negb (List.length d =? 0)
  end.

(** [subprocess.run(argv, check=True)] *)
Definition run (argv : list str) : Prog unit :=
  fun st =>
    match docker st with
    | [] => (Fails FileNotFoundError, log (Run argv) st)
    | r :: rest =>
        let st' :=
          log (Run argv)
            (mkSystem (hlr st) (web st) rest (effects st) (console st)) in
        match r with
        | Exit code =>
            if (code =? 0)%Z then (Done tt, st')
            else (Fails (CalledProcessError code), st')
        | Unstartable => (Fails FileNotFoundError, st')
        end
    end.

(** [add_to_open5gs] (lines 60-72) *)
Definition add_to_open5gs (imsi ki opc : str) : Prog unit :=
  stry
    (run ["docker"; "exec"; "-it"; "hss"; "misc/db/open5gs-dbctl"; "add";
          imsi; ki; opc] ;;~
     say Open5gs_added)
    is_called_process_error
    (fun e => say (Open5gs_failed e)).

(** The request of [add_auc_to_pyhss] (lines 87-94, 96). *)
Definition auc_url (api_base_url : str) : str :=
  (format_pyhss_url api_base_url ++ "/auc/")%string.

Definition auc_data (imsi ki opc amf : str) (sqn : Z)
    : list (str * pyval number) :=
  [("ki", VStr ki); ("opc", VStr opc); ("amf", VStr amf);
   ("sqn", VNum (number_of_int sqn)); ("imsi", VStr imsi)].

(** [add_auc_to_pyhss] (lines 83-106); it returns [None] as [VNone].
    [main] leaves [amf="8000"] and [sqn=0] to their defaults. *)
Definition add_auc_to_pyhss (api_base_url imsi ki opc amf : str) (sqn : Z)
    : Prog (pyval number) :=
  let api_url := format_pyhss_url api_base_url in
  let data := auc_data imsi ki opc amf sqn in
  stry
    (response <~ put (api_url ++ "/auc/")%string data ;;
     raise_for_status response ;;~
     body <~ json response ;;
     auc_id <~ get body "auc_id" ;;
     if is_none auc_id then sraise ValueError
     else say (Auc_added auc_id) ;;~ sret auc_id)
    (fun e => is_request_exception e || is_value_error e)
    (fun e => say (Auc_failed e) ;;~ sret VNone).

(** [response_data.get(key) == expected] *)
Definition field_is (response_data : pyval number) (key : str)
    (expected : pyval number) : Prog bool :=
  v <~ get response_data key ;;
  sret (py_eq v expected).

(** [a and b] *)
Definition and_then (a b : Prog bool) : Prog bool :=
  x <~ a ;;
  if x then b else sret false.

Definition subscriber_data (imsi msisdn : str) (auc_id : pyval number)
    (default_apn : Z) (apn_list : str) (ue_ambr_dl ue_ambr_ul : Z)
    : list (str * pyval number) :=
  [("imsi", VStr imsi); ("enabled", VBool true); ("auc_id", auc_id);
   ("default_apn", VNum (number_of_int default_apn));
   ("apn_list", VStr apn_list); ("msisdn", VStr msisdn);
   ("ue_ambr_dl", VNum (number_of_int ue_ambr_dl));
   ("ue_ambr_ul", VNum (number_of_int ue_ambr_ul))].

(** [add_subscriber_to_pyhss] (lines 108-140).  [main] leaves
    [default_apn=1], [apn_list="1,2"], [ue_ambr_dl=0] and [ue_ambr_ul=0] to
    their defaults. *)
Definition add_subscriber_to_pyhss (api_base_url imsi msisdn : str)
    (auc_id : pyval number) (default_apn : Z) (apn_list : str)
    (ue_ambr_dl ue_ambr_ul : Z) : Prog unit :=
  let api_url := format_pyhss_url api_base_url in
  let data :=
    subscriber_data imsi msisdn auc_id default_apn apn_list
      ue_ambr_dl ue_ambr_ul in
  stry
    (response <~ put (api_url ++ "/subscriber/")%string data ;;
     raise_for_status response ;;~
     response_data <~ json response ;;
     ok <~ and_then (field_is response_data "imsi" (VStr imsi))
            (and_then (field_is response_data "msisdn"
                         (VStr (PyStr.strip_plus msisdn)))
            (and_then (field_is response_data "auc_id" auc_id)
            (and_then (field_is response_data "default_apn"
                         (VNum (number_of_int default_apn)))
                      (field_is response_data "apn_list"
                         (VStr apn_list))))) ;;
     if ok then say Subscriber_validated
     else say Validation_failed ;;~
          say (Expected data) ;;~
          say (Received response_data))
    is_request_exception
    (fun e => say (Subscriber_failed e)).

Definition ims_data (imsi msisdn sh_profile scscf_peer msisdn_list ifc_path
    scscf scscf_realm : str) : list (str * pyval number) :=
  [("imsi", VStr imsi); ("msisdn", VStr msisdn);
   ("sh_profile", VStr sh_profile); ("scscf_peer", VStr scscf_peer);
   ("msisdn_list", VStr msisdn_list); ("ifc_path", VStr ifc_path);
   ("scscf", VStr scscf); ("scscf_realm", VStr scscf_realm)].

(** [add_ims_subscriber_to_pyhss] (lines 142-178); [msisdn_list=None]
    becomes [f"[{msisdn}]"]. *)
Definition add_ims_subscriber_to_pyhss (api_base_url imsi msisdn sh_profile
    scscf_peer ifc_path scscf scscf_realm : str) (msisdn_list : option str)
    : Prog unit :=
  let api_url := format_pyhss_url api_base_url in
  let msisdn_list :=
    match msisdn_list with
    | None => ("[" ++ msisdn ++ "]")%string
    | Some l => l
    end in
  let data :=
    ims_data imsi msisdn sh_profile scscf_peer msisdn_list ifc_path scscf
      scscf_realm in
  stry
    (response <~ put (api_url ++ "/ims_subscriber/")%string data ;;
     raise_for_status response ;;~
     response_data <~ json response ;;
     ok <~ and_then (field_is response_data "imsi" (VStr imsi))
            (and_then (field_is response_data "msisdn"
                         (VStr (PyStr.strip_plus msisdn)))
            (and_then (field_is response_data "scscf" (VStr scscf))
            (and_then (field_is response_data "scscf_realm"
                         (VStr scscf_realm))
                      (field_is response_data "scscf_peer"
                         (VStr scscf_peer))))) ;;
     if ok then say Ims_validated
     else say Validation_failed ;;~
          say (Expected data) ;;~
          say (Received response_data))
    is_request_exception
    (fun e => say (Ims_failed e)).

(** A call of the CTRL client from [main]: it runs on the CTRL side of the
    system, and what it prints goes to the console. *)
Definition on_hlr {A} (c : M A) : Prog A :=
  fun st =>
    let (o, w') := c (hlr st) in
    let printed := skipn (List.length (stdout (hlr st))) (stdout w') in
    let st' :=
      mkSystem w' (web st) (docker st) (effects st)
        (console st ++ map Client printed) in
    (match o with
     | Returns a => Done a
     | Raises e => Fails (Py e)
     | Blocks => Stalls
     | OutOfFuel => Unfinished
     end, st').

(** The command line, as [parse_args] returns it. *)
Record args := mkArgs {
  arg_imsi : str;
  arg_ki : str;
  arg_opc : str;
  arg_msisdn : str;
  arg_pyhss_url : str;
  arg_osmohlr_ctrl_host : str;
  skip_core_hss : bool;
  skip_pyhss : bool;
  skip_osmohlr : bool
}.

(** The steps of [main] once the AUC is settled (lines 241-252). *)
Definition provision (fuel : nat) (a : args) (auc_id : pyval number)
    : Prog unit :=
  (if negb (skip_core_hss a)
   then add_to_open5gs (arg_imsi a) (arg_ki a) (arg_opc a)
   else sret tt) ;;~
  (if negb (skip_pyhss a) && truthy auc_id
   then add_subscriber_to_pyhss (arg_pyhss_url a) (arg_imsi a)
          (arg_msisdn a) auc_id 1 "1,2" 0 0 ;;~
        add_ims_subscriber_to_pyhss (arg_pyhss_url a) (arg_imsi a)
          (arg_msisdn a) "string" "scscf.ims.mnc001.mcc001.3gppnetwork.org"
          "default_ifc.xml"
          "sip:scscf.ims.mnc001.mcc001.3gppnetwork.org:6060"
          "ims.mnc001.mcc001.3gppnetwork.org" None
   else sret tt) ;;~
  (if negb (skip_osmohlr a)
   then on_hlr (add_to_osmohlr fuel (arg_osmohlr_ctrl_host a) (arg_imsi a)
                  (arg_msisdn a) 4259%N)
   else sret tt).

(** [main] (lines 219-252), after [parse_args]. *)
Definition main (fuel : nat) (a : args) : Prog unit :=
  if negb (skip_pyhss a)
  then
    auc_id <~ add_auc_to_pyhss (arg_pyhss_url a) (arg_imsi a) (arg_ki a)
                (arg_opc a) "8000" 0 ;;
    if is_none auc_id then say Aborting
    else provision fuel a auc_id
  else provision fuel a VNone.

End Provisioning.

(** The system once a line is printed. *)
Definition told {py : Python} (st : system) (l : report) : system :=
  mkSystem (hlr st) (web st) (docker st) (effects st) (console st ++ [l]).

(** The answer the next PUT meets, and the system once it is used. *)
Definition next_reply {py : Python} (st : system) : http_reply :=
  match web st with
  | [] => NoReply
  | r :: _ => r
  end.

Definition answered {py : Python} (st : system) : system :=
  mkSystem (hlr st) (tl (web st)) (docker st) (effects st) (console st).

(** The end the next run meets, and the system once it is used. *)
Definition next_run {py : Python} (st : system) : run_end :=
  match docker st with
  | [] => Unstartable
  | r :: _ => r
  end.

Definition ran {py : Python} (st : system) : system :=
  mkSystem (hlr st) (web st) (tl (docker st)) (effects st) (console st).

(** The command line of [add_to_open5gs] (line 66). *)
Definition dbctl_argv (imsi ki opc : str) : list str :=
  ["docker"; "exec"; "-it"; "hss"; "misc/db/open5gs-dbctl"; "add";
   imsi; ki; opc].

(** The requests of the two subscriber functions (lines 112-122, 124 and
    146-159, 162), with the defaults [main] leaves in place. *)
Definition subscriber_put {py : Python} (a : args)
    (auc_id : pyval number) : effect :=
  Put (format_pyhss_url (arg_pyhss_url a) ++ "/subscriber/")%string
    (subscriber_data (arg_imsi a) (arg_msisdn a) auc_id 1 "1,2" 0 0).

Definition ims_put {py : Python} (a : args) : effect :=
  Put (format_pyhss_url (arg_pyhss_url a) ++ "/ims_subscriber/")%string
    (ims_data (arg_imsi a) (arg_msisdn a) "string"
       "scscf.ims.mnc001.mcc001.3gppnetwork.org"
       ("[" ++ arg_msisdn a ++ "]")%string "default_ifc.xml"
       "sip:scscf.ims.mnc001.mcc001.3gppnetwork.org:6060"
       "ims.mnc001.mcc001.3gppnetwork.org").

Definition auc_put {py : Python} (a : args) : effect :=
  Put (auc_url (arg_pyhss_url a))
    (auc_data (arg_imsi a) (arg_ki a) (arg_opc a) "8000" 0).

(** The status codes [raise_for_status] raises for. *)
Definition refused (status : N) : bool :=
  ((400 <=? status) && (status <? 600))%N.

(** The exceptions no handler of the script catches: a program that cannot
    be started, [.get] on an answer that is no [dict], and the decoding error
    of a body where it is no [RequestException]. *)
Definition escapes {py : Python} (e : failure) : Prop :=
  e = FileNotFoundError \/ e = Py AttributeError \/
  (e = JSONDecodeError /\ json_error_is_request_exception = false).

(** A step that leaves the CTRL side alone and makes the effects [es], all
    of them when it returns and the first of them when an exception escapes
    it; it neither blocks nor loops. *)
Definition step_of {py : Python} {A} (c : Prog A) (es : list effect) : Prop :=
  forall st out st',
    c st = (out, st') ->
    hlr st' = hlr st /\
    match out with
    | Done _ => effects st' = effects st ++ es
    | Fails e => escapes e /\ exists n, effects st' = effects st ++ firstn n es
    | _ => False
    end.

(** The effects of [main] after the AUC step, and all of them, in their
    order, when the AUC id is [auc_id]. *)
Definition plan_after_auc {py : Python} (a : args) (auc_id : pyval number)
    : list effect :=
  (if skip_core_hss a then []
   else [Run (dbctl_argv (arg_imsi a) (arg_ki a) (arg_opc a))]) ++
  (if negb (skip_pyhss a) && truthy auc_id
   then [subscriber_put a auc_id; ims_put a]
   else []).

Definition plan {py : Python} (a : args) (auc_id : pyval number)
    : list effect :=
  (if skip_pyhss a then [] else [auc_put a]) ++ plan_after_auc a auc_id.

(** [d.get(key)] on the items of a [dict]. *)
Definition getd {py : Python} (d : list (str * pyval number)) (key : str)
    : pyval number :=
  match lookup key d with
  | Some v => v
  | None => VNone
  end.

(** The comparisons of [add_subscriber_to_pyhss] (lines 128-132) and of
    [add_ims_subscriber_to_pyhss] (lines 166-170) on an answer that is a
    [dict]. *)
Definition subscriber_matches {py : Python} (d : list (str * pyval number))
    (imsi msisdn : str) (auc_id : pyval number) (default_apn : Z)
    (apn_list : str) : bool :=
  py_eq (getd d "imsi") (VStr imsi) &&
  (py_eq (getd d "msisdn") (VStr (PyStr.strip_plus msisdn)) &&
   (py_eq (getd d "auc_id") auc_id &&
    (py_eq (getd d "default_apn") (VNum (number_of_int default_apn)) &&
     py_eq (getd d "apn_list") (VStr apn_list)))).

Definition ims_matches {py : Python} (d : list (str * pyval number))
    (imsi msisdn scscf scscf_realm scscf_peer : str) : bool :=
  py_eq (getd d "imsi") (VStr imsi) &&
  (py_eq (getd d "msisdn") (VStr (PyStr.strip_plus msisdn)) &&
   (py_eq (getd d "scscf") (VStr scscf) &&
    (py_eq (getd d "scscf_realm") (VStr scscf_realm) &&
     py_eq (getd d "scscf_peer") (VStr scscf_peer)))).

(** What one of the two functions prints for an answer that is a [dict]. *)
Definition verdict_lines {py : Python} (ok : bool) (validated : report)
    (data : list (str * pyval number)) (response_data : pyval number)
    : list report :=
  if ok then [validated]
  else [Validation_failed; Expected data; Received response_data].

Definition told_all {py : Python} (st : system) (ls : list report) : system :=
  mkSystem (hlr st) (web st) (docker st) (effects st) (console st ++ ls).

(** A runtime whose numbers are the integers, to run examples: [==] on its
    values, with [True == 1] and dictionaries compared as mappings. *)
Fixpoint value_eqb (a b : pyval Z) {struct a} : bool :=
  match a, b with
  | VNone, VNone => true
  | VBool x, VBool y => Bool.eqb x y
  | VBool x, VNum n => (n =? Z.b2z x)%Z
  | VNum n, VBool y => (n =? Z.b2z y)%Z
  | VNum n, VNum m => (n =? m)%Z
  | VStr s, VStr t => (s =? t)%string
  | VList l, VList l' =>
      (fix each (l : list (pyval Z)) (l' : list (pyval Z)) : bool :=
         match l, l' with
         | [], [] => true
         | x :: l, y :: l' => value_eqb x y && each l l'
         | _, _ => false
         end) l l'
  | VDict d, VDict d' =>
      (List.length d =? List.length d') &&
      (fix each (d : list (str * pyval Z)) : bool :=
         match d with
         | [] => true
         | (k, v) :: d0 =>
             match find (fun kv => (fst kv =? k)%string) d' with
             | Some (_, v') => value_eqb v v'
             | None => false
             end && each d0
         end) d
  | _, _ => false
  end.

#[export] Instance IntPython : Python := {|
  number := Z;
  number_of_int := fun n => n;
  number_truthy := fun n => negb (n =? 0)%Z;
  py_eq := value_eqb;
  json_error_is_request_exception := true
|}.

(** A system for examples: the CTRL side, the answers of PyHSS and the ends
    of the docker runs. *)
Definition site {py : Python} (w : world) (answers : list http_reply)
    (runs : list run_end) : system :=
  mkSystem w answers runs [] [].

(** ** Facts on [endswith] *)

Section StringFacts.

Local Open Scope string_scope.

Lemma endswith_refl (s : str) : PyStr.endswith s s = true.
Proof.
  destruct s as [|c s]; simpl.
  - reflexivity.
  - now rewrite Ascii.eqb_refl, String.eqb_refl.
Qed.

Lemma endswith_app (a b : str) : PyStr.endswith (a ++ b) b = true.
Proof.
  induction a as [|c a IH].
  - apply endswith_refl.
  - cbn [append PyStr.endswith]. rewrite IH. apply orb_true_r.
Qed.

Lemma append_assoc' (a b c : str) : (a ++ b) ++ c = a ++ (b ++ c).
Proof.
  induction a as [|x a IH]; simpl; [reflexivity | now rewrite IH].
Qed.

Lemma endswith_split (s p : str) :
  PyStr.endswith s p = true -> exists a, s = a ++ p.
Proof.
  induction s as [|c s IH].
  - cbn [PyStr.endswith]. rewrite orb_false_r. intros H.
    apply String.eqb_eq in H. exists "". now subst.
  - cbn [PyStr.endswith]. intros H. apply orb_true_iff in H. destruct H as [H | H].
    + apply String.eqb_eq in H. exists "". now subst.
    + destruct (IH H) as [a ->]. now exists (String c a).
Qed.

Lemma prefix_split (p s : str) :
  String.prefix p s = true -> exists r, s = p ++ r.
Proof.
  revert s. induction p as [|c p IH]; intros s H.
  - now exists s.
  - destruct s as [|d s]; simpl in H; [discriminate|].
    destruct (ascii_dec c d) as [->|]; [|discriminate].
    destruct (IH _ H) as [r ->]. now exists r.
Qed.

Lemma prefix_app (p r : str) : String.prefix p (p ++ r) = true.
Proof.
  induction p as [|c p IH]; simpl.
  - now destruct r.
  - destruct (ascii_dec c c); [exact IH | congruence].
Qed.

Lemma length_append (a b : str) :
  String.length (a ++ b) = String.length a + String.length b.
Proof.
  induction a as [|c a IH]; simpl; [reflexivity | now rewrite IH].
Qed.

Lemma format_pyhss_url_prefixed (s : str) :
  PyStr.startswith (format_pyhss_url s) "http://" = true.
Proof.
  unfold format_pyhss_url.
  destruct (PyStr.startswith s "http://") eqn:E; cbn [negb].
  - unfold PyStr.startswith in *. destruct (prefix_split _ _ E) as [r ->].
    rewrite append_assoc'. apply prefix_app.
  - unfold PyStr.startswith. rewrite append_assoc'. apply prefix_app.
Qed.

(** ** C9 *)

(** C9. For every input [s], [format_pyhss_url s] ends with [":8080"]; it is
  ["http://" ++ s ++ ":8080"] when [s] does not start with ["http://"] and
  [s ++ ":8080"] when it does, so the prefix is added exactly in the first
  case.  The suffix is unconditional: an input already ending in [":8080"]
  gives a result ending in [":8080:8080"], a second application appends a
  second [":8080"] (the function is not idempotent), and an input starting
  with ["https://"] still gets ["http://"] in front. *)
Theorem format_pyhss_url_spec (s : str) :
  PyStr.endswith (format_pyhss_url s) ":8080" = true /\
  (PyStr.startswith s "http://" = false ->
     format_pyhss_url s = "http://" ++ s ++ ":8080") /\
  (PyStr.startswith s "http://" = true ->
     format_pyhss_url s = s ++ ":8080") /\
  (PyStr.endswith s ":8080" = true ->
     PyStr.endswith (format_pyhss_url s) ":8080:8080" = true) /\
  (PyStr.startswith s "https://" = true ->
     format_pyhss_url s = "http://" ++ s ++ ":8080") /\
  format_pyhss_url (format_pyhss_url s) = format_pyhss_url s ++ ":8080" /\
  format_pyhss_url (format_pyhss_url s) <> format_pyhss_url s.
Proof.
  assert (Hnot : PyStr.startswith s "http://" = false ->
                 format_pyhss_url s = "http://" ++ s ++ ":8080").
  { intros E. unfold format_pyhss_url. now rewrite E. }
  assert (Htwice : format_pyhss_url (format_pyhss_url s)
                   = format_pyhss_url s ++ ":8080").
  { unfold format_pyhss_url at 1.
    now rewrite format_pyhss_url_prefixed. }
  repeat split.
  - unfold format_pyhss_url. apply endswith_app.
  - exact Hnot.
  - intros E. unfold format_pyhss_url. now rewrite E.
  - intros E. destruct (endswith_split _ _ E) as [a ->].
    unfold format_pyhss_url.
    destruct (negb (PyStr.startswith (a ++ ":8080") "http://")).
    + change ("http://" ++ a ++ ":8080") with (("http://" ++ a) ++ ":8080").
      rewrite append_assoc'. apply endswith_app.
    + rewrite append_assoc'. apply endswith_app.
  - intros E. apply Hnot.
    unfold PyStr.startswith in *. destruct (prefix_split _ _ E) as [r ->].
    reflexivity.
  - exact Htwice.
  - rewrite Htwice. intros E.
    apply (f_equal String.length) in E. rewrite length_append in E.
    simpl in E. lia.
Qed.

(** The claim at a URL with a port, a bare host, and an https URL. *)
Lemma format_pyhss_url_spec_witness :
  PyStr.endswith "pyhss:8080" ":8080" = true /\
  PyStr.endswith (format_pyhss_url "pyhss:8080") ":8080:8080" = true /\
  PyStr.startswith "https://pyhss" "https://" = true /\
  format_pyhss_url "https://pyhss" = "http://https://pyhss:8080" /\
  PyStr.startswith "http://pyhss" "http://" = true /\
  format_pyhss_url "http://pyhss" = "http://pyhss:8080".
Proof.
  split; [reflexivity|].
  split; [apply (format_pyhss_url_spec "pyhss:8080"); reflexivity|].
  split; [reflexivity|].
  split; [apply (format_pyhss_url_spec "https://pyhss"); reflexivity|].
  split; [reflexivity|].
  apply (format_pyhss_url_spec "http://pyhss"); reflexivity.
Defined.

End StringFacts.

(** ** The monad *)

Section MonadFacts.

Context {A B : Type}.

Lemma bind_returns (c : M A) (k : A -> M B) w a w' :
  c w = (Returns a, w') -> bind c k w = k a w'.
Proof. unfold bind. now intros ->. Qed.

Lemma bind_raises (c : M A) (k : A -> M B) w e w' :
  c w = (Raises e, w') -> bind c k w = (Raises e, w').
Proof. unfold bind. now intros ->. Qed.

Lemma bind_blocks (c : M A) (k : A -> M B) w w' :
  c w = (Blocks, w') -> bind c k w = (Blocks, w').
Proof. unfold bind. now intros ->. Qed.

Lemma bind_out_of_fuel (c : M A) (k : A -> M B) w w' :
  c w = (OutOfFuel, w') -> bind c k w = (OutOfFuel, w').
Proof. unfold bind. now intros ->. Qed.

End MonadFacts.

Lemma on_sock_some {A} (call : socket -> io A * socket) w s r s' :
  sock w = Some s -> call s = (r, s') ->
  on_sock call w = (seen r, set_sock w (Some s')).
Proof. unfold on_sock. now intros -> ->. Qed.

Lemma on_sock_none {A} (call : socket -> io A * socket) w :
  sock w = None -> on_sock call w = (Raises AttributeError, w).
Proof. unfold on_sock. now intros ->. Qed.

(** With [MSG_DONTWAIT] a read never hangs. *)
Lemma recv_events_dontwait n evs fin :
  fst (recv_events n MSG_DONTWAIT evs fin) <> Hang.
Proof.
  destruct evs as [|[b| |e] rest]; simpl; try discriminate.
  destruct fin; discriminate.
Qed.

Lemma sock_recv_dontwait n s : fst (sock_recv n MSG_DONTWAIT s) <> Hang.
Proof.
  unfold sock_recv. destruct (status s); try discriminate.
  pose proof (recv_events_dontwait n (inbox s) (at_end s)) as H.
  now destruct (recv_events n MSG_DONTWAIT (inbox s) (at_end s)).
Qed.

(** ** The receive loop *)

Section ClientFacts.

Context {codec : Ctrl}.

(** One turn of the loop of [send_command]. *)
Lemma recv_loop_step fuel w s r s' :
  sock w = Some s ->
  sock_recv 4096 NoFlags s = (r, s') ->
  recv_loop (S fuel) w =
    let w' := set_sock w (Some s') in
    match r with
    | Got data =>
        match skip_traps data with
        | inl e => (Raises (CodecError e), w')
        | inr None => recv_loop fuel w'
        | inr (Some reply) =>
            match parse reply with
            | inl e => (Raises (CodecError e), w')
            | inr _ => (Returns reply, w')
            end
        end
    | Err e => (Raises (SocketError e), w')
    | Hang => (Blocks, w')
    end.
Proof.
  intros Hs Hr. cbn [recv_loop].
  unfold bind at 1. rewrite (on_sock_some _ _ _ _ _ Hs Hr).
  destruct r as [data|e|]; cbn [seen]; try reflexivity.
  unfold bind at 1.
  destruct (skip_traps data) as [e|[reply|]]; cbn [lift raise ret];
    try reflexivity.
  unfold bind. destruct (parse reply); reflexivity.
Qed.

Lemma recv_loop_no_sock fuel w :
  sock w = None -> recv_loop (S fuel) w = (Raises AttributeError, w).
Proof.
  intros Hs. cbn [recv_loop]. unfold bind at 1.
  now rewrite (on_sock_none _ _ Hs).
Qed.

(** A reply that the loop returns was found by [skip_traps] in one read. *)
Lemma recv_loop_returns fuel w reply w' :
  recv_loop fuel w = (Returns reply, w') ->
  exists data, skip_traps data = inr (Some reply).
Proof.
  revert w. induction fuel as [|fuel IH]; intros w H.
  - discriminate.
  - destruct (sock w) as [s|] eqn:Hs.
    + destruct (sock_recv 4096 NoFlags s) as [r s'] eqn:Hr.
      rewrite (recv_loop_step _ _ _ _ _ Hs Hr) in H. cbv zeta in H.
      destruct r as [data|e|]; try discriminate.
      destruct (skip_traps data) as [e|[reply'|]] eqn:Hk; try discriminate.
      * destruct (parse reply'); try discriminate.
        injection H as -> _. now exists data.
      * eapply IH, H.
    + rewrite (recv_loop_no_sock _ _ Hs) in H. discriminate.
Qed.

(** C1 (as amended). In the receive loop of [send_command], a read in which
    [skip_traps] finds no frame is passed over and the loop reads again; the
    first read in which it finds a frame ends the loop with that frame as
    the reply.  The drawn transaction id is not an input of the loop: the
    frame is taken whatever id it carries. *)
Theorem recv_loop_takes_first_frame fuel w s data s' :
  sock w = Some s ->
  sock_recv 4096 NoFlags s = (Got data, s') ->
  (skip_traps data = inr None ->
     recv_loop (S fuel) w = recv_loop fuel (set_sock w (Some s'))) /\
  (forall reply p,
     skip_traps data = inr (Some reply) ->
     parse reply = inr p ->
     recv_loop (S fuel) w = (Returns reply, set_sock w (Some s'))).
Proof.
  intros Hs Hr. rewrite (recv_loop_step _ _ _ _ _ Hs Hr). cbv zeta.
  split.
  - now intros ->.
  - intros reply p -> ->. reflexivity.
Qed.

(** The outcome of the loop, the ways it can end. *)
Lemma recv_loop_raises fuel w e w' :
  recv_loop fuel w = (Raises e, w') ->
  (exists se, e = SocketError se) \/ (exists ce, e = CodecError ce)
  \/ e = AttributeError.
Proof.
  revert w. induction fuel as [|fuel IH]; intros w H.
  - discriminate.
  - destruct (sock w) as [s|] eqn:Hs.
    + destruct (sock_recv 4096 NoFlags s) as [r s'] eqn:Hr.
      rewrite (recv_loop_step _ _ _ _ _ Hs Hr) in H. cbv zeta in H.
      destruct r as [data|se|]; try discriminate.
      * destruct (skip_traps data) as [ce|[reply|]].
        -- injection H as <- _. right; left. now exists ce.
        -- destruct (parse reply) as [ce|]; try discriminate.
           injection H as <- _. right; left. now exists ce.
        -- eapply IH, H.
      * injection H as <- _. left. now exists se.
    + rewrite (recv_loop_no_sock _ _ Hs) in H.
      injection H as <- _. now right; right.
Qed.

(** ** [send_command] *)

Lemma send_command_prepared fuel var value w r c w' :
  prepared fuel var value w r c w' ->
  send_command fuel var value w
  = (on_sock (sock_send c) ;;; await_reply fuel r var value) w'.
Proof.
  intros (b & w1 & Hdrain & Hrand & Hcmd).
  unfold send_command.
  rewrite (bind_returns (print _) _ w tt (add_line w (Sending_command var)))
    by reflexivity.
  rewrite (bind_returns _ _ _ _ _ Hdrain).
  rewrite (bind_returns _ _ _ _ _ Hrand).
  rewrite Hcmd. reflexivity.
Qed.

(** Line 35: once the receive loop has obtained a reply, the outcome of
    [send_command] is that of [verify].  There is no handler between
    [verify] and the caller, so what [verify] raises is raised by
    [send_command]; what it returns is appended to [rem_header] of the
    reply. *)
Lemma send_command_after_loop fuel var value w r c w1 n w2 reply w3 raw :
  prepared fuel var value w r c w1 ->
  on_sock (sock_send c) w1 = (Returns n, w2) ->
  recv_loop fuel w2 = (Returns reply, w3) ->
  rem_header reply = inr raw ->
  send_command fuel var value w
  = (match verify reply r var value with
     | inl e => Raises (CodecError e)
     | inr bv => Returns (raw, fst bv, snd bv)
     end, w3).
Proof.
  intros Hp Hsend Hloop Hraw.
  rewrite (send_command_prepared _ _ _ _ _ _ _ Hp).
  rewrite (bind_returns _ _ _ _ _ Hsend).
  unfold await_reply.
  rewrite (bind_returns _ _ _ _ _ Hloop).
  rewrite Hraw. cbn [lift]. unfold bind at 1. cbn [ret].
  destruct (verify reply r var value) as [e|bv]; reflexivity.
Qed.

(** C3 (as amended). In the receive loop of [send_command], a [recv] that
    raises a socket error ends the loop with that error, and [send_command]
    fails with whatever the loop raises.  The loop returns only with a
    frame that [skip_traps] found in a read, hence never with a
    notification, and that frame may have any verb; a read in which
    [skip_traps] finds nothing never ends the loop.  The only exceptions
    that leave the loop are socket errors, codec errors and the attribute
    error of a missing socket. *)
Theorem recv_loop_ends (trap : bytes -> bool) :
  (forall data reply, skip_traps data = inr (Some reply) ->
                      trap reply = false) ->
  (forall fuel w s e s',
      sock w = Some s ->
      sock_recv 4096 NoFlags s = (Err e, s') ->
      recv_loop (S fuel) w
      = (Raises (SocketError e), set_sock w (Some s'))) /\
  (forall fuel var value w r c w1 n w2 e w3,
      prepared fuel var value w r c w1 ->
      on_sock (sock_send c) w1 = (Returns n, w2) ->
      recv_loop fuel w2 = (Raises e, w3) ->
      send_command fuel var value w = (Raises e, w3)) /\
  (forall fuel w reply w',
      recv_loop fuel w = (Returns reply, w') ->
      trap reply = false /\
      exists data, skip_traps data = inr (Some reply)) /\
  (forall fuel w s data s',
      sock w = Some s ->
      sock_recv 4096 NoFlags s = (Got data, s') ->
      skip_traps data = inr None ->
      recv_loop (S fuel) w = recv_loop fuel (set_sock w (Some s'))) /\
  (forall fuel w e w',
      recv_loop fuel w = (Raises e, w') ->
      (exists se, e = SocketError se) \/ (exists ce, e = CodecError ce)
      \/ e = AttributeError).
Proof.
  intros Htrap. split; [|split; [|split; [|split]]].
  - intros fuel w s e s' Hs Hr.
    now rewrite (recv_loop_step _ _ _ _ _ Hs Hr).
  - intros fuel var value w r c w1 n w2 e w3 Hp Hsend Hloop.
    rewrite (send_command_prepared _ _ _ _ _ _ _ Hp).
    rewrite (bind_returns _ _ _ _ _ Hsend).
    unfold await_reply. now rewrite (bind_raises _ _ _ _ _ Hloop).
  - intros fuel w reply w' Hrun.
    destruct (recv_loop_returns _ _ _ _ Hrun) as [data Hd].
    split; [eapply Htrap, Hd | now exists data].
  - intros fuel w s data s' Hs Hr Hk.
    rewrite (recv_loop_step _ _ _ _ _ Hs Hr). cbv zeta. now rewrite Hk.
  - intros fuel w e w'. apply recv_loop_raises.
Qed.

(** A read of an arrival that fits the buffer takes all of it. *)
Lemma sock_recv_data n fl s c evs :
  status s = Open -> inbox s = Data c :: evs -> List.length c <= n ->
  sock_recv n fl s = (Got c, set_inbox s evs).
Proof.
  intros Hst Hin Hlen. unfold sock_recv. rewrite Hst, Hin.
  cbn [recv_events]. rewrite firstn_all2 by exact Hlen.
  apply Nat.leb_le in Hlen. now rewrite Hlen.
Qed.

(** C4 (as amended). The receive path of [send_command] keeps no bytes
    from one socket read to the next: each read is handed to [skip_traps]
    on its own.  A read in which it finds no frame is dropped whole and
    the loop goes on with the following reads only; the first read in
    which it finds a frame gives the reply, from the bytes of that read
    alone, the later arrivals being left unread; its exception ends the
    loop. *)
Theorem recv_loop_one_read_at_a_time fuel w s c evs :
  sock w = Some s ->
  status s = Open ->
  inbox s = Data c :: evs ->
  List.length c <= 4096 ->
  let w' := set_sock w (Some (set_inbox s evs)) in
  (skip_traps c = inr None -> recv_loop (S fuel) w = recv_loop fuel w') /\
  (forall reply p,
      skip_traps c = inr (Some reply) ->
      parse reply = inr p ->
      recv_loop (S fuel) w = (Returns reply, w')) /\
  (forall e,
      skip_traps c = inl e ->
      recv_loop (S fuel) w = (Raises (CodecError e), w')).
Proof.
  intros Hs Hst Hin Hlen w'.
  pose proof (sock_recv_data 4096 NoFlags s c evs Hst Hin Hlen) as Hr.
  rewrite (recv_loop_step _ _ _ _ _ Hs Hr). cbv zeta. fold w'.
  repeat split.
  - now intros ->.
  - intros reply p -> ->. reflexivity.
  - now intros e ->.
Qed.

(** ** The drain *)

Lemma add_lines_nil w : add_lines w [] = w.
Proof. destruct w. unfold add_lines. cbn. now rewrite app_nil_r. Qed.

Lemma add_lines_cons w l ls :
  add_lines (add_line w l) ls = add_lines w (l :: ls).
Proof. unfold add_lines, add_line. cbn. now rewrite <- app_assoc. Qed.

(** One turn of the loop of [_leftovers]. *)
Lemma drain_loop_step fuel data w :
  drain_loop (S fuel) data w =
    match split_combined data with
    | inl e => (Raises (CodecError e), w)
    | inr (head, tail) =>
        match rem_header head with
        | inl e => (Raises (CodecError e), w)
        | inr m =>
            let w' := add_line w (Got_message m) in
            if List.length tail =? 0 then (Returns tt, w')
            else drain_loop fuel tail w'
        end
    end.
Proof.
  cbn [drain_loop]. unfold bind at 1.
  destruct (split_combined data) as [e|[head tail]]; cbn [lift raise ret];
    try reflexivity.
  cbn [fst snd]. unfold bind at 1.
  destruct (rem_header head) as [e|m]; cbn [lift raise ret];
    try reflexivity.
  unfold bind at 1. cbn [print].
  destruct (List.length tail =? 0); reflexivity.
Qed.

(** The loop prints one line for each head that is peeled off. *)
Lemma drain_loop_peels data ms :
  peels data ms ->
  forall fuel w,
    List.length ms <= fuel ->
    drain_loop fuel data w
    = (Returns tt, add_lines w (map Got_message ms)).
Proof.
  induction 1 as [data head m Hsplit Hrem
                 |data head tail m ms Hsplit Hne Hrem _ IH];
    intros [|fuel] w Hfuel; cbn [List.length] in Hfuel; try lia.
  - rewrite drain_loop_step, Hsplit, Hrem. reflexivity.
  - rewrite drain_loop_step, Hsplit, Hrem. cbv zeta.
    destruct tail as [|b tail]; [congruence|]. cbn [List.length Nat.eqb].
    rewrite IH by lia. cbn [map]. now rewrite add_lines_cons.
Qed.

(** However the loop ends, it has only printed messages; it neither blocks
    nor raises a socket error. *)
Lemma drain_loop_frame fuel :
  forall data w out w',
    drain_loop fuel data w = (out, w') ->
    (exists ms, w' = add_lines w (map Got_message ms)) /\
    out <> Blocks /\ (forall e, out <> Raises (SocketError e)).
Proof.
  induction fuel as [|fuel IH]; intros data w out w' H.
  - injection H as <- <-. split; [|split]; try discriminate.
    exists []. now rewrite add_lines_nil.
  - rewrite drain_loop_step in H.
    destruct (split_combined data) as [e|[head tail]].
    { injection H as <- <-. split; [|split]; try discriminate.
      exists []. now rewrite add_lines_nil. }
    destruct (rem_header head) as [e|m].
    { injection H as <- <-. split; [|split]; try discriminate.
      exists []. now rewrite add_lines_nil. }
    cbv zeta in H. destruct (List.length tail =? 0).
    + injection H as <- <-. split; [|split]; try discriminate.
      now exists [m].
    + destruct (IH _ _ _ _ H) as ((ms & ->) & Hb & He).
      split; [|split]; try assumption.
      exists (m :: ms). cbn [map]. now rewrite add_lines_cons.
Qed.

(** [_leftovers] after its [recv]. *)
Lemma leftovers_step fuel fl w s r s' :
  sock w = Some s ->
  sock_recv 1024 fl s = (r, s') ->
  _leftovers fuel fl w =
    let w' := set_sock w (Some s') in
    match r with
    | Got data =>
        if negb (List.length data =? 0)
        then (drain_loop fuel data ;;; ret true) w'
        else (Returns false, w')
    | Err _ => (Returns false, w')
    | Hang => (Blocks, w')
    end.
Proof.
  intros Hs Hr. unfold _leftovers, try_except.
  unfold bind at 1. unfold bind at 1.
  rewrite (on_sock_some _ _ _ _ _ Hs Hr).
  destruct r as [data|e|]; cbn [seen ret]; try reflexivity.
  destruct (negb (List.length data =? 0)); reflexivity.
Qed.

Lemma leftovers_no_sock fuel fl w :
  sock w = None -> _leftovers fuel fl w = (Raises AttributeError, w).
Proof.
  intros Hs. unfold _leftovers, try_except.
  unfold bind at 1. unfold bind at 1.
  now rewrite (on_sock_none _ _ Hs).
Qed.

(** What [_leftovers] with [MSG_DONTWAIT] can do to the world. *)
Lemma leftovers_frame fuel w s out w' :
  sock w = Some s ->
  _leftovers fuel MSG_DONTWAIT w = (out, w') ->
  out <> Blocks /\ (forall e, out <> Raises (SocketError e)) /\
  exists ms,
    w' = add_lines (set_sock w (Some (snd (sock_recv 1024 MSG_DONTWAIT s))))
           (map Got_message ms).
Proof.
  intros Hs H.
  destruct (sock_recv 1024 MSG_DONTWAIT s) as [r s'] eqn:Hr.
  pose proof (sock_recv_dontwait 1024 s) as Hhang. rewrite Hr in Hhang.
  rewrite (leftovers_step _ _ _ _ _ _ Hs Hr) in H. cbv zeta in H.
  cbn [snd fst] in *.
  assert (Hstay : forall b,
             (@Returns bool b, set_sock w (Some s')) = (out, w') ->
             out <> Blocks /\ (forall e, out <> Raises (SocketError e)) /\
             exists ms, w' = add_lines (set_sock w (Some s'))
                               (map Got_message ms)).
  { intros b Hb. injection Hb as <- <-. repeat split; try discriminate.
    exists []. now rewrite add_lines_nil. }
  destruct r as [data|e|]; [|now apply (Hstay false)|congruence].
  destruct (negb (List.length data =? 0)); [|now apply (Hstay false)].
  unfold bind in H.
  destruct (drain_loop fuel data (set_sock w (Some s'))) as [o w1] eqn:Hd.
  destruct (drain_loop_frame _ _ _ _ _ Hd) as ((ms & ->) & Hb & He).
  destruct o as [[]|e| |]; try congruence; injection H as <- <-;
    (split; [discriminate|split; [|now exists ms]]);
    try discriminate.
  intros se E. injection E as ->. now apply (He se).
Qed.

(** C5 (as amended). The pre-send drain never blocks, and it prints as a
    message every head that [split_combined] peels off the bytes of its
    single read before it returns.  It keeps none of those bytes: when it
    is over the client's socket is exactly as the [recv] left it, and
    nothing but [stdout] has changed besides, so a trailing part of a
    frame in the read is printed like a frame and is not there for the
    next read. *)
Theorem leftovers_keeps_nothing fuel w s out w' :
  sock w = Some s ->
  _leftovers fuel MSG_DONTWAIT w = (out, w') ->
  let after := sock_recv 1024 MSG_DONTWAIT s in
  out <> Blocks /\
  sock w' = Some (snd after) /\ rng w' = rng w /\ peer w' = peer w /\
  (exists ms, stdout w' = stdout w ++ map Got_message ms) /\
  (forall data ms,
      fst after = Got data -> data <> [] ->
      peels data ms -> List.length ms <= fuel ->
      out = Returns true /\
      stdout w' = stdout w ++ map Got_message ms).
Proof.
  intros Hs H after.
  destruct (leftovers_frame _ _ _ _ _ Hs H) as (Hb & _ & ms & Hw).
  fold after in Hw.
  split; [exact Hb|]. rewrite Hw.
  cbn [add_lines set_sock sock rng peer stdout].
  split; [reflexivity|]. split; [reflexivity|]. split; [reflexivity|].
  split; [now exists ms|].
  intros data ms' Hgot Hne Hpeel Hfuel.
  destruct after as [r s'] eqn:Hr. cbn [fst snd] in *. subst r.
  unfold after in Hr.
  rewrite (leftovers_step _ _ _ _ _ _ Hs Hr) in H. cbv zeta in H.
  destruct data as [|b data]; [congruence|].
  cbn [List.length Nat.eqb negb] in H.
  rewrite (bind_returns _ _ _ _ _ (drain_loop_peels _ _ Hpeel _ _ Hfuel)) in H.
  injection H as <- H. split; [reflexivity|].
  rewrite Hw in H. apply (f_equal stdout) in H.
  cbn [add_lines set_sock stdout] in H. now rewrite <- H.
Qed.

(** C10 (as amended). [_leftovers] with [MSG_DONTWAIT] never blocks and
    never lets a socket error out: when its [recv] raises one (as it does
    when nothing is queued) it returns [False].  It returns [False] also on
    an empty read, and [True] only when at least one byte was read; after
    such a read it cannot return [False], and it returns [True] once it has
    printed each head that [split_combined] peels off that read.  But a
    read of at least one byte does not always give [True]: lines 53-54 are
    outside the [try], and what [split_combined] or [rem_header] raises on
    the bytes read is raised by [_leftovers]. *)
Theorem leftovers_result fuel w s r s' :
  sock w = Some s ->
  sock_recv 1024 MSG_DONTWAIT s = (r, s') ->
  let w' := set_sock w (Some s') in
  let run := _leftovers fuel MSG_DONTWAIT w in
  r <> Hang /\ fst run <> Blocks /\
  (forall e, fst run <> Raises (SocketError e)) /\
  (forall e, r = Err e -> run = (Returns false, w')) /\
  (r = Got [] -> run = (Returns false, w')) /\
  (fst run = Returns true -> exists data, r = Got data /\ data <> []) /\
  (fst run = Returns false -> r = Got [] \/ exists e, r = Err e) /\
  (forall data ms,
      r = Got data -> data <> [] ->
      peels data ms -> List.length ms <= fuel ->
      run = (Returns true, add_lines w' (map Got_message ms))) /\
  (forall data e,
      r = Got data -> data <> [] -> 0 < fuel ->
      split_combined data = inl e ->
      run = (Raises (CodecError e), w')) /\
  (forall data head tail e,
      r = Got data -> data <> [] -> 0 < fuel ->
      split_combined data = inr (head, tail) -> rem_header head = inl e ->
      run = (Raises (CodecError e), w')) /\
  (status s = Open ->
   (inbox s = [] /\ at_end s = Silent) \/ (exists rest, inbox s = Idle :: rest) ->
   r = Err EAGAIN).
Proof.
  intros Hs Hr w' run.
  assert (Hhang : r <> Hang).
  { pose proof (sock_recv_dontwait 1024 s) as Hh. now rewrite Hr in Hh. }
  destruct run as [out w1] eqn:Hrun. unfold run in Hrun.
  destruct (leftovers_frame _ _ _ _ _ Hs Hrun) as (Hb & He & _).
  rewrite (leftovers_step _ _ _ _ _ _ Hs Hr) in Hrun. cbv zeta in Hrun.
  fold w' in Hrun. cbn [fst].
  split; [exact Hhang|]. split; [exact Hb|]. split; [exact He|].
  split; [|split; [|split; [|split; [|split; [|split; [|split]]]]]].
  - intros e ->. now rewrite <- Hrun.
  - intros ->. now rewrite <- Hrun.
  - intros ->. destruct r as [[|b data]|e|]; try discriminate.
    now exists (b :: data).
  - intros ->. destruct r as [[|b data]|e|].
    + now left.
    + exfalso. cbn [List.length Nat.eqb negb] in Hrun. unfold bind in Hrun.
      destruct (drain_loop fuel (b :: data) w') as [[]]; discriminate.
    + right. now exists e.
    + congruence.
  - intros data ms -> Hne Hp Hfuel.
    destruct data as [|b data]; [congruence|].
    cbn [List.length Nat.eqb negb] in Hrun.
    now rewrite (bind_returns _ _ _ _ _ (drain_loop_peels _ _ Hp _ _ Hfuel))
      in Hrun.
  - intros data e -> Hne Hfuel Hsplit.
    destruct data as [|b data]; [congruence|].
    destruct fuel as [|fuel]; [lia|].
    cbn [List.length Nat.eqb negb] in Hrun. unfold bind in Hrun.
    rewrite drain_loop_step, Hsplit in Hrun. now rewrite <- Hrun.
  - intros data head tail e -> Hne Hfuel Hsplit Hrem.
    destruct data as [|b data]; [congruence|].
    destruct fuel as [|fuel]; [lia|].
    cbn [List.length Nat.eqb negb] in Hrun. unfold bind in Hrun.
    rewrite drain_loop_step, Hsplit, Hrem in Hrun. now rewrite <- Hrun.
  - intros Hst Hq. unfold sock_recv in Hr. rewrite Hst in Hr.
    destruct Hq as [[Hin Hend]|[rest Hin]]; rewrite Hin in Hr;
      try rewrite Hend in Hr; cbn in Hr; congruence.
Qed.

(** C6 (as amended). [send_command] hands the encoded command to one
    [send] call and does not look at the count it returns: when that call
    takes [n] bytes, the first [n] bytes of the command are on the wire and
    [send_command] goes on to wait for the reply (all of the command when
    the call takes all); when the call raises, [send_command] fails with
    that socket error. *)
Theorem send_command_sends_once fuel var value w r c w1 s :
  prepared fuel var value w r c w1 ->
  sock w1 = Some s ->
  status s = Open ->
  let sent rest bs :=
    set_sock w1 (Some (mkSocket (inbox s) (at_end s) rest (wire s ++ bs) Open)) in
  (outbox s = [] ->
     send_command fuel var value w
     = await_reply fuel r var value (sent [] c)) /\
  (forall n rest,
      outbox s = Accept n :: rest ->
      send_command fuel var value w
      = await_reply fuel r var value (sent rest (firstn n c))) /\
  (forall e rest,
      outbox s = Refuse e :: rest ->
      send_command fuel var value w
      = (Raises (SocketError e),
         set_sock w1
           (Some (mkSocket (inbox s) (at_end s) rest (wire s) Open)))).
Proof.
  intros Hp Hs Hst sent.
  rewrite (send_command_prepared _ _ _ _ _ _ _ Hp).
  repeat split.
  - intros Hout. unfold bind.
    erewrite on_sock_some; [|exact Hs|unfold sock_send; rewrite Hst, Hout; reflexivity].
    reflexivity.
  - intros n rest Hout. unfold bind.
    erewrite on_sock_some; [|exact Hs|unfold sock_send; rewrite Hst, Hout; reflexivity].
    reflexivity.
  - intros e rest Hout. unfold bind.
    erewrite on_sock_some; [|exact Hs|unfold sock_send; rewrite Hst, Hout; reflexivity].
    reflexivity.
Qed.

End ClientFacts.

(** ** [close] *)

Lemma close_step w :
  close w =
    match sock w with
    | Some s =>
        (Returns tt,
         add_line (set_sock w (Some (sock_close s))) Connection_closed)
    | None => (Returns tt, w)
    end.
Proof. unfold close. now destruct (sock w). Qed.

Lemma close_times_S n w :
  close_times (S n) w = close_times n (snd (close w)).
Proof.
  cbn [close_times]. unfold bind. rewrite close_step.
  now destruct (sock w).
Qed.

Lemma close_twice_sock w : sock (snd (close (snd (close w)))) = sock (snd (close w)).
Proof.
  rewrite !close_step. destruct (sock w) as [s|] eqn:Hs; cbn.
  - reflexivity.
  - now rewrite Hs.
Qed.

Lemma close_times_sock n w :
  fst (close_times (S n) w) = Returns tt /\
  sock (snd (close_times (S n) w)) = sock (snd (close w)).
Proof.
  revert w. induction n as [|n IH]; intros w.
  - rewrite close_times_S. now cbn.
  - rewrite close_times_S. destruct (IH (snd (close w))) as [H1 H2].
    split; [exact H1|]. rewrite H2. apply close_twice_sock.
Qed.

(** C7. [close()] never raises, whatever the state of the client: with no
    socket yet, with one that never connected, with one that failed, or with
    one that is closed already.  After one call the client's socket, if there
    is one, is closed, with its queues untouched; a second call, and any
    number of calls, leave the session as the first call left it. *)
Theorem close_idempotent w :
  let w1 := snd (close w) in
  fst (close w) = Returns tt /\
  fst (close w1) = Returns tt /\
  sock (snd (close w1)) = sock w1 /\
  rng (snd (close w1)) = rng w /\ peer (snd (close w1)) = peer w /\
  (forall n, fst (close_times (S n) w) = Returns tt /\
             sock (snd (close_times (S n) w)) = sock w1) /\
  match sock w with
  | None => sock w1 = None
  | Some s =>
      sock w1 = Some (mkSocket (inbox s) (at_end s) (outbox s) (wire s) Closed)
  end.
Proof.
  cbv zeta. split; [|split; [|split; [|split; [|split; [|split]]]]].
  - rewrite close_step. now destruct (sock w).
  - rewrite close_step. now destruct (sock (snd (close w))).
  - apply close_twice_sock.
  - rewrite !close_step. destruct (sock w) as [s|] eqn:Hs; cbn;
      rewrite ?Hs; reflexivity.
  - rewrite !close_step. destruct (sock w) as [s|] eqn:Hs; cbn;
      rewrite ?Hs; reflexivity.
  - intros n. apply close_times_sock.
  - rewrite close_step. destruct (sock w) as [s|] eqn:Hs; cbn;
      [reflexivity | exact Hs].
Qed.

(** ** What is printed stays printed *)

Create HintDb grows.

Section ScriptFacts.

Context {codec : Ctrl}.

Lemma grows_here {A} (o : outcome A) :
  grows (fun w => (o, w)).
Proof.
  intros w out w' H. injection H as _ <-. exists []. now rewrite app_nil_r.
Qed.

Lemma grows_ret {A} (a : A) : grows (ret a).
Proof. apply grows_here. Qed.

Lemma grows_raise {A} e : grows (@raise A e).
Proof. apply grows_here. Qed.

Lemma grows_out_of_fuel {A} : grows (@out_of_fuel A).
Proof. apply grows_here. Qed.

Lemma grows_lift {A} (r : cresult A) : grows (lift r).
Proof. destruct r; apply grows_here. Qed.

Lemma grows_print l : grows (print l).
Proof. intros w out w' H. injection H as _ <-. now exists [l]. Qed.

Lemma grows_randint : grows randint.
Proof.
  intros w out w' H. unfold randint in H.
  destruct (rng w); injection H as _ <-; exists []; cbn;
    now rewrite app_nil_r.
Qed.

Lemma grows_on_sock {A} (call : socket -> io A * socket) :
  grows (on_sock call).
Proof.
  intros w out w' H. unfold on_sock in H. exists [].
  rewrite app_nil_r.
  destruct (sock w) as [s|]; [|now injection H as _ <-].
  destruct (call s) as [[a|e|] s']; now injection H as _ <-.
Qed.

Lemma grows_bind {A B} (c : M A) (k : A -> M B) :
  grows c -> (forall a, grows (k a)) -> grows (bind c k).
Proof.
  intros Hc Hk w out w' H. unfold bind in H.
  destruct (c w) as [o w1] eqn:E. destruct (Hc _ _ _ E) as [l1 H1].
  destruct o as [a|e| |];
    try (injection H as _ <-; now exists l1).
  destruct (Hk a _ _ _ H) as [l2 H2]. exists (l1 ++ l2).
  now rewrite H2, H1, app_assoc.
Qed.

Lemma grows_try_except {A} (c : M A) (h : exn -> M A) :
  grows c -> (forall e, grows (h e)) -> grows (try_except c h).
Proof.
  intros Hc Hh w out w' H. unfold try_except in H.
  destruct (c w) as [o w1] eqn:E. destruct (Hc _ _ _ E) as [l1 H1].
  destruct o as [a|e| |];
    try (injection H as _ <-; now exists l1).
  destruct (Hh e _ _ _ H) as [l2 H2]. exists (l1 ++ l2).
  now rewrite H2, H1, app_assoc.
Qed.

Lemma grows_if {A} (b : bool) (c d : M A) :
  grows c -> grows d -> grows (if b then c else d).
Proof. now destruct b. Qed.

Hint Resolve grows_ret grows_raise grows_out_of_fuel grows_lift grows_print
  grows_randint grows_on_sock grows_bind grows_try_except grows_if : grows.

Lemma grows_drain_loop fuel : forall data, grows (drain_loop fuel data).
Proof.
  induction fuel as [|fuel IH]; intros data; cbn [drain_loop];
    auto 10 with grows.
Qed.

Lemma grows_recv_loop fuel : grows (recv_loop fuel).
Proof.
  induction fuel as [|fuel IH]; cbn [recv_loop]; auto with grows.
  apply grows_bind; [auto with grows|]. intros data.
  apply grows_bind; [auto with grows|]. intros [reply|];
    auto with grows.
Qed.

Lemma grows_leftovers fuel fl : grows (_leftovers fuel fl).
Proof.
  unfold _leftovers. apply grows_bind.
  - apply grows_try_except; [auto with grows|].
    intros []; auto with grows.
  - intros [data|]; auto with grows.
    apply grows_if; auto with grows.
    apply grows_bind; auto using grows_drain_loop with grows.
Qed.

Lemma grows_await_reply fuel r var value :
  grows (await_reply fuel r var value).
Proof.
  unfold await_reply. auto 10 using grows_recv_loop with grows.
Qed.

Lemma grows_close : grows close.
Proof.
  intros w out w' H. rewrite close_step in H.
  destruct (sock w); injection H as _ <-.
  - now exists [Connection_closed].
  - exists []. now rewrite app_nil_r.
Qed.

Lemma grows_has_error r : grows (has_error r).
Proof.
  unfold has_error. destruct (fst (fst r)) as [raw|]; auto with grows.
  destruct (decode_utf8 raw); auto with grows.
Qed.

Lemma grows_after_msisdn r : grows (after_msisdn r).
Proof.
  unfold after_msisdn.
  auto 10 using grows_has_error, grows_close with grows.
Qed.

Lemma grows_send_rest fuel var value :
  grows (_leftovers fuel MSG_DONTWAIT ;;;
         r <- randint ;;
         c <- lift (cmd r var value) ;;
         on_sock (sock_send c) ;;;
         await_reply fuel r var value).
Proof.
  auto 10 using grows_leftovers, grows_await_reply with grows.
Qed.

(** ** [add_to_osmohlr] *)

Lemma bind_assoc {A B C} (c : M A) (k1 : A -> M B) (k2 : B -> M C) w :
  bind (bind c k1) k2 w = bind c (fun a => bind (k1 a) k2) w.
Proof. unfold bind. now destruct (c w) as [[a|e| |] w1]. Qed.

Lemma has_error_decoded (r : response) raw text w :
  fst (fst r) = Some raw ->
  decode_utf8 raw = Some text ->
  has_error r w = (Returns (PyStr.contains text "ERROR"), w).
Proof. unfold has_error. now intros -> ->. Qed.

End ScriptFacts.

(** ** The codec of the spec *)

Module SpecCtrlFacts.

Import SpecCtrl.

(** [skip_traps] never hands out a notification. *)
Lemma skip_traps_from_not_trap fuel :
  forall data head,
    skip_traps_from fuel data = inr (Some head) -> is_trap head = false.
Proof.
  induction fuel as [|fuel IH]; intros data head H; cbn [skip_traps_from] in H.
  - discriminate.
  - destruct (List.length data =? 0); [discriminate|].
    destruct (split_combined' data) as [e|[h t]]; [discriminate|].
    destruct (decode_message (payload_of h)) as [e|m] eqn:Hm.
    + eapply IH, H.
    + destruct (is_notification m) eqn:Hn.
      * eapply IH, H.
      * injection H as <-. unfold is_trap. now rewrite Hm.
Qed.

Lemma skip_traps_not_trap data head :
  skip_traps data = inr (Some head) -> is_trap head = false.
Proof. apply skip_traps_from_not_trap. Qed.

(** *** Framing *)

Lemma to_nat_byte_of_nat k : Byte.to_nat (byte_of_nat k) = k mod 256.
Proof.
  unfold byte_of_nat. destruct (Byte.of_nat (k mod 256)) as [b|] eqn:E.
  - now apply Byte.to_of_nat.
  - apply Byte.of_nat_None_iff in E.
    pose proof (Nat.mod_upper_bound k 256). lia.
Qed.

(** The prefix gives back the length it was made from. *)
Lemma frame_length_prefix n rest :
  n < 256 * 256 ->
  frame_length (encode_length_prefix n ++ rest) = inr n.
Proof.
  intros Hn. unfold encode_length_prefix. cbn [app frame_length].
  rewrite !to_nat_byte_of_nat. f_equal.
  rewrite (Nat.mod_small (n / 256)).
  - symmetry. apply Nat.div_mod_eq.
  - apply Nat.Div0.div_lt_upper_bound; lia.
Qed.

Lemma frame_inv p f :
  frame p = inr f ->
  List.length p < 256 * 256 /\ f = encode_length_prefix (List.length p) ++ p.
Proof.
  unfold frame.
  destruct (N.of_nat (List.length p) <? 65536)%N eqn:E; [|discriminate].
  intros H. injection H as <-. apply N.ltb_lt in E. split; [lia|reflexivity].
Qed.

(** Framing round trip: a frame followed by other bytes is split off whole. *)
Lemma split_combined_frame p f rest :
  frame p = inr f ->
  split_combined (f ++ rest) = inr (f, rest) /\ payload_of f = p.
Proof.
  intros H. destruct (frame_inv _ _ H) as [Hlen ->].
  cbn [split_combined codec]. unfold split_combined'.
  rewrite <- app_assoc, (frame_length_prefix _ _ Hlen).
  split; [|reflexivity]. f_equal.
  replace (List.length p + 2) with
    (List.length (encode_length_prefix (List.length p) ++ p))
    by (rewrite length_app; cbn; lia).
  rewrite app_assoc.
  rewrite firstn_app, skipn_app, firstn_all, skipn_all, Nat.sub_diag.
  cbn [firstn skipn app]. now rewrite app_nil_r.
Qed.

(** Multi-frame split: the frames of the payloads [ps], one after the other,
    are peeled off in order and nothing is left. *)
Lemma peels_frames ps : forall fs,
  ps <> [] ->
  Forall2 (fun p f => frame p = inr f) ps fs ->
  peels (List.concat fs) (map Some ps).
Proof.
  induction ps as [|p ps IH]; intros fs Hne Hall; [congruence|].
  destruct fs as [|f fs]; [inversion Hall|].
  apply Forall2_cons_iff in Hall. destruct Hall as [Hf Hrest].
  cbn [List.concat map].
  destruct (split_combined_frame p f (List.concat fs) Hf) as [Hsplit Hpay].
  assert (Hrem : rem_header f = inr (Some p)).
  { cbn. unfold rem_header'. now rewrite Hpay. }
  destruct ps as [|q ps].
  - destruct fs as [|g fs]; [|inversion Hrest]. cbn [List.concat] in *.
    eapply peels_last; [exact Hsplit|exact Hrem].
  - eapply peels_more; [exact Hsplit| |exact Hrem|].
    + destruct fs as [|g fs]; [inversion Hrest|].
      apply Forall2_cons_iff in Hrest. destruct Hrest as [Hg _].
      destruct (frame_inv _ _ Hg) as [_ ->]. discriminate.
    + apply IH; [discriminate|exact Hrest].
Qed.

(** *** Notifications *)

(** One step of [skip_traps] on data that starts with a whole frame. *)
Lemma skip_traps_from_frame fuel p f rest :
  frame p = inr f ->
  skip_traps_from (S fuel) (f ++ rest) =
    match decode_message p with
    | inl _ => skip_traps_from fuel rest
    | inr m =>
        if is_notification m then skip_traps_from fuel rest
        else inr (Some f)
    end.
Proof.
  intros H. destruct (split_combined_frame p f rest H) as [Hsplit Hpay].
  cbn [split_combined codec] in Hsplit.
  cbn [skip_traps_from]. rewrite Hsplit, Hpay.
  destruct (frame_inv _ _ H) as [_ ->]. reflexivity.
Qed.

(** What is split off is at most what was there. *)
Lemma split_combined_shorter data head tail :
  split_combined' data = inr (head, tail) ->
  List.length tail + 2 <= List.length data.
Proof.
  unfold split_combined'.
  destruct data as [|b0 [|b1 data]]; cbn [frame_length]; try discriminate.
  intros H. injection H as _ <-.
  rewrite length_skipn. cbn [List.length]. lia.
Qed.

(** More fuel than bytes changes nothing. *)
Lemma skip_traps_from_enough fuel : forall fuel' data,
  List.length data <= fuel -> List.length data <= fuel' ->
  skip_traps_from fuel data = skip_traps_from fuel' data.
Proof.
  induction fuel as [|fuel IH]; intros [|fuel'] data H H'.
  - reflexivity.
  - destruct data; [reflexivity|cbn in H; lia].
  - destruct data; [reflexivity|cbn in H'; lia].
  - cbn [skip_traps_from].
    destruct (List.length data =? 0); [reflexivity|].
    destruct (split_combined' data) as [e|[head tail]] eqn:E; [reflexivity|].
    pose proof (split_combined_shorter _ _ _ E).
    rewrite (IH fuel' tail) by lia. reflexivity.
Qed.

(** Notification filtering: a notification at the head of a read is passed
    over, and the first frame that is none is handed out. *)
Lemma skip_traps_frame p f rest :
  frame p = inr f ->
  skip_traps (f ++ rest) =
    match decode_message p with
    | inl _ => skip_traps rest
    | inr m => if is_notification m then skip_traps rest else inr (Some f)
    end.
Proof.
  intros H. cbn [skip_traps codec]. unfold skip_traps'.
  destruct (frame_inv _ _ H) as [_ Hf].
  assert (Hlen : List.length (f ++ rest) = S (S (List.length p + List.length rest))).
  { rewrite Hf, !length_app. cbn. lia. }
  rewrite Hlen, (skip_traps_from_frame _ _ _ _ H).
  rewrite (skip_traps_from_enough _ (List.length rest) rest) by lia.
  reflexivity.
Qed.

(** Notifications at the head of a read are all passed over. *)
Lemma skip_traps_past_notifications ts : forall gs data,
  Forall2 (fun t g => frame t = inr g) ts gs ->
  Forall (fun t => exists m, decode_message t = inr m /\
                             is_notification m = true) ts ->
  skip_traps (List.concat gs ++ data) = skip_traps data.
Proof.
  induction ts as [|t ts IH]; intros gs data Hfr Htr.
  - destruct gs; [reflexivity|inversion Hfr].
  - destruct gs as [|g gs]; [inversion Hfr|].
    apply Forall2_cons_iff in Hfr. destruct Hfr as [Hg Hfr].
    apply Forall_cons_iff in Htr. destruct Htr as [(m & Hm & Hn) Htr].
    cbn [List.concat]. rewrite <- app_assoc.
    rewrite (skip_traps_frame _ _ _ Hg), Hm, Hn.
    now apply IH.
Qed.

(** Leftover drain: when the frames of the payloads [ps] are queued, the
    drain prints each payload, in order, and returns [True]. *)
Lemma leftovers_logs_frames ps fs w s evs :
  ps <> [] ->
  Forall2 (fun p f => frame p = inr f) ps fs ->
  sock w = Some s -> status s = Open ->
  inbox s = Data (List.concat fs) :: evs ->
  List.length (List.concat fs) <= 1024 ->
  _leftovers (List.length ps) MSG_DONTWAIT w
  = (Returns true,
     add_lines (set_sock w (Some (set_inbox s evs)))
       (map Got_message (map Some ps))).
Proof.
  intros Hne Hfr Hs Hst Hin Hlen.
  pose proof (sock_recv_data 1024 MSG_DONTWAIT s _ evs Hst Hin Hlen) as Hr.
  rewrite (leftovers_step _ _ _ _ _ _ Hs Hr). cbv zeta.
  pose proof (peels_frames ps fs Hne Hfr) as Hp.
  destruct (List.concat fs) as [|b data] eqn:E.
  - exfalso. destruct ps as [|p ps]; [congruence|].
    destruct fs as [|f fs]; [inversion Hfr|].
    apply Forall2_cons_iff in Hfr. destruct Hfr as [Hf _].
    destruct (frame_inv _ _ Hf) as [_ ->]. discriminate.
  - cbn [List.length Nat.eqb negb].
    rewrite (bind_returns _ _ _ _ _
               (drain_loop_peels _ _ Hp (List.length ps) _
                  (Nat.eq_le_incl _ _ (length_map Some ps)))).
    reflexivity.
Qed.

(** An empty read holds no frame. *)
Lemma skip_traps_empty : skip_traps [] = inr None.
Proof. reflexivity. Qed.

(** Once the peer has closed, every read is empty and the receive loop
    never ends: whatever the fuel, it is still looping when the fuel is
    spent. *)
Lemma recv_loop_spins_on_closed_peer fuel w s :
  sock w = Some s -> status s = Open ->
  inbox s = [] -> at_end s = PeerClosed ->
  fst (recv_loop fuel w) = OutOfFuel.
Proof.
  revert w s. induction fuel as [|fuel IH]; intros w s Hs Hst Hin Hend.
  - reflexivity.
  - assert (Hr : sock_recv 4096 NoFlags s = (Got [], set_inbox s [])).
    { unfold sock_recv. now rewrite Hst, Hin, Hend. }
    rewrite (recv_loop_step _ _ _ _ _ Hs Hr). cbv zeta.
    rewrite skip_traps_empty.
    now apply (IH _ (set_inbox s [])).
Qed.

End SpecCtrlFacts.

(** ** The claims at concrete sessions *)

(** ** [send_command] and the [verify] of the spec *)

Section Verification.

Import SpecCtrl.

Lemma verb_eqb_eq (a b : verb) : verb_eqb a b = true -> a = b.
Proof. destruct a, b; (reflexivity || discriminate). Qed.

Lemma opt_eqb_eq (a b : option str) : opt_eqb a b = true -> a = b.
Proof.
  destruct a as [x|], b as [y|]; cbn; try discriminate; [|reflexivity].
  intros H. apply String.eqb_eq in H. now subst.
Qed.

(** A reply matches exactly when it agrees with what was sent on the
    four points. *)
Lemma matches_spec (m : message) r var val :
  matches m r var val = true <->
  transaction_id m = id_text r /\ msg_verb m = success_verb val /\
  variable m = var /\ (val <> None -> SpecCtrl.value m = val).
Proof.
  unfold matches. rewrite !andb_true_iff, !String.eqb_eq. split.
  - intros [[[Hi Hv] Hk] Hx]. repeat split; try assumption.
    + now apply verb_eqb_eq.
    + intros Hval. destruct val as [x|]; [now apply opt_eqb_eq|congruence].
  - intros (Hi & Hv & Hk & Hx). repeat split; try assumption.
    + rewrite Hv. now destruct (success_verb val).
    + destruct val as [x|]; [|reflexivity].
      rewrite Hx by discriminate. cbn. apply String.eqb_refl.
Qed.

(** C2. With [verify] as the spec describes it, a reply that differs from
    what was sent in transaction id, in the success verb of the family
    sent, in the variable or (for a SET) in the value makes [send_command]
    fail with [MismatchError], which carries what was expected and what the
    reply holds: [send_command] has no handler around [verify] (line 35),
    so it does not return to the caller. *)
Theorem send_command_raises_mismatch
    fuel var val w r c w1 n w2 reply w3 (m : message) :
  prepared fuel var val w r c w1 ->
  on_sock (sock_send c) w1 = (Returns n, w2) ->
  recv_loop fuel w2 = (Returns reply, w3) ->
  decode_message (payload_of reply) = inr m ->
  transaction_id m <> id_text r \/
  msg_verb m <> success_verb val \/
  variable m <> var \/
  (val <> None /\ SpecCtrl.value m <> val) ->
  send_command fuel var val w
  = (Raises (CodecError (MismatchError
                          (id_text r, verb_name (success_verb val), var, val)
                          (transaction_id m, verb_name (msg_verb m),
                           variable m, SpecCtrl.value m))),
     w3) /\
  forall resp, fst (send_command fuel var val w) <> Returns resp.
Proof.
  intros Hp Hsend Hloop Hm Hdiff.
  assert (Hno : matches m r var val = false).
  { destruct (matches m r var val) eqn:E; [|reflexivity].
    apply matches_spec in E. destruct E as (Hi & Hv & Hk & Hx).
    destruct Hdiff as [H|[H|[H|[Hval H]]]]; try contradiction.
    now destruct (H (Hx Hval)). }
  assert (Hrun : send_command fuel var val w
                 = (Raises (CodecError (MismatchError (expected r var val)
                                          (actual m))), w3)).
  { rewrite (send_command_after_loop _ _ _ _ _ _ _ _ _ _ _ (Some (payload_of reply))
               Hp Hsend Hloop eq_refl).
    cbn [verify codec]. unfold verify'. now rewrite Hm, Hno. }
  split; [exact Hrun|]. intros resp. now rewrite Hrun.
Qed.

End Verification.

Section Sessions.

Import SpecCtrl.

Local Open Scope string_scope.
Local Open Scope list_scope.

(** A reply with id 7 and one with id 42 are queued, the id drawn is 42:
    the loop passes over the notification and ends with the first reply. *)
Lemma recv_loop_takes_first_frame_witness :
    let s := mkSocket [Data (frame_of "0 TRAP alarm raised");
                       Data (frame_of "7 SET_REPLY x 5");
                       Data (frame_of "42 SET_REPLY x 5")] Silent [] [] Open in
    let w := mkWorld (Some s) [] [] (inl ECONNREFUSED) in
    sock_recv 4096 NoFlags s
    = (Got (frame_of "0 TRAP alarm raised"),
       set_inbox s [Data (frame_of "7 SET_REPLY x 5");
                    Data (frame_of "42 SET_REPLY x 5")]) /\
    skip_traps (frame_of "0 TRAP alarm raised") = inr None /\
    recv_loop 2 w
    = (Returns (frame_of "7 SET_REPLY x 5"),
       set_sock w (Some (set_inbox s [Data (frame_of "42 SET_REPLY x 5")]))).
Proof.
    intros s w.
    split; [reflexivity|]. split; [reflexivity|].
    rewrite (proj1 (@recv_loop_takes_first_frame codec 1 w s
                      (frame_of "0 TRAP alarm raised")
                      (set_inbox s [Data (frame_of "7 SET_REPLY x 5");
                                    Data (frame_of "42 SET_REPLY x 5")])
                      eq_refl eq_refl) eq_refl).
    pose (s1 := set_inbox s [Data (frame_of "7 SET_REPLY x 5");
                             Data (frame_of "42 SET_REPLY x 5")]).
    exact (proj2 (@recv_loop_takes_first_frame codec 0
                    (set_sock w (Some s1)) s1
                    (frame_of "7 SET_REPLY x 5")
                    (set_inbox s1 [Data (frame_of "42 SET_REPLY x 5")])
                    eq_refl eq_refl)
             (frame_of "7 SET_REPLY x 5") (Some "7", Some "x", Some "5")
             eq_refl eq_refl).
Defined.

(** C1, counterexample. The command is sent with id 42; a reply carrying
    id 7 is read first and the reply with id 42 after it.  The receive loop
    ends with the frame with id 7 as the reply and [send_command] reads no
    further: the reply with id 42 is left unread.  The id is looked at only
    afterwards, by [verify]. *)
Lemma reply_with_foreign_id_accepted :
    let w := session [Idle; Data (frame_of "7 SET_REPLY x 5");
                      Data (frame_of "42 SET_REPLY x 5")] Silent [] [42%N] in
    let run := send_command 3 "x" (Some "5") w in
    parse (frame_of "7 SET_REPLY x 5") = inr (Some "7", Some "x", Some "5") /\
    wire_of (snd run) = Some (frame_of "42 SET x 5") /\
    fst (recv_loop 3 (session [Data (frame_of "7 SET_REPLY x 5");
                               Data (frame_of "42 SET_REPLY x 5")]
                        Silent [] []))
    = Returns (frame_of "7 SET_REPLY x 5") /\
    fst run
    = Raises (CodecError (MismatchError ("42", "SET_REPLY", "x", Some "5")
                            ("7", "SET_REPLY", "x", Some "5"))) /\
    unread_of (snd run) = Some (frame_of "42 SET_REPLY x 5").
Proof. vm_compute. repeat split. Qed.

(** The command [SET x 5] is sent with id 42 and answered with value 6:
    [send_command] fails with the [MismatchError] that carries the value
    expected, ["5"], and the value received, ["6"]. *)
Lemma send_command_raises_mismatch_witness :
  let w := session [Idle; Data (frame_of "42 SET_REPLY x 6")] Silent [] [42%N] in
  fst (send_command 3 "x" (Some "5") w)
  = Raises (CodecError (MismatchError ("42", "SET_REPLY", "x", Some "5")
                          ("42", "SET_REPLY", "x", Some "6"))).
Proof.
  intros w.
  pose (s := mkSocket [Data (frame_of "42 SET_REPLY x 6")] Silent [] [] Open).
  pose (w1 := mkWorld (Some s) [Sending_command "x"] [] (inl ECONNREFUSED)).
  assert (Hp : prepared 3 "x" (Some "5") w 42%N (frame_of "42 SET x 5") w1).
  { exists false,
      (mkWorld (Some s) [Sending_command "x"] [42%N] (inl ECONNREFUSED)).
    repeat split. }
  assert (Hdiff : transaction_id (mkMessage "42" SET_REPLY "x" (Some "6"))
                  <> id_text 42 \/
                  SET_REPLY <> success_verb (Some "5") \/
                  "x" <> "x" \/
                  (Some "5" <> None /\ Some "6" <> Some "5")).
  { right. right. right. split; discriminate. }
  exact (f_equal fst
           (proj1 (send_command_raises_mismatch 3 "x" (Some "5") w 42%N
                     (frame_of "42 SET x 5") w1 12 _
                     (frame_of "42 SET_REPLY x 6") _
                     (mkMessage "42" SET_REPLY "x" (Some "6"))
                     Hp eq_refl eq_refl eq_refl Hdiff))).
Defined.

(** A notification and then an ERROR frame are read: the loop passes over
    the first and ends with the second, which is no notification; a broken
    connection ends it with the socket error. *)
Lemma recv_loop_ends_witness :
  let w := session [Data (frame_of "0 TRAP alarm raised");
                    Data (frame_of "42 ERROR x unknown")] Silent [] [] in
  recv_loop 2 w
  = (Returns (frame_of "42 ERROR x unknown"), session [] Silent [] []) /\
  is_trap (frame_of "42 ERROR x unknown") = false /\
  recv_loop 1 (session [Fail ECONNRESET] Silent [] [])
  = (Raises (SocketError ECONNRESET), session [] Silent [] []).
Proof.
  intros w.
  destruct (@recv_loop_ends codec is_trap SpecCtrlFacts.skip_traps_not_trap)
    as (Hfail & _ & Hret & _ & _).
  assert (Hrun : recv_loop 2 w
                 = (Returns (frame_of "42 ERROR x unknown"),
                    session [] Silent [] [])) by reflexivity.
  split; [exact Hrun|]. split.
  - exact (proj1 (Hret 2 w _ _ Hrun)).
  - exact (Hfail 0 (session [Fail ECONNRESET] Silent [] [])
             (mkSocket [Fail ECONNRESET] Silent [] [] Open) ECONNRESET
             (mkSocket [] Silent [] [] Open) eq_refl eq_refl).
Defined.

(** C3, counterexample. The command is a SET; the frame that arrives is a
    GET_REPLY, not of the SET family.  The loop ends with it although the
    transport has not failed; the verb is looked at only afterwards, by
    [verify]. *)
Lemma loop_ends_on_other_verb_family :
  let w := session [Idle; Data (frame_of "42 GET_REPLY x 5")] Silent [] [42%N] in
  let run := send_command 3 "x" (Some "5") w in
  wire_of (snd run) = Some (frame_of "42 SET x 5") /\
  fst (recv_loop 3 (session [Data (frame_of "42 GET_REPLY x 5")] Silent [] []))
  = Returns (frame_of "42 GET_REPLY x 5") /\
  fst run
  = Raises (CodecError (MismatchError ("42", "SET_REPLY", "x", Some "5")
                          ("42", "GET_REPLY", "x", Some "5"))).
Proof. vm_compute. repeat split. Qed.

(** The first 18 bytes of a 19-byte frame arrive in one read and the last
    byte in the next: the reply is made of the first read alone. *)
Lemma recv_loop_one_read_at_a_time_witness :
  let f := frame_of "42 SET_REPLY x 56" in
  let s := mkSocket [Data (firstn 18 f); Data (skipn 18 f)] Silent [] [] Open in
  let w := mkWorld (Some s) [] [] (inl ECONNREFUSED) in
  List.length (firstn 18 f) <= 4096 /\
  skip_traps (firstn 18 f) = inr (Some (firstn 18 f)) /\
  recv_loop 1 w
  = (Returns (firstn 18 f), set_sock w (Some (set_inbox s [Data (skipn 18 f)]))).
Proof.
  intros f s w.
  assert (Hlen : List.length (firstn 18 f) <= 4096) by (vm_compute; lia).
  split; [exact Hlen|]. split; [reflexivity|].
  exact (proj1 (proj2 (@recv_loop_one_read_at_a_time codec 0 w s (firstn 18 f)
                         [Data (skipn 18 f)] eq_refl eq_refl eq_refl Hlen))
           (firstn 18 f) (Some "42", Some "x", Some "5") eq_refl eq_refl).
Defined.

(** C4, counterexample. The reply [42 SET_REPLY x 56] to [SET x 5] arrives
    whole, or split before its last byte.  Whole, it is decoded with value
    ["56"], which is not the value sent; split, the first part is taken for
    a complete frame with value ["5"] and returned as the matching reply,
    and the last byte is left unread. *)
Lemma split_reply_decoded_differently :
  let f := frame_of "42 SET_REPLY x 56" in
  let whole := session [Idle; Data f] Silent [] [42%N] in
  let split := session [Idle; Data (firstn 18 f); Data (skipn 18 f)]
                 Silent [] [42%N] in
  firstn 18 f ++ skipn 18 f = f /\
  fst (send_command 3 "x" (Some "5") whole)
  = Raises (CodecError (MismatchError ("42", "SET_REPLY", "x", Some "5")
                          ("42", "SET_REPLY", "x", Some "56"))) /\
  fst (send_command 3 "x" (Some "5") split)
  = Returns (Some (encode "42 SET_REPLY x 5"), true, Some "5") /\
  unread_of (snd (send_command 3 "x" (Some "5") split)) = Some (encode "6").
Proof. vm_compute. repeat split. Qed.

(** A notification whose first 10 bytes are queued when the drain runs. *)
Lemma leftovers_keeps_nothing_witness :
  let t := frame_of "0 TRAP alarm raised" in
  let s := mkSocket [Data (firstn 10 t); Data (skipn 10 t)] Silent [] [] Open in
  let w := mkWorld (Some s) [] [] (inl ECONNREFUSED) in
  let run := _leftovers 3 MSG_DONTWAIT w in
  fst run = Returns true /\
  sock (snd run) = Some (set_inbox s [Data (skipn 10 t)]) /\
  stdout (snd run) = [Got_message (Some (encode "0 TRAP a"))].
Proof.
  intros t s w run.
  assert (Hrun : run = (Returns true,
                        mkWorld (Some (set_inbox s [Data (skipn 10 t)]))
                          [Got_message (Some (encode "0 TRAP a"))] []
                          (inl ECONNREFUSED))) by reflexivity.
  destruct (@leftovers_keeps_nothing codec 3 w s _ _ eq_refl Hrun)
    as (_ & Hsock & _ & _ & _ & Hpeel).
  rewrite Hrun. split; [reflexivity|]. split; [exact Hsock|].
  refine (proj2 (Hpeel (firstn 10 t) [Some (encode "0 TRAP a")]
                   eq_refl _ _ _)).
  - discriminate.
  - eapply peels_last; reflexivity.
  - cbn. lia.
Defined.

(** C5, counterexample. The first 10 bytes of a notification are queued
    when the drain runs; its other bytes arrive later, followed by the reply.
    The drain prints the 10 bytes as a message and keeps nothing of them:
    what is left to read starts in the middle of the notification, and the
    reply, which is returned when the notification is queued whole, is never
    found. *)
Lemma drain_drops_partial_tail :
  let t := frame_of "0 TRAP alarm raised" in
  let reply := frame_of "42 SET_REPLY x 5" in
  let split := session [Data (firstn 10 t); Data (skipn 10 t ++ reply)]
                 Silent [] [42%N] in
  let whole := session [Data t; Data reply] Silent [] [42%N] in
  let drained := _leftovers 3 MSG_DONTWAIT split in
  fst drained = Returns true /\
  stdout (snd drained) = [Got_message (Some (encode "0 TRAP a"))] /\
  unread_of (snd drained) = Some (skipn 10 t ++ reply) /\
  rng (snd drained) = [42%N] /\
  fst (send_command 3 "x" (Some "5") whole)
  = Returns (Some (encode "42 SET_REPLY x 5"), true, Some "5") /\
  fst (send_command 3 "x" (Some "5") split) = Blocks.
Proof. vm_compute. repeat split. Qed.

(** The stack takes 4 bytes of the 12-byte command. *)
Lemma send_command_sends_once_witness :
  let w := session [Idle; Data (frame_of "42 SET_REPLY x 5")] Silent
             [Accept 4] [42%N] in
  wire_of (snd (send_command 3 "x" (Some "5") w))
  = Some (firstn 4 (frame_of "42 SET x 5")).
Proof.
  intros w.
  pose (s := mkSocket [Data (frame_of "42 SET_REPLY x 5")] Silent [Accept 4] []
               Open).
  pose (w1 := mkWorld (Some s) [Sending_command "x"] [] (inl ECONNREFUSED)).
  assert (Hp : prepared 3 "x" (Some "5") w 42%N (frame_of "42 SET x 5") w1).
  { exists false,
      (mkWorld (Some s) [Sending_command "x"] [42%N] (inl ECONNREFUSED)).
    repeat split. }
  rewrite (proj1 (proj2 (@send_command_sends_once codec 3 "x" (Some "5") w
                           42%N _ w1 s Hp eq_refl eq_refl)) 4 [] eq_refl).
  reflexivity.
Defined.

(** C6, counterexample. The stack takes only the first 4 bytes of the
    12-byte command; [send_command] does not send the rest and does not
    fail: it returns the reply that arrives. *)
Lemma short_write_goes_unnoticed :
  let w := session [Idle; Data (frame_of "42 SET_REPLY x 5")] Silent
             [Accept 4] [42%N] in
  let run := send_command 3 "x" (Some "5") w in
  cmd 42%N "x" (Some "5") = inr (frame_of "42 SET x 5") /\
  List.length (frame_of "42 SET x 5") = 12 /\
  wire_of (snd run) = Some (firstn 4 (frame_of "42 SET x 5")) /\
  fst run = Returns (Some (encode "42 SET_REPLY x 5"), true, Some "5").
Proof. vm_compute. repeat split. Qed.

(** Two notifications are queued: both are printed and the drain returns
    [True]; with nothing queued, or on a broken connection, it returns
    [False]. *)
Lemma leftovers_result_witness :
  let t := frame_of "0 TRAP alarm raised" in
  let u := frame_of "0 TRAP link down" in
  _leftovers 3 MSG_DONTWAIT (session [Data (t ++ u)] Silent [] [])
  = (Returns true,
     add_lines (session [] Silent [] [])
       [Got_message (Some (encode "0 TRAP alarm raised"));
        Got_message (Some (encode "0 TRAP link down"))]) /\
  _leftovers 3 MSG_DONTWAIT (session [Idle] Silent [] [])
  = (Returns false, session [] Silent [] []) /\
  _leftovers 3 MSG_DONTWAIT (session [Fail ECONNRESET] Silent [] [])
  = (Returns false, session [] Silent [] []).
Proof.
  intros t u.
  pose (quiet := mkSocket [] Silent [] [] Open).
  split; [|split].
  - destruct (@leftovers_result codec 3 (session [Data (t ++ u)] Silent [] [])
                (mkSocket [Data (t ++ u)] Silent [] [] Open) (Got (t ++ u)) quiet
                eq_refl eq_refl)
      as (_ & _ & _ & _ & _ & _ & _ & Hpeel & _).
    refine (Hpeel (t ++ u) [Some (encode "0 TRAP alarm raised");
                             Some (encode "0 TRAP link down")] eq_refl _ _ _).
    + discriminate.
    + eapply peels_more; [reflexivity|discriminate|reflexivity|].
      eapply peels_last; reflexivity.
    + cbn. lia.
  - destruct (@leftovers_result codec 3 (session [Idle] Silent [] [])
                (mkSocket [Idle] Silent [] [] Open) (Err EAGAIN) quiet
                eq_refl eq_refl)
      as (_ & _ & _ & Herr & _).
    exact (Herr EAGAIN eq_refl).
  - destruct (@leftovers_result codec 3 (session [Fail ECONNRESET] Silent [] [])
                (mkSocket [Fail ECONNRESET] Silent [] [] Open) (Err ECONNRESET)
                quiet eq_refl eq_refl)
      as (_ & _ & _ & Herr & _).
    exact (Herr ECONNRESET eq_refl).
Defined.

(** [close] on a client that never connected, on a connected one, and twice
    on the latter. *)
Example close_examples :
  let w := session [Idle] Silent [] [] in
  close (mkWorld None [] [] (inl ECONNREFUSED))
  = (Returns tt, mkWorld None [] [] (inl ECONNREFUSED)) /\
  option_map status (sock (snd (close w))) = Some Closed /\
  sock (snd (close (snd (close w)))) = sock (snd (close w)) /\
  stdout (snd (close (snd (close w)))) = [Connection_closed; Connection_closed].
Proof. vm_compute. repeat split. Qed.

End Sessions.

(** ** The socket across a command *)

Section SocketFacts.

Context {codec : Ctrl}.

Lemma set_inbox_same s : set_inbox s (inbox s) = s.
Proof. now destruct s. Qed.

(** A read changes nothing of the socket but what is left to read. *)
Lemma sock_recv_shape n fl s :
  exists evs, snd (sock_recv n fl s) = set_inbox s evs.
Proof.
  unfold sock_recv. destruct (status s).
  - exists (inbox s). now rewrite set_inbox_same.
  - destruct (recv_events n fl (inbox s) (at_end s)) as [r evs].
    now exists evs.
  - exists (inbox s). now rewrite set_inbox_same.
Qed.

(** A read returns at most [bufsize] bytes. *)
Lemma recv_events_bound n fl evs fin data evs' :
  recv_events n fl evs fin = (Got data, evs') -> List.length data <= n.
Proof.
  revert data evs'. induction evs as [|[b| |e] rest IH]; intros data evs' H;
    cbn [recv_events] in H.
  - destruct fin, fl; try discriminate; injection H as <- _; cbn; lia.
  - injection H as <- _. rewrite length_firstn. lia.
  - destruct fl; [eapply IH, H | discriminate].
  - discriminate.
Qed.

Lemma sock_recv_bound n fl s data s' :
  sock_recv n fl s = (Got data, s') -> List.length data <= n.
Proof.
  unfold sock_recv. destruct (status s); try discriminate.
  destruct (recv_events n fl (inbox s) (at_end s)) as [r evs] eqn:E.
  intros H. injection H as -> _. eapply recv_events_bound, E.
Qed.

(** A send leaves the receiving side alone and puts a prefix of the data on
    the wire. *)
Lemma sock_send_shape c s :
  let s' := snd (sock_send c s) in
  status s' = status s /\ at_end s' = at_end s /\ inbox s' = inbox s /\
  exists n, wire s' = wire s ++ firstn n c.
Proof.
  unfold sock_send. destruct (status s) eqn:Hst; cbn [snd].
  - repeat split; try assumption. exists 0. now rewrite app_nil_r.
  - destruct (outbox s) as [|[n|e] rest]; cbn; repeat split.
    + exists (List.length c). now rewrite firstn_all.
    + now exists n.
    + exists 0. now rewrite app_nil_r.
  - repeat split; try assumption. exists 0. now rewrite app_nil_r.
Qed.

(** The receive loop only reads: of the world it changes nothing but what
    is left to read on the socket. *)
Lemma recv_loop_reads_only fuel :
  forall w s out w',
    sock w = Some s ->
    recv_loop fuel w = (out, w') ->
    exists evs, w' = set_sock w (Some (set_inbox s evs)).
Proof.
  induction fuel as [|fuel IH]; intros w s out w' Hs H.
  - injection H as _ <-. exists (inbox s).
    rewrite set_inbox_same. destruct w. cbn in *. now subst.
  - destruct (sock_recv 4096 NoFlags s) as [r s1] eqn:Hr.
    destruct (sock_recv_shape 4096 NoFlags s) as [evs Hevs].
    rewrite Hr in Hevs. cbn [snd] in Hevs. subst s1.
    rewrite (recv_loop_step _ _ _ _ _ Hs Hr) in H. cbv zeta in H.
    assert (Hhere : forall o : outcome bytes,
               (o, set_sock w (Some (set_inbox s evs))) = (out, w') ->
               exists evs', w' = set_sock w (Some (set_inbox s evs'))).
    { intros o Ho. injection Ho as _ <-. now exists evs. }
    destruct r as [data|e|]; try (eapply Hhere, H).
    destruct (skip_traps data) as [e|[reply|]]; try (eapply Hhere, H).
    + destruct (parse reply); eapply Hhere, H.
    + destruct (IH (set_sock w (Some (set_inbox s evs))) (set_inbox s evs)
                  _ _ eq_refl H) as [evs' ->].
      now exists evs'.
Qed.

Lemma await_reply_reads_only fuel r var value w s out w' :
  sock w = Some s ->
  await_reply fuel r var value w = (out, w') ->
  exists evs, w' = set_sock w (Some (set_inbox s evs)).
Proof.
  intros Hs H. unfold await_reply, bind in H.
  destruct (recv_loop fuel w) as [o w1] eqn:Hloop.
  destruct (recv_loop_reads_only _ _ _ _ _ Hs Hloop) as [evs ->].
  exists evs.
  destruct o as [reply|e| |]; try (now injection H as _ <-).
  destruct (rem_header reply) as [e|raw]; cbn in H;
    [now injection H as _ <-|].
  destruct (verify reply r var value) as [e|bv]; cbn in H;
    now injection H as _ <-.
Qed.

(** [send_command] keeps the socket it found and writes at most once. *)
Lemma send_command_keeps_socket fuel var value w s out w' :
  sock w = Some s ->
  send_command fuel var value w = (out, w') ->
  exists s',
    sock w' = Some s' /\ status s' = status s /\ at_end s' = at_end s /\
    peer w' = peer w /\
    (wire s' = wire s \/
     exists r c n, cmd r var value = inr c /\
                   wire s' = wire s ++ firstn n c).
Proof.
  intros Hs H. unfold send_command in H.
  rewrite (bind_returns (print _) _ w tt (add_line w (Sending_command var)))
    in H by reflexivity.
  set (w0 := add_line w (Sending_command var)) in *.
  assert (Hs0 : sock w0 = Some s) by exact Hs.
  unfold bind at 1 in H.
  destruct (_leftovers fuel MSG_DONTWAIT w0) as [o1 w1] eqn:Hdrain.
  destruct (leftovers_frame _ _ _ _ _ Hs0 Hdrain) as (_ & _ & ms & Hw1).
  destruct (sock_recv_shape 1024 MSG_DONTWAIT s) as [evs Hevs].
  rewrite Hevs in Hw1. clear Hevs.
  set (s1 := set_inbox s evs) in *.
  assert (Hquiet : forall (o : outcome response) w'',
             sock w'' = Some s1 -> peer w'' = peer w ->
             (o, w'') = (out, w') ->
             exists s',
               sock w' = Some s' /\ status s' = status s /\
               at_end s' = at_end s /\ peer w' = peer w /\
               (wire s' = wire s \/
                exists r c n, cmd r var value = inr c /\
                              wire s' = wire s ++ firstn n c)).
  { intros o w'' Hsock Hpeer Ho. injection Ho as _ <-. exists s1.
    repeat split; try assumption. now left. }
  assert (Hs1 : sock w1 = Some s1) by now rewrite Hw1.
  assert (Hp1 : peer w1 = peer w) by now rewrite Hw1.
  destruct o1 as [b| e | |]; try (now apply (Hquiet _ w1 Hs1 Hp1 H)).
  unfold bind at 1 in H.
  destruct (randint w1) as [o2 w2] eqn:Hrand.
  assert (Hw2 : o2 = Returns (next_id w1) /\ sock w2 = Some s1
                /\ peer w2 = peer w).
  { unfold randint, next_id in *.
    destruct (rng w1); injection Hrand as <- <-; now repeat split. }
  destruct Hw2 as (-> & Hs2 & Hp2).
  unfold bind at 1 in H.
  destruct (cmd (next_id w1) var value) as [e|c] eqn:Hcmd; cbn [lift] in H.
  { now apply (Hquiet _ w2 Hs2 Hp2 H). }
  cbn [ret] in H. unfold bind at 1 in H.
  destruct (sock_send c s1) as [r3 s3] eqn:Hsend.
  rewrite (on_sock_some _ _ _ _ _ Hs2 Hsend) in H.
  pose proof (sock_send_shape c s1) as Hshape. rewrite Hsend in Hshape.
  cbn [snd] in Hshape. destruct Hshape as (Hst & Hend & _ & n & Hwire).
  assert (Hsent : forall (o : outcome response) evs',
             (o, set_sock (set_sock w2 (Some s3)) (Some (set_inbox s3 evs')))
             = (out, w') \/
             (o, set_sock w2 (Some s3)) = (out, w') ->
             exists s',
               sock w' = Some s' /\ status s' = status s /\
               at_end s' = at_end s /\ peer w' = peer w /\
               (wire s' = wire s \/
                exists r c n, cmd r var value = inr c /\
                              wire s' = wire s ++ firstn n c)).
  { intros o evs' [Ho|Ho]; injection Ho as _ <-.
    - exists (set_inbox s3 evs'). cbn. repeat split; try assumption.
      right. exists (next_id w1), c, n. split; [exact Hcmd|exact Hwire].
    - exists s3. cbn. repeat split; try assumption.
      right. exists (next_id w1), c, n. split; [exact Hcmd|exact Hwire]. }
  destruct r3 as [k|e|]; cbn [seen] in H;
    try (now apply (Hsent _ [] (or_intror H))).
  destruct (await_reply fuel (next_id w1) var value (set_sock w2 (Some s3)))
    as [o4 w4] eqn:Hreply.
  destruct (await_reply_reads_only _ _ _ _ (set_sock w2 (Some s3)) s3 _ _
              eq_refl Hreply) as [evs' ->].
  injection H as <- <-. apply (Hsent o4 evs'). now left.
Qed.

(** X1.  Whatever way [send_command] ends on a client that has a socket,
    the socket is still there, neither closed nor reopened, and what was
    added to the wire is nothing, or a prefix of the one frame [cmd] built
    for an id: the drain and the receive loop never write. *)
Theorem send_command_socket fuel var value w s out w' :
  sock w = Some s ->
  send_command fuel var value w = (out, w') ->
  exists s',
    sock w' = Some s' /\ status s' = status s /\ at_end s' = at_end s /\
    peer w' = peer w /\
    (wire s' = wire s \/
     exists r c n, cmd r var value = inr c /\
                   wire s' = wire s ++ firstn n c).
Proof. apply send_command_keeps_socket. Qed.

End SocketFacts.

(** ** Commands outside an open connection, and the two loops *)

Section LoopFacts.

Context {codec : Ctrl}.

Lemma drawn_randint w : randint w = (Returns (next_id w), drawn w).
Proof.
  unfold randint, next_id, drawn. destruct w as [so out [|r rest] pe]; reflexivity.
Qed.

Lemma set_sock_same w s : sock w = Some s -> set_sock w (Some s) = w.
Proof. destruct w. cbn. now intros ->. Qed.

(** X2.  [send_command] on a client that has no socket fails
    with the attribute error; on a socket that is not connected, or is
    closed, it draws its id and fails with the socket error of [send]
    ([EPIPE] on a socket that was never connected, [EBADF] on a closed
    one): the error of the drain's [recv] is swallowed, nothing is
    written. *)
Theorem send_command_not_connected fuel var value w :
  (sock w = None ->
   send_command fuel var value w
   = (Raises AttributeError, add_line w (Sending_command var))) /\
  (forall s c,
      sock w = Some s -> status s <> Open ->
      cmd (next_id w) var value = inr c ->
      send_command fuel var value w
      = (Raises (SocketError (match status s with
                              | Closed => EBADF
                              | _ => EPIPE
                              end)),
         drawn (add_line w (Sending_command var)))).
Proof.
  split.
  - intros Hs. unfold send_command.
    rewrite (bind_returns (print _) _ w tt (add_line w (Sending_command var)))
      by reflexivity.
    now rewrite (bind_raises _ _ _ _ _
                   (leftovers_no_sock fuel MSG_DONTWAIT
                      (add_line w (Sending_command var)) Hs)).
  - intros s c Hs Hst Hcmd. unfold send_command.
    rewrite (bind_returns (print _) _ w tt (add_line w (Sending_command var)))
      by reflexivity.
    set (w0 := add_line w (Sending_command var)).
    assert (Hs0 : sock w0 = Some s) by exact Hs.
    set (e := match status s with Closed => EBADF | _ => EPIPE end).
    assert (Hrecv : forall n fl, exists e', sock_recv n fl s = (Err e', s)).
    { intros n fl. unfold sock_recv.
      destruct (status s); [now eexists|congruence|now eexists]. }
    assert (Hsend : sock_send c s = (Err e, s)).
    { unfold sock_send, e. destruct (status s); congruence. }
    rewrite (bind_returns _ _ w0 false w0).
    2:{ destruct (Hrecv 1024 MSG_DONTWAIT) as [e' He'].
        rewrite (leftovers_step _ _ _ _ _ _ Hs0 He').
        cbv zeta. now rewrite (set_sock_same _ _ Hs0). }
    rewrite (bind_returns _ _ _ _ _ (drawn_randint w0)).
    change (next_id w0) with (next_id w). rewrite Hcmd. cbn [lift].
    rewrite (bind_returns _ _ (drawn w0) c (drawn w0)) by reflexivity.
    assert (Hsd : sock (drawn w0) = Some s) by exact Hs.
    rewrite (bind_raises _ _ (drawn w0) (SocketError e) (drawn w0)).
    + reflexivity.
    + rewrite (on_sock_some _ _ _ _ _ Hsd Hsend). cbn [seen].
      now rewrite (set_sock_same _ _ Hsd).
Qed.

(** The blocking read waits through a moment with nothing queued. *)
Lemma recv_loop_idle fuel w s evs :
  sock w = Some s -> status s = Open -> inbox s = Idle :: evs ->
  recv_loop (S fuel) w
  = recv_loop (S fuel) (set_sock w (Some (set_inbox s evs))).
Proof.
  intros Hs Hst Hin.
  destruct (recv_events 4096 NoFlags evs (at_end s)) as [r evs'] eqn:E.
  assert (H1 : sock_recv 4096 NoFlags s = (r, set_inbox s evs')).
  { unfold sock_recv. rewrite Hst, Hin. cbn [recv_events]. now rewrite E. }
  assert (H2 : sock_recv 4096 NoFlags (set_inbox s evs)
               = (r, set_inbox s evs')).
  { unfold sock_recv. cbn [status set_inbox inbox at_end]. rewrite Hst.
    now rewrite E. }
  rewrite (recv_loop_step _ _ _ _ _ Hs H1).
  now rewrite (recv_loop_step _ (set_sock w (Some (set_inbox s evs)))
                 _ _ _ eq_refl H2).
Qed.

(** X3.  When what is queued before the read that holds the
    reply is only idle moments and arrivals in which [skip_traps] finds no
    frame, the receive loop returns that reply and leaves everything after
    that read unread; one turn of the loop for each of those events, and one
    more, are enough. *)
Theorem recv_loop_finds_reply pre : forall c rest reply p fuel w s,
  sock w = Some s -> status s = Open ->
  inbox s = pre ++ Data c :: rest ->
  Forall passed_over pre ->
  List.length c <= 4096 ->
  skip_traps c = inr (Some reply) ->
  parse reply = inr p ->
  List.length pre < fuel ->
  recv_loop fuel w = (Returns reply, set_sock w (Some (set_inbox s rest))).
Proof.
  induction pre as [|ev pre IH];
    intros c rest reply p fuel w s Hs Hst Hin Hpre Hlen Hk Hp Hfuel.
  - destruct fuel as [|fuel]; [lia|].
    pose proof (sock_recv_data 4096 NoFlags s c rest Hst Hin Hlen) as Hr.
    rewrite (recv_loop_step _ _ _ _ _ Hs Hr). cbv zeta. now rewrite Hk, Hp.
  - destruct fuel as [|fuel]; [cbn in Hfuel; lia|].
    cbn [List.length] in Hfuel.
    apply Forall_cons_iff in Hpre. destruct Hpre as [Hev Hpre].
    assert (Hnext : forall k, List.length pre < k ->
               recv_loop k
                 (set_sock w (Some (set_inbox s (pre ++ Data c :: rest))))
               = (Returns reply, set_sock w (Some (set_inbox s rest)))).
    { intros k Hk'.
      now rewrite (IH c rest reply p k
                     (set_sock w (Some (set_inbox s (pre ++ Data c :: rest))))
                     (set_inbox s (pre ++ Data c :: rest))
                     eq_refl Hst eq_refl Hpre Hlen Hk Hp Hk'). }
    destruct ev as [d| |e]; cbn [passed_over] in Hev.
    + destruct Hev as [Hd Hnone].
      pose proof (sock_recv_data 4096 NoFlags s d _ Hst Hin Hd) as Hr.
      rewrite (recv_loop_step _ _ _ _ _ Hs Hr). cbv zeta. rewrite Hnone.
      apply Hnext. lia.
    + rewrite (recv_loop_idle _ _ _ _ Hs Hst Hin). apply Hnext. lia.
    + contradiction.
Qed.

(** The loop of the drain ends when every split shortens what is left. *)
Lemma drain_loop_terminates :
  (forall data head tail,
      split_combined data = inr (head, tail) ->
      List.length tail < List.length data) ->
  forall fuel data w,
    data <> [] -> List.length data <= fuel ->
    fst (drain_loop fuel data w) <> OutOfFuel.
Proof.
  intros Hshort. induction fuel as [|fuel IH]; intros data w Hne Hlen.
  - destruct data; [congruence|cbn in Hlen; lia].
  - rewrite drain_loop_step.
    destruct (split_combined data) as [e|[head tail]] eqn:E; [discriminate|].
    destruct (rem_header head) as [e|m]; [discriminate|]. cbv zeta.
    destruct tail as [|b tail]; [discriminate|]. cbn [List.length Nat.eqb].
    apply IH; [discriminate|].
    pose proof (Hshort _ _ _ E). cbn [List.length] in *. lia.
Qed.

(** X4.  The drain reads at most 1024 bytes, so when every
    [split_combined] shortens what is left its loop ends within 1024 turns:
    [_leftovers] is never still looping then. *)
Theorem leftovers_terminates :
  (forall data head tail,
      split_combined data = inr (head, tail) ->
      List.length tail < List.length data) ->
  forall fuel w,
    1024 <= fuel ->
    fst (_leftovers fuel MSG_DONTWAIT w) <> OutOfFuel.
Proof.
  intros Hshort fuel w Hfuel.
  destruct (sock w) as [s|] eqn:Hs.
  - destruct (sock_recv 1024 MSG_DONTWAIT s) as [r s'] eqn:Hr.
    rewrite (leftovers_step _ _ _ _ _ _ Hs Hr). cbv zeta.
    destruct r as [data|e|]; try discriminate.
    pose proof (sock_recv_bound _ _ _ _ _ Hr) as Hlen.
    destruct data as [|b data]; [discriminate|].
    cbn [List.length Nat.eqb negb]. unfold bind.
    pose proof (drain_loop_terminates Hshort fuel (b :: data)
                  (set_sock w (Some s')) ltac:(discriminate)
                  ltac:(cbn [List.length] in *; lia)) as Hd.
    destruct (drain_loop fuel (b :: data) (set_sock w (Some s')))
      as [[[]|e| |] w1]; cbn in *; congruence.
  - now rewrite (leftovers_no_sock _ _ _ Hs).
Qed.

End LoopFacts.

(** ** [add_to_osmohlr] when something fails *)

Section ScriptErrors.

Context {codec : Ctrl}.

(** The check of a reply looks at nothing but the reply. *)
Lemma has_error_cases r w :
  (exists b, has_error r w = (Returns b, w)) \/
  (exists e, has_error r w = (Raises e, w)).
Proof.
  unfold has_error. destruct (fst (fst r)) as [raw|].
  - destruct (decode_utf8 raw) as [text|].
    + left. now eexists.
    + right. now eexists.
  - right. now eexists.
Qed.

Lemma send_command_status fuel var value w s out w' :
  sock w = Some s ->
  send_command fuel var value w = (out, w') ->
  exists s', sock w' = Some s' /\ status s' = status s.
Proof.
  intros Hs H.
  destruct (send_command_keeps_socket _ _ _ _ _ _ _ Hs H)
    as (s' & H1 & H2 & _).
  now exists s'.
Qed.

(** X5.  [add_to_osmohlr] never raises: whatever is raised in
    its body is caught and printed.  When the connection is refused it has
    printed nothing else, has drawn no id and has sent nothing: the client is
    left with its unconnected socket. *)
Theorem add_to_osmohlr_never_raises fuel host imsi msisdn port w :
  (forall e, fst (add_to_osmohlr fuel host imsi msisdn port w) <> Raises e) /\
  (forall e w',
      add_to_osmohlr_body fuel host imsi msisdn port w = (Raises e, w') ->
      add_to_osmohlr fuel host imsi msisdn port w
      = (Returns tt, add_line w' (Error_while_adding e))) /\
  (forall e,
      peer w = inl e ->
      add_to_osmohlr fuel host imsi msisdn port w
      = (Returns tt,
         add_line (set_sock w (Some fresh_socket))
           (Error_while_adding (SocketError e)))).
Proof.
  split; [|split].
  - intros e. unfold add_to_osmohlr, try_except.
    destruct (add_to_osmohlr_body fuel host imsi msisdn port w)
      as [[[]|e'| |] w1]; discriminate.
  - intros e w' H. unfold add_to_osmohlr, try_except. now rewrite H.
  - intros e Hpeer. unfold add_to_osmohlr, try_except, add_to_osmohlr_body.
    unfold bind at 1. cbn [__init__]. unfold bind at 1.
    unfold connect. cbn [set_sock peer]. now rewrite Hpeer.
Qed.

(** X6.  Once connected, [add_to_osmohlr] closes the
    socket exactly when its body runs to its end: if the body raises,
    blocks or is still looping, the socket is left as the connection made it
    (open), and the handler does not close it. *)
Theorem add_to_osmohlr_closes_at_the_end
    fuel host imsi msisdn port w s out w' :
  peer w = inr s ->
  add_to_osmohlr_body fuel host imsi msisdn port w = (out, w') ->
  exists s',
    sock w' = Some s' /\
    sock (snd (add_to_osmohlr fuel host imsi msisdn port w)) = Some s' /\
    status s' = match out with
                | Returns _ => Closed
                | _ => status s
                end.
Proof.
  intros Hpeer H.
  assert (Hfin : forall s', sock w' = Some s' ->
             sock (snd (add_to_osmohlr fuel host imsi msisdn port w))
             = Some s').
  { intros s' Hs'. unfold add_to_osmohlr, try_except. rewrite H.
    now destruct out. }
  assert (Hend : forall (o : outcome unit) w1 s1,
             sock w1 = Some s1 -> status s1 = status s ->
             (o, w1) = (out, w') ->
             (forall a, o <> Returns a) ->
             exists s',
               sock w' = Some s' /\
               sock (snd (add_to_osmohlr fuel host imsi msisdn port w))
               = Some s' /\
               status s' = match out with
                           | Returns _ => Closed
                           | _ => status s
                           end).
  { intros o w1 s1 Hs1 Hst Ho Hno. injection Ho as <- <-. exists s1.
    split; [exact Hs1|]. split; [now apply Hfin|].
    destruct o; try assumption. now destruct (Hno a). }
  unfold add_to_osmohlr_body in H.
  unfold bind at 1 in H. cbn [__init__] in H. unfold bind at 1 in H.
  unfold connect in H. cbn [set_sock peer] in H. rewrite Hpeer in H.
  cbn [print] in H.
  set (w0 := add_line _ (Connected_to host port)) in H.
  assert (Hs0 : sock w0 = Some s) by reflexivity.
  unfold bind at 1 in H.
  destruct (send_command fuel "subscriber.create" (Some imsi) w0)
    as [o1 w1] eqn:H1.
  destruct (send_command_status _ _ _ _ _ _ _ Hs0 H1) as (s1 & Hs1 & Hst1).
  destruct o1 as [resp1|e| |];
    try (now apply (Hend _ w1 s1 Hs1 Hst1 H)).
  unfold after_create in H. unfold bind at 1 in H.
  destruct (has_error_cases resp1 w1) as [[b Hb]|[e He]].
  2:{ rewrite He in H. now apply (Hend _ w1 s1 Hs1 Hst1 H). }
  rewrite Hb in H. unfold bind at 1 in H.
  set (l1 := if b then Failed_to_add resp1 else Subscriber_added) in *.
  assert (Hpr : (if b then print (Failed_to_add resp1)
                 else print Subscriber_added) w1
                = (Returns tt, add_line w1 l1)) by now destruct b.
  rewrite Hpr in H. cbv zeta in H.
  assert (Hs1' : sock (add_line w1 l1) = Some s1) by exact Hs1.
  unfold bind at 1 in H.
  destruct (send_command fuel (msisdn_var imsi)
              (Some (PyStr.strip_plus msisdn)) (add_line w1 l1))
    as [o2 w2] eqn:H2.
  destruct (send_command_status _ _ _ _ _ _ _ Hs1' H2) as (s2 & Hs2 & Hst2).
  assert (Hst2' : status s2 = status s) by congruence.
  destruct o2 as [resp2|e| |];
    try (now apply (Hend _ w2 s2 Hs2 Hst2' H)).
  unfold after_msisdn in H. unfold bind at 1 in H.
  destruct (has_error_cases resp2 w2) as [[b2 Hb2]|[e He]].
  2:{ rewrite He in H. now apply (Hend _ w2 s2 Hs2 Hst2' H). }
  rewrite Hb2 in H. unfold bind at 1 in H.
  set (l2 := if b2 then Failed_to_set_msisdn resp2 else Msisdn_set) in *.
  assert (Hpr2 : (if b2 then print (Failed_to_set_msisdn resp2)
                  else print Msisdn_set) w2
                 = (Returns tt, add_line w2 l2)) by now destruct b2.
  rewrite Hpr2 in H. rewrite close_step in H.
  assert (Hs2' : sock (add_line w2 l2) = Some s2) by exact Hs2.
  rewrite Hs2' in H. injection H as <- <-.
  exists (sock_close s2). split; [reflexivity|]. split; [|reflexivity].
  now apply Hfin.
Qed.

(** *** The second command *)

(** What a [send] puts on the wire does not depend on what is queued to be
    read. *)
Lemma sock_send_inbox c s evs :
  wire (snd (sock_send c (set_inbox s evs))) = wire (snd (sock_send c s)).
Proof.
  unfold sock_send. cbn [set_inbox status outbox wire inbox at_end].
  destruct (status s); try reflexivity.
  destruct (outbox s) as [|[n|e] rest]; reflexivity.
Qed.

(** Up to the [send], [send_command] has only read from the socket. *)
Lemma prepared_socket fuel var value w r c w' s :
  prepared fuel var value w r c w' -> sock w = Some s ->
  exists evs, sock w' = Some (set_inbox s evs).
Proof.
  intros (b & wa & Hdrain & Hrand & _) Hs.
  assert (Hs0 : sock (add_line w (Sending_command var)) = Some s) by exact Hs.
  destruct (leftovers_frame _ _ _ _ _ Hs0 Hdrain) as (_ & _ & ms & Hwa).
  destruct (sock_recv_shape 1024 MSG_DONTWAIT s) as [evs Hevs].
  rewrite Hevs in Hwa. exists evs.
  assert (Hsa : sock wa = Some (set_inbox s evs)) by now rewrite Hwa.
  unfold randint in Hrand.
  destruct (rng wa); injection Hrand as _ <-; exact Hsa.
Qed.

(** Once [send_command] has its frame, what it leaves on the wire is what
    the one [send] of that frame puts there, however the call ends. *)
Lemma send_command_wire fuel var value w r c w1 s out w' :
  prepared fuel var value w r c w1 -> sock w = Some s ->
  send_command fuel var value w = (out, w') ->
  exists s', sock w' = Some s' /\ wire s' = wire (snd (sock_send c s)).
Proof.
  intros Hp Hs H.
  destruct (prepared_socket _ _ _ _ _ _ _ _ Hp Hs) as [evs Hs1].
  rewrite (send_command_prepared _ _ _ _ _ _ _ Hp) in H.
  unfold bind at 1 in H.
  destruct (sock_send c (set_inbox s evs)) as [r3 s3] eqn:Hsend.
  rewrite (on_sock_some _ _ _ _ _ Hs1 Hsend) in H.
  assert (Hwire : wire s3 = wire (snd (sock_send c s))).
  { rewrite <- (sock_send_inbox c s evs). now rewrite Hsend. }
  destruct r3 as [k|e|]; cbn [seen] in H.
  - destruct (await_reply_reads_only _ _ _ _ (set_sock w1 (Some s3)) s3 _ _
                eq_refl H) as [evs' ->].
    exists (set_inbox s3 evs'). split; [reflexivity|exact Hwire].
  - injection H as _ <-. exists s3. split; [reflexivity|exact Hwire].
  - injection H as _ <-. exists s3. split; [reflexivity|exact Hwire].
Qed.

(** The statements after the second command write nothing. *)
Lemma after_msisdn_wire resp w s :
  sock w = Some s ->
  exists s', sock (snd (after_msisdn resp w)) = Some s' /\ wire s' = wire s.
Proof.
  intros Hs. unfold after_msisdn. unfold bind at 1.
  destruct (has_error_cases resp w) as [[b Hb]|[e He]].
  - rewrite Hb. unfold bind at 1.
    assert (Hpr : (if b then print (Failed_to_set_msisdn resp)
                   else print Msisdn_set) w
                  = (Returns tt,
                     add_line w (if b then Failed_to_set_msisdn resp
                                 else Msisdn_set))) by now destruct b.
    rewrite Hpr, close_step. cbn [add_line sock]. rewrite Hs.
    exists (sock_close s). now split.
  - rewrite He. exists s. now split.
Qed.

(** C8 (as amended). In [add_to_osmohlr], when the [subscriber.create]
    command returns a reply whose payload decodes, the script prints its
    verdict on it (a failure exactly when the text contains ["ERROR"]) and
    in both cases goes on, with the same client and socket, to
    [send_command] for [subscriber.by-imsi-<imsi>.msisdn] with the MSISDN
    stripped of ['+']: the line announcing that command is printed next,
    and once the drain is over and the frame is built, that frame is what
    the one [send] puts on the wire, after what was there.  When the create
    command raises, or returns a reply without a payload or with a payload
    that does not decode, the exception is caught at line 216: the error is
    printed and nothing more is sent or printed. *)
Theorem msisdn_command_after_create
    fuel host imsi msisdn port w w0 out w1 :
  (__init__ ;;; connect host port) w = (Returns tt, w0) ->
  send_command fuel "subscriber.create" (Some imsi) w0 = (out, w1) ->
  let final := add_to_osmohlr fuel host imsi msisdn port w in
  (forall resp raw text,
      out = Returns resp ->
      fst (fst resp) = Some raw ->
      decode_utf8 raw = Some text ->
      let verdict :=
        if PyStr.contains text "ERROR" then Failed_to_add resp
        else Subscriber_added in
      let w2 := add_line w1 verdict in
      sock w2 = sock w1 /\
      final
      = try_except
          (response2 <- send_command fuel (msisdn_var imsi)
                          (Some (PyStr.strip_plus msisdn)) ;;
           after_msisdn response2)
          (fun e => print (Error_while_adding e)) w2 /\
      (exists ls,
          stdout (snd final)
          = stdout w2 ++ Sending_command (msisdn_var imsi) :: ls) /\
      (forall s1 r2 c2 w3,
          sock w1 = Some s1 ->
          prepared fuel (msisdn_var imsi) (Some (PyStr.strip_plus msisdn))
            w2 r2 c2 w3 ->
          exists s',
            sock (snd final) = Some s' /\
            wire s' = wire (snd (sock_send c2 s1)) /\
            (status s1 = Open -> outbox s1 = [] ->
             wire s' = wire s1 ++ c2))) /\
  (forall e,
      out = Raises e ->
      final = (Returns tt, add_line w1 (Error_while_adding e))) /\
  (forall resp,
      out = Returns resp ->
      (fst (fst resp) = None ->
       final = (Returns tt, add_line w1 (Error_while_adding AttributeError))) /\
      (forall raw,
          fst (fst resp) = Some raw -> decode_utf8 raw = None ->
          final
          = (Returns tt, add_line w1 (Error_while_adding UnicodeDecodeError)))).
Proof.
  intros Hconn Hcreate final.
  assert (Hstart : forall k : response -> M unit,
             (__init__ ;;; connect host port ;;;
              response1 <- send_command fuel "subscriber.create" (Some imsi) ;;
              k response1) w
             = bind (fun _ => (out, w1)) k w0).
  { intros k.
    rewrite <- (bind_assoc __init__ (fun _ => connect host port)).
    rewrite (bind_returns _ _ _ _ _ Hconn).
    unfold bind. now rewrite Hcreate. }
  assert (Hbody : add_to_osmohlr_body fuel host imsi msisdn port w
                  = bind (fun _ => (out, w1)) (after_create fuel imsi msisdn)
                      w0).
  { unfold add_to_osmohlr_body. apply Hstart. }
  split; [|split].
  - intros resp raw text -> Hraw Htext verdict w2.
    set (second := response2 <- send_command fuel (msisdn_var imsi)
                                  (Some (PyStr.strip_plus msisdn)) ;;
                   after_msisdn response2).
    assert (Hsecond : add_to_osmohlr_body fuel host imsi msisdn port w
                      = second w2).
    { rewrite Hbody. unfold bind at 1. unfold after_create.
      rewrite (bind_returns _ _ _ _ _ (has_error_decoded _ _ _ _ Hraw Htext)).
      unfold w2, verdict.
      destruct (PyStr.contains text "ERROR"); reflexivity. }
    assert (Hfull : final
                    = try_except second
                        (fun e => print (Error_while_adding e)) w2).
    { unfold final, add_to_osmohlr, try_except. now rewrite Hsecond. }
    split; [reflexivity|]. split; [exact Hfull|]. split.
    + rewrite Hfull.
      set (announce := Sending_command (msisdn_var imsi)).
      assert (Hgo : try_except second
                      (fun e => print (Error_while_adding e)) w2
                    = try_except
                        (response2 <-
                           (_leftovers fuel MSG_DONTWAIT ;;;
                            r <- randint ;;
                            c <- lift (cmd r (msisdn_var imsi)
                                         (Some (PyStr.strip_plus msisdn))) ;;
                            on_sock (sock_send c) ;;;
                            await_reply fuel r (msisdn_var imsi)
                              (Some (PyStr.strip_plus msisdn))) ;;
                         after_msisdn response2)
                        (fun e => print (Error_while_adding e))
                        (add_line w2 announce)).
      { reflexivity. }
      rewrite Hgo.
      match goal with
      | |- context [try_except ?c ?h ?w] =>
          destruct (try_except c h w) as [out' w3] eqn:E;
          assert (G : grows (try_except c h))
      end.
      { apply grows_try_except; [|intros e; apply grows_print].
        apply grows_bind; [apply grows_send_rest|apply grows_after_msisdn]. }
      destruct (G _ _ _ E) as [ls Hls]. exists ls. cbn [snd].
      rewrite Hls. unfold add_line. cbn [stdout].
      now rewrite <- app_assoc.
    + intros s1 r2 c2 w3 Hs1 Hp.
      assert (Hs2 : sock w2 = Some s1) by exact Hs1.
      assert (Hend : exists s',
                 sock (snd final) = Some s' /\
                 wire s' = wire (snd (sock_send c2 s1))).
      { rewrite Hfull. unfold try_except, second. unfold bind at 1.
        destruct (send_command fuel (msisdn_var imsi)
                    (Some (PyStr.strip_plus msisdn)) w2) as [o2 w4] eqn:H2.
        destruct (send_command_wire _ _ _ _ _ _ _ _ _ _ Hp Hs2 H2)
          as (s4 & Hs4 & Hw4).
        destruct o2 as [resp2|e| |]; cbn [snd print add_line sock];
          try (exists s4; now split).
        destruct (after_msisdn_wire resp2 w4 s4 Hs4) as (s5 & Hs5 & Hw5).
        destruct (after_msisdn resp2 w4) as [[[]|e| |] w5];
          cbn [snd print add_line sock] in *;
          exists s5; (split; [exact Hs5|congruence]). }
      destruct Hend as (s' & Hs' & Hw'). exists s'.
      split; [exact Hs'|]. split; [exact Hw'|].
      intros Hst Hout. rewrite Hw'. unfold sock_send.
      now rewrite Hst, Hout.
  - intros e ->. unfold final, add_to_osmohlr, try_except.
    rewrite Hbody. reflexivity.
  - intros resp ->. split.
    + intros Hraw. unfold final, add_to_osmohlr, try_except.
      rewrite Hbody. unfold bind at 1. unfold after_create, has_error.
      rewrite Hraw. reflexivity.
    + intros raw Hraw Htext. unfold final, add_to_osmohlr, try_except.
      rewrite Hbody. unfold bind at 1. unfold after_create, has_error.
      rewrite Hraw, Htext. reflexivity.
Qed.

End ScriptErrors.

(** ** The URL and the MSISDN *)

Section TextFacts.

Local Open Scope string_scope.

(** X7.  The URL [format_pyhss_url] makes always starts with
    ["http://"], and a base URL gives the same result with and without that
    scheme in front: both forms of the command line option reach the same
    server. *)
Theorem format_pyhss_url_scheme (s : str) :
  PyStr.startswith (format_pyhss_url s) "http://" = true /\
  (PyStr.startswith s "http://" = false ->
   format_pyhss_url ("http://" ++ s) = format_pyhss_url s) /\
  String.length (format_pyhss_url s)
  = String.length s + (if PyStr.startswith s "http://" then 5 else 12).
Proof.
  split; [apply format_pyhss_url_prefixed|]. split.
  - intros E. unfold format_pyhss_url at 2. rewrite E. cbn [negb].
    unfold format_pyhss_url.
    assert (H : PyStr.startswith ("http://" ++ s) "http://" = true)
      by apply prefix_app.
    now rewrite H.
  - unfold format_pyhss_url.
    destruct (PyStr.startswith s "http://"); cbn [negb];
      rewrite !length_append; cbn; lia.
Qed.

Lemma lstrip_plus_step c s :
  PyStr.lstrip_plus (String c s)
  = if (c =? "+")%char then PyStr.lstrip_plus s else String c s.
Proof.
  destruct c as [[] [] [] [] [] [] [] []]; reflexivity.
Qed.

Lemma rstrip_plus_step c s :
  PyStr.rstrip_plus (String c s)
  = if (c =? "+")%char
    then match PyStr.rstrip_plus s with
         | EmptyString => EmptyString
         | String a t => String c (String a t)
         end
    else String c (PyStr.rstrip_plus s).
Proof.
  destruct c as [[] [] [] [] [] [] [] []]; cbn [PyStr.rstrip_plus Ascii.eqb Bool.eqb];
    destruct (PyStr.rstrip_plus s); reflexivity.
Qed.

(** What [lstrip('+')] removes is a run of plus signs, and what it leaves
    does not start with one. *)
Lemma lstrip_plus_spec s :
  exists n, s = pluses n ++ PyStr.lstrip_plus s /\
            PyStr.startswith (PyStr.lstrip_plus s) "+" = false.
Proof.
  induction s as [|c s (n & Hn & Hs)].
  - now exists 0.
  - rewrite lstrip_plus_step. destruct (Ascii.eqb_spec c "+") as [->|Hc].
    + exists (S n). cbn [pluses append]. now rewrite <- Hn.
    + exists 0. split; [reflexivity|].
      unfold PyStr.startswith. cbn [prefix].
      destruct (ascii_dec "+" c); [congruence|reflexivity].
Qed.

Lemma endswith_plus_cons c s :
  PyStr.endswith (String c s) "+"
  = match s with
    | EmptyString => (c =? "+")%char
    | _ => PyStr.endswith s "+"
    end.
Proof.
  cbn [PyStr.endswith]. destruct s as [|a t].
  - cbn [PyStr.endswith String.eqb]. rewrite orb_false_r.
    destruct (c =? "+")%char; reflexivity.
  - assert (H : (String c (String a t) =? "+") = false).
    { cbn [String.eqb]. destruct (c =? "+")%char; reflexivity. }
    now rewrite H.
Qed.

(** What [rstrip('+')] removes is a run of plus signs, what it leaves does
    not end with one, and it starts as the string did if it is not empty. *)
Lemma rstrip_plus_spec s :
  exists m, s = PyStr.rstrip_plus s ++ pluses m /\
            PyStr.endswith (PyStr.rstrip_plus s) "+" = false /\
            (PyStr.startswith s "+" = false ->
             PyStr.startswith (PyStr.rstrip_plus s) "+" = false).
Proof.
  induction s as [|c s (m & Hm & He & _)].
  - exists 0. now repeat split.
  - rewrite rstrip_plus_step. destruct (Ascii.eqb_spec c "+") as [->|Hc].
    + destruct (PyStr.rstrip_plus s) as [|a t] eqn:E.
      * exists (S m). cbn [append] in *. rewrite Hm. now repeat split.
      * exists m. split; [cbn [append] in *; now rewrite <- Hm|].
        split; [now rewrite endswith_plus_cons|].
        unfold PyStr.startswith. cbn [prefix].
        destruct (ascii_dec "+" "+"); [|congruence].
        now destruct s.
    + exists m. split; [cbn [append]; now rewrite <- Hm|]. split.
      * rewrite endswith_plus_cons.
        destruct (PyStr.rstrip_plus s); [|exact He].
        now apply Ascii.eqb_neq.
      * intros _. unfold PyStr.startswith. cbn [prefix].
        destruct (ascii_dec "+" c); [congruence|reflexivity].
Qed.

Lemma lstrip_plus_none s :
  PyStr.startswith s "+" = false -> PyStr.lstrip_plus s = s.
Proof.
  destruct s as [|c s]; [reflexivity|]. rewrite lstrip_plus_step.
  unfold PyStr.startswith. cbn [prefix].
  destruct (ascii_dec "+" c) as [<-|Hc].
  - now destruct s.
  - intros _. destruct (Ascii.eqb_spec c "+"); [congruence|reflexivity].
Qed.

Lemma rstrip_plus_none s :
  PyStr.endswith s "+" = false -> PyStr.rstrip_plus s = s.
Proof.
  induction s as [|c s IH]; [reflexivity|].
  rewrite endswith_plus_cons, rstrip_plus_step. intros H.
  destruct s as [|a t].
  - rewrite H. reflexivity.
  - rewrite (IH H). now destruct (c =? "+")%char.
Qed.

(** X8.  The MSISDN that is sent to OsmoHLR and compared with the
    answers of PyHSS, [msisdn.strip('+')], is the argument without the plus
    signs at its two ends: it neither starts nor ends with one, what was
    inside is kept, and stripping again changes nothing. *)
Theorem strip_plus_spec (s : str) :
  (exists n m, s = pluses n ++ PyStr.strip_plus s ++ pluses m) /\
  PyStr.startswith (PyStr.strip_plus s) "+" = false /\
  PyStr.endswith (PyStr.strip_plus s) "+" = false /\
  PyStr.strip_plus (PyStr.strip_plus s) = PyStr.strip_plus s.
Proof.
  unfold PyStr.strip_plus.
  destruct (lstrip_plus_spec s) as (n & Hn & Hl).
  destruct (rstrip_plus_spec (PyStr.lstrip_plus s)) as (m & Hm & Hr & Hk).
  specialize (Hk Hl).
  split; [|split; [exact Hk|split; [exact Hr|]]].
  - exists n, m. now rewrite <- Hm.
  - now rewrite (lstrip_plus_none _ Hk), (rstrip_plus_none _ Hr).
Qed.

End TextFacts.

(** ** PyHSS, Open5GS and [main] *)

Section ProvisionFacts.

Context {py : Python} {codec : Ctrl}.

Local Notation "x <~ c ;; k" := (sbind c (fun x => k))
  (at level 61, c at next level, right associativity).
Local Notation "c ;;~ k" := (sbind c (fun _ => k))
  (at level 61, right associativity).

Lemma put_step url data st :
  put url data st
  = (match next_reply st with
     | NoReply => Fails RequestException
     | Reply status body => Done (status, body)
     end,
     log (Put url data) (answered st)).
Proof.
  unfold put, next_reply, answered.
  destruct st as [h [|[|status body] rest] d e c]; reflexivity.
Qed.

Lemma run_step argv st :
  run argv st
  = (match next_run st with
     | Exit code =>
         if (code =? 0)%Z then Done tt else Fails (CalledProcessError code)
     | Unstartable => Fails FileNotFoundError
     end,
     log (Run argv) (ran st)).
Proof.
  unfold run, next_run, ran.
  destruct st as [h wb [|[code|] rest] e c]; cbn; try reflexivity.
  now destruct (code =? 0)%Z.
Qed.

(** The table of [add_to_open5gs]. *)
Lemma add_to_open5gs_table imsi ki opc st :
  let st1 := log (Run (dbctl_argv imsi ki opc)) (ran st) in
  add_to_open5gs imsi ki opc st
  = match next_run st with
    | Exit code =>
        (Done tt,
         told st1 (if (code =? 0)%Z then Open5gs_added
                   else Open5gs_failed (CalledProcessError code)))
    | Unstartable => (Fails FileNotFoundError, st1)
    end.
Proof.
  unfold add_to_open5gs, stry, sbind. fold (dbctl_argv imsi ki opc).
  rewrite run_step. destruct (next_run st) as [code|]; [|reflexivity].
  destruct (code =? 0)%Z; reflexivity.
Qed.

(** The table of [add_auc_to_pyhss]. *)
Lemma add_auc_to_pyhss_table api_base_url imsi ki opc amf sqn st :
  let st1 := log (Put (auc_url api_base_url) (auc_data imsi ki opc amf sqn))
               (answered st) in
  add_auc_to_pyhss api_base_url imsi ki opc amf sqn st
  = match next_reply st with
    | NoReply => (Done VNone, told st1 (Auc_failed RequestException))
    | Reply status body =>
        if refused status
        then (Done VNone, told st1 (Auc_failed (HTTPError status)))
        else
          match body with
          | None => (Done VNone, told st1 (Auc_failed JSONDecodeError))
          | Some (VDict d) =>
              match lookup "auc_id" d with
              | None | Some VNone =>
                  (Done VNone, told st1 (Auc_failed ValueError))
              | Some v => (Done v, told st1 (Auc_added v))
              end
          | Some _ => (Fails (Py AttributeError), st1)
          end
    end.
Proof.
  unfold add_auc_to_pyhss, stry. unfold sbind at 1. fold (auc_url api_base_url).
  rewrite put_step.
  destruct (next_reply st) as [|status body]; [reflexivity|].
  unfold sbind at 1. unfold raise_for_status. cbn [fst]. fold (refused status).
  destruct (refused status); [reflexivity|]. cbn [sret].
  unfold sbind at 1. unfold json. cbn [snd].
  destruct body as [v|].
  2:{ cbn. now rewrite orb_true_r. }
  cbn [sret]. unfold sbind at 1.
  destruct v as [|b|n|s|l|d]; try reflexivity.
  cbn [get]. destruct (lookup "auc_id" d) as [[|b|n|s|l|d']|]; reflexivity.
Qed.

(** X10.  [add_auc_to_pyhss] always makes exactly one PUT, to
    [/auc/] under the formatted URL, and touches nothing else.  No request
    error, HTTP error, undecodable body or missing id gets out of it: it
    then prints the failure and returns [None], and it returns [None] in no
    other case; an id it returns was printed as added.  The one exception
    that gets out is the attribute error of an answer that is JSON but no
    object. *)
Theorem add_auc_to_pyhss_result api_base_url imsi ki opc amf sqn st :
  let run := add_auc_to_pyhss api_base_url imsi ki opc amf sqn st in
  effects (snd run)
  = effects st ++ [Put (format_pyhss_url api_base_url ++ "/auc/")%string
                     (auc_data imsi ki opc amf sqn)] /\
  hlr (snd run) = hlr st /\ docker (snd run) = docker st /\
  web (snd run) = tl (web st) /\
  match fst run with
  | Done v =>
      if is_none v
      then exists e, console (snd run) = console st ++ [Auc_failed e] /\
                     is_request_exception e || is_value_error e = true
      else console (snd run) = console st ++ [Auc_added v] /\
           exists status d,
             next_reply st = Reply status (Some (VDict d)) /\
             refused status = false /\ lookup "auc_id" d = Some v
  | Fails e =>
      e = Py AttributeError /\ console (snd run) = console st /\
      exists status v,
        next_reply st = Reply status (Some v) /\
        refused status = false /\ forall d, v <> VDict d
  | _ => False
  end.
Proof.
  cbv zeta. rewrite add_auc_to_pyhss_table. cbv zeta.
  destruct (next_reply st) as [|status body] eqn:Hr.
  { cbn. repeat split. now exists RequestException. }
  destruct (refused status) eqn:Hc.
  { cbn. repeat split. now exists (HTTPError status). }
  destruct body as [v|].
  2:{ cbn. repeat split. exists JSONDecodeError. split; [reflexivity|].
      apply orb_true_r. }
  destruct v as [|b|n|s|l|d];
    try (cbn; repeat split; eexists; eexists;
         (split; [reflexivity|split; [exact Hc|discriminate]])).
  destruct (lookup "auc_id" d) as [[|b|n|s|l|d']|] eqn:Hl;
    try (cbn; repeat split; now exists status, d).
  - cbn. repeat split. now exists ValueError.
  - cbn. repeat split. now exists ValueError.
Qed.

Lemma field_is_dict d key expected st :
  field_is (VDict d) key expected st
  = (Done (py_eq (getd d key) expected), st).
Proof.
  unfold field_is, sbind, getd. cbn [get].
  now destruct (lookup key d).
Qed.

Lemma and_then_done (a b : Prog bool) x y st :
  a st = (Done x, st) -> b st = (Done y, st) ->
  and_then a b st = (Done (x && y), st).
Proof.
  intros Ha Hb. unfold and_then, sbind. rewrite Ha.
  destruct x; [exact Hb|reflexivity].
Qed.

Lemma field_is_not_dict v key expected st :
  (forall d, v <> VDict d) ->
  field_is v key expected st = (Fails (Py AttributeError), st).
Proof.
  intros Hv. unfold field_is, sbind.
  destruct v as [|b|n|s|l|d]; try reflexivity. now destruct (Hv d).
Qed.

Lemma and_then_fails (a b : Prog bool) e st :
  a st = (Fails e, st) -> and_then a b st = (Fails e, st).
Proof. intros Ha. unfold and_then, sbind. now rewrite Ha. Qed.

Lemma told_all_one st l : told st l = told_all st [l].
Proof. reflexivity. Qed.

(** The table of [add_subscriber_to_pyhss]. *)
Lemma add_subscriber_to_pyhss_table
    api_base_url imsi msisdn auc_id default_apn apn_list dl ul st :
  let data := subscriber_data imsi msisdn auc_id default_apn apn_list dl ul in
  let st1 :=
    log (Put (format_pyhss_url api_base_url ++ "/subscriber/")%string data)
      (answered st) in
  add_subscriber_to_pyhss api_base_url imsi msisdn auc_id default_apn
    apn_list dl ul st
  = match next_reply st with
    | NoReply => (Done tt, told st1 (Subscriber_failed RequestException))
    | Reply status body =>
        if refused status
        then (Done tt, told st1 (Subscriber_failed (HTTPError status)))
        else
          match body with
          | None =>
              if json_error_is_request_exception
              then (Done tt, told st1 (Subscriber_failed JSONDecodeError))
              else (Fails JSONDecodeError, st1)
          | Some (VDict d) =>
              (Done tt,
               told_all st1
                 (verdict_lines
                    (subscriber_matches d imsi msisdn auc_id default_apn
                       apn_list)
                    Subscriber_validated data (VDict d)))
          | Some _ => (Fails (Py AttributeError), st1)
          end
    end.
Proof.
  cbv zeta. unfold add_subscriber_to_pyhss, stry. unfold sbind at 1.
  rewrite put_step.
  destruct (next_reply st) as [|status body]; [reflexivity|].
  unfold sbind at 1. unfold raise_for_status. cbn [fst]. fold (refused status).
  destruct (refused status); [reflexivity|]. cbn [sret].
  unfold sbind at 1. unfold json. cbn [snd].
  destruct body as [v|].
  2:{ cbn. now destruct json_error_is_request_exception. }
  cbn [sret]. unfold sbind at 1.
  set (st1 := log _ (answered st)).
  destruct v as [|b|n|s|l|d];
    try (rewrite (and_then_fails _ _ (Py AttributeError) st1)
           by (apply field_is_not_dict; discriminate);
         reflexivity).
  rewrite (and_then_done _ _ _ _ st1 (field_is_dict _ _ _ _)
             (and_then_done _ _ _ _ st1 (field_is_dict _ _ _ _)
                (and_then_done _ _ _ _ st1 (field_is_dict _ _ _ _)
                   (and_then_done _ _ _ _ st1 (field_is_dict _ _ _ _)
                      (field_is_dict _ _ _ _))))).
  fold (subscriber_matches d imsi msisdn auc_id default_apn apn_list).
  destruct (subscriber_matches d imsi msisdn auc_id default_apn apn_list);
    [reflexivity|].
  unfold sbind, say, told_all, verdict_lines. cbn.
  now rewrite <- !app_assoc.
Qed.

(** The table of [add_ims_subscriber_to_pyhss]. *)
Lemma add_ims_subscriber_to_pyhss_table
    api_base_url imsi msisdn sh_profile scscf_peer ifc_path scscf scscf_realm
    msisdn_list st :
  let data :=
    ims_data imsi msisdn sh_profile scscf_peer
      (match msisdn_list with
       | None => "[" ++ msisdn ++ "]"
       | Some l => l
       end)%string ifc_path scscf scscf_realm in
  let st1 :=
    log (Put (format_pyhss_url api_base_url ++ "/ims_subscriber/")%string data)
      (answered st) in
  add_ims_subscriber_to_pyhss api_base_url imsi msisdn sh_profile scscf_peer
    ifc_path scscf scscf_realm msisdn_list st
  = match next_reply st with
    | NoReply => (Done tt, told st1 (Ims_failed RequestException))
    | Reply status body =>
        if refused status
        then (Done tt, told st1 (Ims_failed (HTTPError status)))
        else
          match body with
          | None =>
              if json_error_is_request_exception
              then (Done tt, told st1 (Ims_failed JSONDecodeError))
              else (Fails JSONDecodeError, st1)
          | Some (VDict d) =>
              (Done tt,
               told_all st1
                 (verdict_lines
                    (ims_matches d imsi msisdn scscf scscf_realm scscf_peer)
                    Ims_validated data (VDict d)))
          | Some _ => (Fails (Py AttributeError), st1)
          end
    end.
Proof.
  cbv zeta. unfold add_ims_subscriber_to_pyhss, stry. unfold sbind at 1.
  rewrite put_step.
  destruct (next_reply st) as [|status body]; [reflexivity|].
  unfold sbind at 1. unfold raise_for_status. cbn [fst]. fold (refused status).
  destruct (refused status); [reflexivity|]. cbn [sret].
  unfold sbind at 1. unfold json. cbn [snd].
  destruct body as [v|].
  2:{ cbn. now destruct json_error_is_request_exception. }
  cbn [sret]. unfold sbind at 1.
  set (st1 := log _ (answered st)).
  destruct v as [|b|n|s|l|d];
    try (rewrite (and_then_fails _ _ (Py AttributeError) st1)
           by (apply field_is_not_dict; discriminate);
         reflexivity).
  rewrite (and_then_done _ _ _ _ st1 (field_is_dict _ _ _ _)
             (and_then_done _ _ _ _ st1 (field_is_dict _ _ _ _)
                (and_then_done _ _ _ _ st1 (field_is_dict _ _ _ _)
                   (and_then_done _ _ _ _ st1 (field_is_dict _ _ _ _)
                      (field_is_dict _ _ _ _))))).
  fold (ims_matches d imsi msisdn scscf scscf_realm scscf_peer).
  destruct (ims_matches d imsi msisdn scscf scscf_realm scscf_peer);
    [reflexivity|].
  unfold sbind, say, told_all, verdict_lines. cbn.
  now rewrite <- !app_assoc.
Qed.

(** *** The steps of [main] *)

Lemma firstn_prefix_app {A} (n : nat) (es1 es2 : list A) :
  exists m, firstn n es1 = firstn m (es1 ++ es2).
Proof.
  destruct (Nat.le_gt_cases n (List.length es1)) as [H|H].
  - exists n. rewrite firstn_app.
    replace (n - List.length es1) with 0 by lia.
    cbn. now rewrite app_nil_r.
  - exists (List.length es1).
    rewrite firstn_app, Nat.sub_diag, firstn_all. cbn.
    rewrite app_nil_r. apply firstn_all2. lia.
Qed.

Lemma step_of_sret {A} (a : A) : step_of (sret a) [].
Proof.
  intros st out st' H. injection H as <- <-. split; [reflexivity|].
  now rewrite app_nil_r.
Qed.

Lemma step_of_bind {A B} (c : Prog A) (k : A -> Prog B) es1 es2 :
  step_of c es1 -> (forall x, step_of (k x) es2) ->
  step_of (sbind c k) (es1 ++ es2).
Proof.
  intros Hc Hk st out st' H. unfold sbind in H.
  destruct (c st) as [o1 st1] eqn:E1.
  destruct (Hc _ _ _ E1) as [Hh1 He1].
  destruct o1 as [x|e| |]; try contradiction.
  - destruct (Hk x _ _ _ H) as [Hh2 He2]. split; [congruence|].
    destruct out as [y|e| |]; try contradiction.
    + now rewrite He2, He1, app_assoc.
    + destruct He2 as [Hesc [n Hn]]. split; [exact Hesc|].
      exists (List.length es1 + n).
      now rewrite Hn, He1, <- app_assoc, firstn_app_2.
  - injection H as <- <-. split; [exact Hh1|].
    destruct He1 as [Hesc [n Hn]]. split; [exact Hesc|].
    destruct (firstn_prefix_app n es1 es2) as [m Hm].
    exists m. now rewrite Hn, Hm.
Qed.

Lemma step_of_open5gs imsi ki opc :
  step_of (add_to_open5gs imsi ki opc) [Run (dbctl_argv imsi ki opc)].
Proof.
  intros st out st' H. rewrite add_to_open5gs_table in H. cbv zeta in H.
  destruct (next_run st) as [code|]; injection H as <- <-;
    (split; [reflexivity|]).
  - reflexivity.
  - split; [now left|]. now exists 1.
Qed.

Lemma step_of_auc api_base_url imsi ki opc amf sqn :
  step_of (add_auc_to_pyhss api_base_url imsi ki opc amf sqn)
    [Put (auc_url api_base_url) (auc_data imsi ki opc amf sqn)].
Proof.
  intros st out st' H. rewrite add_auc_to_pyhss_table in H. cbv zeta in H.
  destruct (next_reply st) as [|status body].
  { injection H as <- <-. now split. }
  destruct (refused status).
  { injection H as <- <-. now split. }
  destruct body as [v|]; [|injection H as <- <-; now split].
  destruct v as [|b|n|s|l|d];
    try (injection H as <- <-; split; [reflexivity|];
         split; [right; now left|now exists 1]).
  destruct (lookup "auc_id" d) as [[|b|n|s|l|d']|];
    injection H as <- <-; now split.
Qed.

Lemma step_of_subscriber api_base_url imsi msisdn auc_id apn apns dl ul :
  step_of (add_subscriber_to_pyhss api_base_url imsi msisdn auc_id apn apns
             dl ul)
    [Put (format_pyhss_url api_base_url ++ "/subscriber/")%string
       (subscriber_data imsi msisdn auc_id apn apns dl ul)].
Proof.
  intros st out st' H. rewrite add_subscriber_to_pyhss_table in H.
  cbv zeta in H.
  destruct (next_reply st) as [|status body].
  { injection H as <- <-. now split. }
  destruct (refused status).
  { injection H as <- <-. now split. }
  destruct body as [v|].
  - destruct v; injection H as <- <-; (split; [reflexivity|]);
      try reflexivity; (split; [right; now left|now exists 1]).
  - destruct json_error_is_request_exception eqn:J; injection H as <- <-;
      (split; [reflexivity|]); [reflexivity|].
    split; [right; right; now split|now exists 1].
Qed.

Lemma step_of_ims api_base_url imsi msisdn sh peer ifc scscf realm lst :
  step_of (add_ims_subscriber_to_pyhss api_base_url imsi msisdn sh peer ifc
             scscf realm lst)
    [Put (format_pyhss_url api_base_url ++ "/ims_subscriber/")%string
       (ims_data imsi msisdn sh peer
          (match lst with
           | None => "[" ++ msisdn ++ "]"
           | Some l => l
           end)%string ifc scscf realm)].
Proof.
  intros st out st' H. rewrite add_ims_subscriber_to_pyhss_table in H.
  cbv zeta in H.
  destruct (next_reply st) as [|status body].
  { injection H as <- <-. now split. }
  destruct (refused status).
  { injection H as <- <-. now split. }
  destruct body as [v|].
  - destruct v; injection H as <- <-; (split; [reflexivity|]);
      try reflexivity; (split; [right; now left|now exists 1]).
  - destruct json_error_is_request_exception eqn:J; injection H as <- <-;
      (split; [reflexivity|]); [reflexivity|].
    split; [right; right; now split|now exists 1].
Qed.

(** The CTRL step makes no effect on the other back ends and lets no
    exception out. *)
Lemma on_hlr_add_to_osmohlr fuel host imsi msisdn port st out st' :
  on_hlr (add_to_osmohlr fuel host imsi msisdn port) st = (out, st') ->
  effects st' = effects st /\ web st' = web st /\ docker st' = docker st /\
  forall e, out <> Fails e.
Proof.
  unfold on_hlr, add_to_osmohlr, try_except. intros H.
  destruct (add_to_osmohlr_body fuel host imsi msisdn port (hlr st))
    as [[[]|e'| |] w']; injection H as <- <-; cbn; repeat split;
    discriminate.
Qed.

(** The steps after the AUC. *)
Lemma provision_plan fuel a v st out st' :
  provision fuel a v st = (out, st') ->
  (exists n, effects st' = effects st ++ firstn n (plan_after_auc a v)) /\
  (forall e, out = Fails e -> escapes e) /\
  (hlr st' <> hlr st -> effects st' = effects st ++ plan_after_auc a v).
Proof.
  intros H. unfold provision in H.
  set (c1 := if negb (skip_core_hss a)
             then add_to_open5gs (arg_imsi a) (arg_ki a) (arg_opc a)
             else sret tt) in H.
  set (c2 := if negb (skip_pyhss a) && truthy v
             then _ else sret tt) in H.
  set (es1 := if skip_core_hss a then []
              else [Run (dbctl_argv (arg_imsi a) (arg_ki a) (arg_opc a))]).
  set (es2 := if negb (skip_pyhss a) && truthy v
              then [subscriber_put a v; ims_put a] else []).
  assert (H1 : step_of c1 es1).
  { unfold c1, es1. destruct (skip_core_hss a); cbn [negb].
    - apply step_of_sret.
    - apply step_of_open5gs. }
  assert (H2 : step_of c2 es2).
  { unfold c2, es2. destruct (negb (skip_pyhss a) && truthy v).
    - apply (step_of_bind _ _ [subscriber_put a v] [ims_put a]).
      + apply step_of_subscriber.
      + intros _. apply step_of_ims.
    - apply step_of_sret. }
  assert (H12 : step_of (sbind c1 (fun _ => c2)) (plan_after_auc a v)).
  { apply step_of_bind; [exact H1|intros _; exact H2]. }
  change (sbind c1 (fun _ => sbind c2 (fun _ =>
            if negb (skip_osmohlr a)
            then on_hlr (add_to_osmohlr fuel (arg_osmohlr_ctrl_host a)
                           (arg_imsi a) (arg_msisdn a) 4259%N)
            else sret tt)) st = (out, st')) in H.
  unfold sbind in H.
  destruct (c1 st) as [o1 st1] eqn:E1.
  assert (E12 : sbind c1 (fun _ => c2) st
                = match o1 with
                  | Done _ => c2 st1
                  | Fails e => (Fails e, st1)
                  | Stalls => (Stalls, st1)
                  | Unfinished => (Unfinished, st1)
                  end).
  { unfold sbind. rewrite E1. now destruct o1. }
  destruct o1 as [[]|e| |].
  - destruct (c2 st1) as [o2 st2] eqn:E2.
    destruct (H12 _ _ _ E12) as [Hh Ho].
    destruct o2 as [[]|e| |].
    + destruct (skip_osmohlr a); cbn [negb] in H.
      * injection H as <- <-. split; [|split].
        -- exists (List.length (plan_after_auc a v)).
           now rewrite firstn_all.
        -- discriminate.
        -- intros _. exact Ho.
      * destruct (on_hlr_add_to_osmohlr _ _ _ _ _ _ _ _ H)
          as (He & _ & _ & Hn).
        split; [|split].
        -- exists (List.length (plan_after_auc a v)).
           now rewrite firstn_all, He.
        -- intros e ->. now destruct (Hn e).
        -- intros _. now rewrite He.
    + injection H as <- <-. destruct Ho as [Hesc Hn].
      split; [exact Hn|]. split; [now intros e' [= <-]|].
      intros Hne. now destruct (Hne Hh).
    + contradiction.
    + contradiction.
  - destruct (H12 _ _ _ E12) as [Hh [Hesc Hn]]. injection H as <- <-.
    split; [exact Hn|]. split; [now intros e' [= <-]|].
    intros Hne. now destruct (Hne Hh).
  - destruct (H12 _ _ _ E12) as [_ []].
  - destruct (H12 _ _ _ E12) as [_ []].
Qed.

(** *** What each step leaves behind *)

(** X9.  [add_to_open5gs] runs the one docker command and nothing else.  It
    returns whatever the exit code is, printing success for 0 and the
    failure otherwise; only a command that cannot be started raises, and
    then nothing is printed. *)
Theorem add_to_open5gs_result imsi ki opc st :
  let run := add_to_open5gs imsi ki opc st in
  effects (snd run) = effects st ++ [Run (dbctl_argv imsi ki opc)] /\
  hlr (snd run) = hlr st /\ web (snd run) = web st /\
  docker (snd run) = tl (docker st) /\
  match fst run with
  | Done _ =>
      exists code,
        next_run st = Exit code /\
        console (snd run)
        = console st ++ [if (code =? 0)%Z then Open5gs_added
                         else Open5gs_failed (CalledProcessError code)]
  | Fails e =>
      e = FileNotFoundError /\ next_run st = Unstartable /\
      console (snd run) = console st
  | _ => False
  end.
Proof.
  cbv zeta. rewrite add_to_open5gs_table. cbv zeta.
  destruct (next_run st) as [code|]; cbn; repeat split.
  now exists code.
Qed.

(** X11.  [add_subscriber_to_pyhss] makes exactly one PUT, to
    [/subscriber/] under the formatted URL and with the MSISDN as it was
    given, and touches nothing else.  When it returns it has printed either
    the request failure it caught, or, for an answer that is a [dict], the
    verdict of the five comparisons (the MSISDN against the stripped one):
    a mismatch is printed, not raised.  What gets out is the attribute error
    of an answer that is no [dict], and the decoding error of a body where
    it is no [RequestException]; nothing is printed then. *)
Theorem add_subscriber_to_pyhss_result
    api_base_url imsi msisdn auc_id default_apn apn_list dl ul st :
  let data := subscriber_data imsi msisdn auc_id default_apn apn_list dl ul in
  let run :=
    add_subscriber_to_pyhss api_base_url imsi msisdn auc_id default_apn
      apn_list dl ul st in
  effects (snd run)
  = effects st
    ++ [Put (format_pyhss_url api_base_url ++ "/subscriber/")%string data] /\
  hlr (snd run) = hlr st /\ docker (snd run) = docker st /\
  web (snd run) = tl (web st) /\
  match fst run with
  | Done _ =>
      (exists e, is_request_exception e = true /\
                 console (snd run) = console st ++ [Subscriber_failed e]) \/
      (exists status d,
          next_reply st = Reply status (Some (VDict d)) /\
          refused status = false /\
          console (snd run)
          = console st
            ++ verdict_lines
                 (subscriber_matches d imsi msisdn auc_id default_apn apn_list)
                 Subscriber_validated data (VDict d))
  | Fails e =>
      (e = Py AttributeError \/
       (e = JSONDecodeError /\ json_error_is_request_exception = false)) /\
      console (snd run) = console st
  | _ => False
  end.
Proof.
  cbv zeta. rewrite add_subscriber_to_pyhss_table. cbv zeta.
  destruct (next_reply st) as [|status body] eqn:Hr.
  { cbn. repeat split. left. now exists RequestException. }
  destruct (refused status) eqn:Hc.
  { cbn. repeat split. left. now exists (HTTPError status). }
  destruct body as [v|].
  - destruct v as [|b|n|s|l|d];
      try (cbn; repeat split; now left).
    cbn. repeat split. right. now exists status, d.
  - destruct json_error_is_request_exception eqn:J; cbn; repeat split.
    + left. exists JSONDecodeError. now split.
    + now right.
Qed.

(** X12.  [add_ims_subscriber_to_pyhss] makes exactly one PUT, to
    [/ims_subscriber/], with [msisdn_list] made of the MSISDN when none is
    given, and ends as [add_subscriber_to_pyhss] does: request failures and
    mismatches are printed, the attribute error of an answer that is no
    [dict] and, where it is no [RequestException], the decoding error get
    out. *)
Theorem add_ims_subscriber_to_pyhss_result
    api_base_url imsi msisdn sh_profile scscf_peer ifc_path scscf scscf_realm
    msisdn_list st :
  let data :=
    ims_data imsi msisdn sh_profile scscf_peer
      (match msisdn_list with
       | None => "[" ++ msisdn ++ "]"
       | Some l => l
       end)%string ifc_path scscf scscf_realm in
  let run :=
    add_ims_subscriber_to_pyhss api_base_url imsi msisdn sh_profile
      scscf_peer ifc_path scscf scscf_realm msisdn_list st in
  effects (snd run)
  = effects st
    ++ [Put (format_pyhss_url api_base_url ++ "/ims_subscriber/")%string
          data] /\
  hlr (snd run) = hlr st /\ docker (snd run) = docker st /\
  web (snd run) = tl (web st) /\
  match fst run with
  | Done _ =>
      (exists e, is_request_exception e = true /\
                 console (snd run) = console st ++ [Ims_failed e]) \/
      (exists status d,
          next_reply st = Reply status (Some (VDict d)) /\
          refused status = false /\
          console (snd run)
          = console st
            ++ verdict_lines
                 (ims_matches d imsi msisdn scscf scscf_realm scscf_peer)
                 Ims_validated data (VDict d))
  | Fails e =>
      (e = Py AttributeError \/
       (e = JSONDecodeError /\ json_error_is_request_exception = false)) /\
      console (snd run) = console st
  | _ => False
  end.
Proof.
  cbv zeta. rewrite add_ims_subscriber_to_pyhss_table. cbv zeta.
  destruct (next_reply st) as [|status body] eqn:Hr.
  { cbn. repeat split. left. now exists RequestException. }
  destruct (refused status) eqn:Hc.
  { cbn. repeat split. left. now exists (HTTPError status). }
  destruct body as [v|].
  - destruct v as [|b|n|s|l|d];
      try (cbn; repeat split; now left).
    cbn. repeat split. right. now exists status, d.
  - destruct json_error_is_request_exception eqn:J; cbn; repeat split.
    + left. exists JSONDecodeError. now split.
    + now right.
Qed.

(** X13.  Both subscriber requests carry the MSISDN as it was given, and
    both answers are compared with the stripped one.  So, where [==] on
    strings is equality of strings, an answer that gives the MSISDN back as
    it was sent is printed as a failed validation whenever the MSISDN has a
    plus sign at one of its ends, whatever its other fields are. *)
Theorem plus_msisdn_echo_not_validated
    api_base_url imsi msisdn auc_id default_apn apn_list dl ul
    sh_profile scscf_peer ifc_path scscf scscf_realm msisdn_list st status d :
  (forall s t, py_eq (VStr s) (VStr t) = (s =? t)%string) ->
  next_reply st = Reply status (Some (VDict d)) ->
  refused status = false ->
  getd d "msisdn" = VStr msisdn ->
  PyStr.strip_plus msisdn <> msisdn ->
  console (snd (add_subscriber_to_pyhss api_base_url imsi msisdn auc_id
                  default_apn apn_list dl ul st))
  = console st
    ++ [Validation_failed;
        Expected (subscriber_data imsi msisdn auc_id default_apn apn_list
                    dl ul);
        Received (VDict d)] /\
  console (snd (add_ims_subscriber_to_pyhss api_base_url imsi msisdn
                  sh_profile scscf_peer ifc_path scscf scscf_realm
                  msisdn_list st))
  = console st
    ++ [Validation_failed;
        Expected (ims_data imsi msisdn sh_profile scscf_peer
                    (match msisdn_list with
                     | None => "[" ++ msisdn ++ "]"
                     | Some l => l
                     end)%string ifc_path scscf scscf_realm);
        Received (VDict d)].
Proof.
  intros Heq Hr Hc Hm Hplus.
  assert (Hno : py_eq (getd d "msisdn") (VStr (PyStr.strip_plus msisdn))
                = false).
  { rewrite Hm, Heq. apply String.eqb_neq. congruence. }
  split.
  - rewrite add_subscriber_to_pyhss_table. cbv zeta. rewrite Hr, Hc.
    unfold subscriber_matches. rewrite Hno.
    rewrite andb_false_l, andb_false_r. reflexivity.
  - rewrite add_ims_subscriber_to_pyhss_table. cbv zeta. rewrite Hr, Hc.
    unfold ims_matches. rewrite Hno.
    rewrite andb_false_l, andb_false_r. reflexivity.
Qed.

(** *** [main] *)

(** What the AUC step leaves behind, whatever its outcome. *)
Lemma add_auc_to_pyhss_frame api_base_url imsi ki opc amf sqn st out st1 :
  add_auc_to_pyhss api_base_url imsi ki opc amf sqn st = (out, st1) ->
  effects st1
  = effects st ++ [Put (auc_url api_base_url) (auc_data imsi ki opc amf sqn)] /\
  hlr st1 = hlr st /\ docker st1 = docker st /\ web st1 = tl (web st) /\
  match out with
  | Done v =>
      if is_none v
      then exists e, console st1 = console st ++ [Auc_failed e]
      else console st1 = console st ++ [Auc_added v]
  | _ => console st1 = console st
  end.
Proof.
  intros H. rewrite add_auc_to_pyhss_table in H. cbv zeta in H.
  destruct (next_reply st) as [|status body].
  { injection H as <- <-. cbn. repeat split. now eexists. }
  destruct (refused status).
  { injection H as <- <-. cbn. repeat split. now eexists. }
  destruct body as [v|].
  2:{ injection H as <- <-. cbn. repeat split. now eexists. }
  destruct v as [|b|n|s|l|d]; try (injection H as <- <-; cbn; now repeat split).
  destruct (lookup "auc_id" d) as [[|b|n|s|l|d']|];
    injection H as <- <-; cbn; repeat split; now eexists.
Qed.

(** The CTRL step, when it is taken, is the last one and makes no effect. *)
Lemma last_step_frame fuel a st :
  let run :=
    (if negb (skip_osmohlr a)
     then on_hlr (add_to_osmohlr fuel (arg_osmohlr_ctrl_host a) (arg_imsi a)
                    (arg_msisdn a) 4259%N)
     else sret tt) st in
  effects (snd run) = effects st /\ web (snd run) = web st /\
  docker (snd run) = docker st.
Proof.
  cbv zeta. destruct (skip_osmohlr a); cbn [negb]; [now cbn|].
  destruct (on_hlr _ st) as [o st'] eqn:E.
  destruct (on_hlr_add_to_osmohlr _ _ _ _ _ _ _ _ E) as (H1 & H2 & H3 & _).
  now cbn.
Qed.

(** Without the subscriber requests, the steps after the AUC make no PUT. *)
Lemma provision_without_subscribers fuel a v st :
  negb (skip_pyhss a) && truthy v = false ->
  let run := provision fuel a v st in
  web (snd run) = web st /\
  effects (snd run)
  = effects st
    ++ (if skip_core_hss a then []
        else [Run (dbctl_argv (arg_imsi a) (arg_ki a) (arg_opc a))]).
Proof.
  intros H. cbv zeta. unfold provision. rewrite H.
  unfold sbind.
  destruct (skip_core_hss a); cbn [negb].
  - cbn [sret].
    destruct (last_step_frame fuel a st) as (H1 & H2 & _). cbv zeta in H1, H2.
    rewrite H1, H2. now rewrite app_nil_r.
  - rewrite add_to_open5gs_table. cbv zeta.
    destruct (next_run st) as [code|]; [|now cbn].
    cbn [sret].
    set (st1 := told _ _).
    destruct (last_step_frame fuel a st1) as (H1 & H2 & _).
    cbv zeta in H1, H2. rewrite H1, H2. now cbn.
Qed.

(** X14.  [main] makes its requests and runs in one fixed order: the AUC
    PUT, the docker run, the subscriber PUT, the IMS PUT, each present or
    not by the flags and the AUC id.  What it has done when it ends, however
    it ends, is a first part of that list; an exception that gets out of it
    is one of the three no handler catches; and the CTRL side is touched
    only once the whole list is done. *)
Theorem main_plan fuel a st :
  let run := main fuel a st in
  exists v n,
    (skip_pyhss a = true -> v = VNone) /\
    (forall v', skip_pyhss a = false ->
        fst (add_auc_to_pyhss (arg_pyhss_url a) (arg_imsi a) (arg_ki a)
               (arg_opc a) "8000" 0 st) = Done v' -> v = v') /\
    effects (snd run) = effects st ++ firstn n (plan a v) /\
    (forall e, fst run = Fails e -> escapes e) /\
    (hlr (snd run) <> hlr st -> effects (snd run) = effects st ++ plan a v).
Proof.
  cbv zeta. unfold main, plan. destruct (skip_pyhss a) eqn:Hskip; cbn [negb].
  - destruct (provision fuel a VNone st) as [out st'] eqn:E.
    destruct (provision_plan _ _ _ _ _ _ E) as ([n Hn] & Hf & Hh).
    exists VNone, n. cbn [fst snd app].
    split; [reflexivity|]. split; [discriminate|].
    split; [exact Hn|]. split; [exact Hf|exact Hh].
  - unfold sbind.
    destruct (add_auc_to_pyhss (arg_pyhss_url a) (arg_imsi a) (arg_ki a)
                (arg_opc a) "8000" 0 st) as [o st1] eqn:E1.
    pose proof (step_of_auc _ _ _ _ _ _ _ _ _ E1) as [Hh1 Ho1].
    fold (auc_put a) in Ho1.
    destruct o as [v|e| |]; try contradiction.
    + destruct (is_none v) eqn:Hnone.
      * exists v, 1. cbn [fst snd say hlr effects app firstn].
        split; [discriminate|]. split; [now intros v' _ [= <-]|].
        split; [exact Ho1|]. split; [discriminate|].
        intros Hne. now destruct (Hne Hh1).
      * destruct (provision fuel a v st1) as [out st'] eqn:E.
        destruct (provision_plan _ _ _ _ _ _ E) as ([n Hn] & Hf & Hh).
        exists v, (S n). cbn [fst snd app firstn].
        split; [discriminate|]. split; [now intros v' _ [= <-]|].
        split; [now rewrite Hn, Ho1, <- app_assoc|].
        split; [exact Hf|].
        intros Hne. rewrite Hh, Ho1, <- app_assoc; [reflexivity|].
        now rewrite Hh1.
    + destruct Ho1 as [Hesc [n Hn]].
      exists VNone, (Nat.min n 1). cbn [fst snd].
      split; [discriminate|]. split; [discriminate|].
      split.
      { rewrite Hn. f_equal. destruct n as [|n]; [reflexivity|].
        cbn [Nat.min app firstn]. now destruct n. }
      split; [now intros e' [= <-]|].
      intros Hne. now destruct (Hne Hh1).
Qed.

(** X15.  When the AUC step returns [None], [main] prints that it aborts
    and returns: the AUC PUT is all it has done, no docker run is made, the
    CTRL side is not touched, and the two lines printed are the failure of
    the AUC and the abort. *)
Theorem main_aborts fuel a st st1 :
  skip_pyhss a = false ->
  add_auc_to_pyhss (arg_pyhss_url a) (arg_imsi a) (arg_ki a) (arg_opc a)
    "8000" 0 st = (Done VNone, st1) ->
  main fuel a st = (Done tt, told st1 Aborting) /\
  effects st1 = effects st ++ [auc_put a] /\
  hlr st1 = hlr st /\ docker st1 = docker st /\
  exists e, console (told st1 Aborting)
            = console st ++ [Auc_failed e; Aborting].
Proof.
  intros Hskip Hauc.
  destruct (add_auc_to_pyhss_frame _ _ _ _ _ _ _ _ _ Hauc)
    as (He & Hh & Hd & _ & Hc).
  cbn [is_none] in Hc. destruct Hc as [e Hcon].
  split; [|split; [exact He|split; [exact Hh|split; [exact Hd|]]]].
  - unfold main. rewrite Hskip. cbn [negb]. unfold sbind. now rewrite Hauc.
  - exists e. cbn [told console]. now rewrite Hcon, <- app_assoc.
Qed.

(** X16.  With [--skip-pyhss], [main] makes no request to PyHSS at all: the
    answers are left as they were, and the only effect is the docker run,
    unless that is skipped too. *)
Theorem main_skip_pyhss fuel a st :
  skip_pyhss a = true ->
  let run := main fuel a st in
  web (snd run) = web st /\
  effects (snd run)
  = effects st
    ++ (if skip_core_hss a then []
        else [Run (dbctl_argv (arg_imsi a) (arg_ki a) (arg_opc a))]).
Proof.
  intros Hskip. cbv zeta. unfold main. rewrite Hskip. cbn [negb].
  apply (provision_without_subscribers fuel a VNone st).
  now rewrite andb_false_r.
Qed.

(** X17.  The subscriber requests depend on the truth value of the AUC id,
    not on its presence: when the AUC step returns an id that is not [None]
    but is false as a condition (the number 0, an empty string), [main] has
    printed the AUC as added and goes on, but makes neither subscriber PUT
    and prints nothing about it. *)
Theorem main_falsy_auc_id fuel a st v st1 :
  skip_pyhss a = false ->
  add_auc_to_pyhss (arg_pyhss_url a) (arg_imsi a) (arg_ki a) (arg_opc a)
    "8000" 0 st = (Done v, st1) ->
  is_none v = false ->
  truthy v = false ->
  let run := main fuel a st in
  console st1 = console st ++ [Auc_added v] /\
  web (snd run) = tl (web st) /\
  effects (snd run)
  = effects st
    ++ auc_put a
       :: (if skip_core_hss a then []
           else [Run (dbctl_argv (arg_imsi a) (arg_ki a) (arg_opc a))]).
Proof.
  intros Hskip Hauc Hnone Hfalse. cbv zeta.
  destruct (add_auc_to_pyhss_frame _ _ _ _ _ _ _ _ _ Hauc)
    as (He & _ & _ & Hw & Hc).
  rewrite Hnone in Hc. split; [exact Hc|].
  unfold main. rewrite Hskip. cbn [negb]. unfold sbind. rewrite Hauc, Hnone.
  destruct (provision_without_subscribers fuel a v st1) as [H1 H2].
  { now rewrite Hfalse, andb_false_r. }
  cbv zeta in H1, H2. rewrite H1, H2, Hw, He, <- app_assoc.
  split; reflexivity.
Qed.

End ProvisionFacts.

(** ** Runs of the client and of [main] *)

Section Runs.

Import SpecCtrl.

Local Open Scope string_scope.
Local Open Scope list_scope.

(** A command that is answered: the socket is left open, and the wire holds
    what was there and a prefix of the frame of the command. *)
Lemma send_command_socket_witness :
  let s := mkSocket [Idle; Data (frame_of "42 SET_REPLY x 5")] Silent [] []
             Open in
  let w := mkWorld (Some s) [] [42%N] (inl ECONNREFUSED) in
  let run := send_command 3 "x" (Some "5") w in
  exists s',
    sock (snd run) = Some s' /\ status s' = Open /\ at_end s' = Silent /\
    peer (snd run) = inl ECONNREFUSED /\
    (wire s' = [] \/
     exists r c n, cmd r "x" (Some "5") = inr c /\ wire s' = [] ++ firstn n c).
Proof.
  intros s w run.
  exact (@send_command_socket codec 3 "x" (Some "5") w s (fst run) (snd run)
           eq_refl (surjective_pairing run)).
Defined.

(** A client without a socket, and one whose connection was refused. *)
Lemma send_command_not_connected_witness :
  let w := mkWorld None [] [42%N] (inl ECONNREFUSED) in
  let w' := mkWorld (Some fresh_socket) [] [42%N] (inl ECONNREFUSED) in
  send_command 3 "x" (Some "5") w
  = (Raises AttributeError, add_line w (Sending_command "x")) /\
  send_command 3 "x" (Some "5") w'
  = (Raises (SocketError EPIPE), drawn (add_line w' (Sending_command "x"))).
Proof.
  intros w w'. split.
  - exact (proj1 (@send_command_not_connected codec 3 "x" (Some "5") w)
             eq_refl).
  - assert (Hst : status fresh_socket <> Open) by (cbn; discriminate).
    exact (proj2 (@send_command_not_connected codec 3 "x" (Some "5") w')
             fresh_socket (frame_of "42 SET x 5") eq_refl Hst eq_refl).
Defined.

(** An idle moment, a notification and another idle moment come before the
    reply; a second reply is queued behind it and stays unread. *)
Lemma recv_loop_finds_reply_witness :
  let pre := [Idle; Data (frame_of "0 TRAP alarm raised"); Idle] in
  let c := frame_of "42 SET_REPLY x 5" in
  let rest := [Data (frame_of "43 SET_REPLY y 6")] in
  let s := mkSocket (pre ++ Data c :: rest) Silent [] [] Open in
  let w := mkWorld (Some s) [] [] (inl ECONNREFUSED) in
  Forall passed_over pre /\
  recv_loop 4 w = (Returns c, set_sock w (Some (set_inbox s rest))).
Proof.
  intros pre c rest s w.
  assert (Hpre : Forall passed_over pre).
  { apply Forall_cons; [exact I|].
    apply Forall_cons; [split; [vm_compute; lia|reflexivity]|].
    apply Forall_cons; [exact I|apply Forall_nil]. }
  assert (Hlen : List.length c <= 4096) by (vm_compute; lia).
  assert (Hfuel : List.length pre < 4) by (cbn; lia).
  split; [exact Hpre|].
  exact (@recv_loop_finds_reply codec pre c rest c
           (Some "42", Some "x", Some "5") 4 w s
           eq_refl eq_refl eq_refl Hpre Hlen eq_refl eq_refl Hfuel).
Defined.

(** With the codec of the wire format every split takes at least the two
    bytes of the length away: the drain of two queued notifications ends. *)
Lemma leftovers_terminates_witness :
  let w := session [Data (frame_of "0 TRAP alarm raised"
                          ++ frame_of "0 TRAP alarm cleared")] Silent [] [] in
  1024 <= 1024 /\ fst (_leftovers 1024 MSG_DONTWAIT w) <> OutOfFuel.
Proof.
  intros w. split; [apply le_n|].
  apply (@leftovers_terminates codec); [|apply le_n].
  intros data head tail H.
  pose proof (SpecCtrlFacts.split_combined_shorter data head tail H). lia.
Defined.

(** The connection to OsmoHLR is refused. *)
Lemma add_to_osmohlr_never_raises_witness :
  let w := mkWorld None [] [42%N] (inl ECONNREFUSED) in
  add_to_osmohlr 3 "hlr.local" "001010000000001" "+4915112345678" 4259%N w
  = (Returns tt,
     add_line (set_sock w (Some fresh_socket))
       (Error_while_adding (SocketError ECONNREFUSED))).
Proof.
  intros w.
  exact (proj2 (proj2 (@add_to_osmohlr_never_raises codec 3 "hlr.local"
                         "001010000000001" "+4915112345678" 4259%N w))
           ECONNREFUSED eq_refl).
Defined.

(** Both commands are answered and the socket is closed; the connection
    breaks before the first answer and the socket is left open. *)
Lemma add_to_osmohlr_closes_at_the_end_witness :
  let imsi := "001010000000001" in
  let good :=
    mkSocket
      [Idle;
       Data (frame_of "42 SET_REPLY subscriber.create 001010000000001");
       Idle;
       Data (frame_of
               "43 SET_REPLY subscriber.by-imsi-001010000000001.msisdn 4915112345678")]
      Silent [] [] Open in
  let bad := mkSocket [Idle] (Broken ECONNRESET) [] [] Open in
  let run s :=
    add_to_osmohlr 5 "hlr.local" imsi "+4915112345678" 4259%N
      (mkWorld None [] [42%N; 43%N] (inr s)) in
  (exists s', sock (snd (run good)) = Some s' /\ status s' = Closed) /\
  (exists s', sock (snd (run bad)) = Some s' /\ status s' = Open).
Proof.
  intros imsi good bad run. split.
  - destruct (@add_to_osmohlr_closes_at_the_end codec 5 "hlr.local" imsi
                "+4915112345678" 4259%N
                (mkWorld None [] [42%N; 43%N] (inr good)) good _ _ eq_refl
                (surjective_pairing _)) as (s' & _ & H2 & H3).
    exists s'. split; [exact H2|exact H3].
  - destruct (@add_to_osmohlr_closes_at_the_end codec 5 "hlr.local" imsi
                "+4915112345678" 4259%N
                (mkWorld None [] [42%N; 43%N] (inr bad)) bad _ _ eq_refl
                (surjective_pairing _)) as (s' & _ & H2 & H3).
    exists s'. split; [exact H2|exact H3].
Defined.

(** A host name, with and without the scheme. *)
Lemma format_pyhss_url_scheme_witness :
  format_pyhss_url "http://hss.local" = format_pyhss_url "hss.local".
Proof.
  exact (proj1 (proj2 (format_pyhss_url_scheme "hss.local")) eq_refl).
Defined.

(** PyHSS answers the subscriber request with the data it was sent, the
    MSISDN with its plus sign. *)
Lemma plus_msisdn_echo_not_validated_witness :
  let imsi := "001010000000001" in
  let msisdn := "+4915112345678" in
  let data := @subscriber_data IntPython imsi msisdn (VNum 7%Z) 1 "1,2" 0 0 in
  let st := site (session [] Silent [] []) [Reply 200 (Some (VDict data))] [] in
  console (snd (add_subscriber_to_pyhss "hss.local" imsi msisdn (VNum 7%Z) 1
                  "1,2" 0 0 st))
  = [Validation_failed; Expected data; Received (VDict data)] /\
  console (snd (add_ims_subscriber_to_pyhss "hss.local" imsi msisdn "string"
                  "scscf.ims" "default_ifc.xml" "sip:scscf.ims:6060" "ims"
                  None st))
  = [Validation_failed;
     Expected (ims_data imsi msisdn "string" "scscf.ims" "[+4915112345678]"
                 "default_ifc.xml" "sip:scscf.ims:6060" "ims");
     Received (VDict data)].
Proof.
  intros imsi msisdn data st.
  assert (Hplus : PyStr.strip_plus msisdn <> msisdn)
    by (vm_compute; discriminate).
  exact (plus_msisdn_echo_not_validated (py := IntPython)
           "hss.local" imsi msisdn (VNum 7%Z) 1 "1,2" 0 0
           "string" "scscf.ims" "default_ifc.xml" "sip:scscf.ims:6060" "ims"
           None st 200 data (fun s t => eq_refl) eq_refl eq_refl eq_refl
           Hplus).
Defined.

(** PyHSS refuses the AUC with 404: [main] stops after that request. *)
Lemma main_aborts_witness :
  let a := mkArgs "001010000000001" "465B5CE8B199B49FAA5F0A2EE238A6BC"
             "E8ED289DEBA952E4283B54E88E6183CA" "+4915112345678" "hss.local"
             "hlr.local" false false false in
  let st := @site IntPython (session [] Silent [] []) [Reply 404 None]
              [Exit 0] in
  let run := main 3 a st in
  fst run = Done tt /\
  effects (snd run) = [auc_put a] /\
  docker (snd run) = [Exit 0] /\
  console (snd run) = [Auc_failed (HTTPError 404); Aborting].
Proof.
  intros a st run.
  pose (st1 := snd (add_auc_to_pyhss (arg_pyhss_url a) (arg_imsi a)
                      (arg_ki a) (arg_opc a) "8000" 0 st)).
  destruct (main_aborts (py := IntPython) (codec := codec) 3 a st st1
              eq_refl eq_refl) as (Hmain & He & _ & Hd & _).
  unfold run. rewrite Hmain. cbn [fst snd told effects docker console].
  split; [reflexivity|]. split; [exact He|]. split; [exact Hd|reflexivity].
Defined.

(** [--skip-pyhss]: the answer PyHSS would give is never asked for. *)
Lemma main_skip_pyhss_witness :
  let a := mkArgs "001010000000001" "465B5CE8B199B49FAA5F0A2EE238A6BC"
             "E8ED289DEBA952E4283B54E88E6183CA" "+4915112345678" "hss.local"
             "hlr.local" false true false in
  let st := @site IntPython (session [] Silent [] [])
              [Reply 200 (Some (VDict [("auc_id", VNum 7%Z)]))] [Exit 0] in
  web (snd (main 3 a st)) = [Reply 200 (Some (VDict [("auc_id", VNum 7%Z)]))] /\
  effects (snd (main 3 a st))
  = [Run (dbctl_argv "001010000000001" "465B5CE8B199B49FAA5F0A2EE238A6BC"
            "E8ED289DEBA952E4283B54E88E6183CA")].
Proof.
  intros a st.
  exact (main_skip_pyhss (py := IntPython) (codec := codec) 3 a st eq_refl).
Defined.

(** PyHSS gives the AUC the id 0: it is printed as added, the docker run is
    made, and the subscriber is never sent to PyHSS. *)
Lemma main_falsy_auc_id_witness :
  let a := mkArgs "001010000000001" "465B5CE8B199B49FAA5F0A2EE238A6BC"
             "E8ED289DEBA952E4283B54E88E6183CA" "+4915112345678" "hss.local"
             "hlr.local" false false false in
  let st := @site IntPython (session [] Silent [] [])
              [Reply 200 (Some (VDict [("auc_id", VNum 0%Z)]));
               Reply 200 (Some (VDict []))] [Exit 0] in
  let st1 := snd (add_auc_to_pyhss (arg_pyhss_url a) (arg_imsi a) (arg_ki a)
                    (arg_opc a) "8000" 0 st) in
  console st1 = [Auc_added (VNum 0%Z)] /\
  web (snd (main 3 a st)) = [Reply 200 (Some (VDict []))] /\
  effects (snd (main 3 a st))
  = [auc_put a;
     Run (dbctl_argv "001010000000001" "465B5CE8B199B49FAA5F0A2EE238A6BC"
            "E8ED289DEBA952E4283B54E88E6183CA")].
Proof.
  intros a st st1.
  exact (main_falsy_auc_id (py := IntPython) (codec := codec) 3 a st
           (VNum 0%Z) st1 eq_refl eq_refl eq_refl eq_refl).
Defined.

(** OsmoHLR confirms [subscriber.create]: the verdict is printed, the
    MSISDN command is announced, and its frame follows that of the create
    command on the wire. *)
Lemma msisdn_command_after_create_witness :
  let hlr := mkSocket
    [Idle; Data (frame_of "42 SET_REPLY subscriber.create 001");
     Idle; Data (frame_of "43 SET_REPLY subscriber.by-imsi-001.msisdn 4912")]
    Silent [] [] Open in
  let w := mkWorld None [] [42%N; 43%N] (inr hlr) in
  let final := add_to_osmohlr 5 "hlr" "001" "+4912" 4259%N w in
  In (Sending_command "subscriber.by-imsi-001.msisdn") (stdout (snd final)) /\
  wire_of (snd final)
  = Some (frame_of "42 SET subscriber.create 001"
          ++ frame_of "43 SET subscriber.by-imsi-001.msisdn 4912").
Proof.
  intros hlr w final.
  pose (w0 := snd ((__init__ ;;; connect "hlr" 4259%N) w)).
  pose (run1 := send_command 5 "subscriber.create" (Some "001") w0).
  destruct (@msisdn_command_after_create codec 5 "hlr" "001" "+4912" 4259%N
              w w0 (fst run1) (snd run1) eq_refl (surjective_pairing run1))
    as (Hgo & _ & _).
  destruct (Hgo (Some (encode "42 SET_REPLY subscriber.create 001"), true,
                 Some "001")
              (encode "42 SET_REPLY subscriber.create 001")
              "42 SET_REPLY subscriber.create 001"
              eq_refl eq_refl eq_refl)
    as (_ & _ & [ls Hls] & Hwire).
  split.
  - fold final in Hls. rewrite Hls. apply in_or_app. right. now left.
  - pose (s1 := mkSocket
                  [Idle;
                   Data (frame_of
                           "43 SET_REPLY subscriber.by-imsi-001.msisdn 4912")]
                  Silent [] (frame_of "42 SET subscriber.create 001") Open).
    destruct (Hwire s1 43%N
                (frame_of "43 SET subscriber.by-imsi-001.msisdn 4912")
                (mkWorld
                   (Some (set_inbox s1
                            [Data (frame_of
                                     "43 SET_REPLY subscriber.by-imsi-001.msisdn 4912")]))
                   [Connected_to "hlr" 4259%N;
                    Sending_command "subscriber.create";
                    Subscriber_added;
                    Sending_command "subscriber.by-imsi-001.msisdn"]
                   [] (inr hlr))
                eq_refl)
      as (s' & Hs' & _ & Happ).
    + exists false. eexists. split; [reflexivity|]. split; reflexivity.
    + fold final in Hs'. unfold wire_of. rewrite Hs'. cbn [option_map].
      now rewrite (Happ eq_refl eq_refl).
Defined.

(** C8, counterexample. OsmoHLR answers [subscriber.create] with a reply
    whose payload is not UTF-8.  The MSISDN command is never issued: the
    create frame is all that was written, the only command announced is
    [subscriber.create], and the exception is printed by the handler at
    line 216; the socket is left open. *)
Lemma msisdn_command_not_issued :
  let reply := frame_of ("42 SET_REPLY subscriber.create "
                         ++ String "255"%char "")%string in
  let hlr := mkSocket
    [Idle; Data reply;
     Idle; Data (frame_of "43 SET_REPLY subscriber.by-imsi-001.msisdn 4912")]
    Silent [] [] Open in
  let w := mkWorld None [] [42%N; 43%N] (inr hlr) in
  let final := add_to_osmohlr 5 "hlr" "001" "+4912" 4259%N w in
  skip_traps reply = inr (Some reply) /\
  decode_utf8 (payload_of reply) = None /\
  fst final = Returns tt /\
  wire_of (snd final) = Some (frame_of "42 SET subscriber.create 001") /\
  stdout (snd final)
  = [Connected_to "hlr" 4259%N;
     Sending_command "subscriber.create";
     Error_while_adding
       (CodecError
          (MismatchError ("42", "SET_REPLY", "subscriber.create", Some "001")
             ("42", "SET_REPLY", "subscriber.create",
              Some (String "255"%char ""))))] /\
  option_map status (sock (snd final)) = Some Open.
Proof. vm_compute. repeat split. Qed.

(** C10, counterexample. One byte is queued when the drain runs: it is
    read, [split_combined] cannot read a length from it, and [_leftovers]
    ends with that exception instead of returning [True]. *)
Lemma leftovers_raises_on_short_read :
  let s := mkSocket [Data [x00]] Silent [] [] Open in
  let w := mkWorld (Some s) [] [] (inl ECONNREFUSED) in
  sock_recv 1024 MSG_DONTWAIT s = (Got [x00], set_inbox s []) /\
  split_combined [x00] = inl StructError /\
  _leftovers 3 MSG_DONTWAIT w
  = (Raises (CodecError StructError), set_sock w (Some (set_inbox s []))) /\
  (forall b, fst (_leftovers 3 MSG_DONTWAIT w) <> Returns b).
Proof. vm_compute. repeat split; discriminate. Qed.

End Runs.
